(** * CavemanAnalyzer: the asynchronous job coordinator

    A shallow embedding of the job-coordination logic of the
    [CavemanAnalyzer] React component (the retrying version with the
    progress bar): the readiness test on webhook responses, the
    elapsed-time progress estimator, the retrying submission
    [analyzeImage]/[makeRequest] and the polling loop
    [startPollingForVideo].

    The component is event driven.  Its behaviour is modelled by a step
    function over a [World]: the React state, a millisecond clock, the
    timers registered with [setInterval]/[setTimeout], the requests still
    in flight, and a log of the observable effects (toasts, requests sent,
    console errors).  The environment chooses the events: a click on the
    button, the passing of time, a due timer that runs, the outcome of a
    request in flight.

    A closure created during a render sees the state of that render, not
    the state at the time it runs.  [analyzeImage] and the
    [startPollingForVideo] it calls belong to the render in which the button
    was clicked; the model passes that render's state along ([render]) and
    stores the captured variables inside the timer or the pending
    continuation, as the JavaScript closures do.

    Conventions: numbers that the code only compares or adds are integers;
    the percentage is a binary64 number, given by its exact value; the
    [FileReader] of [convertToBase64] answers at once; a timer runs at the
    instant it is due; the one-second interval that refreshes the progress
    bar is an event enabled while its effect is mounted, its phase left to
    the environment. *)

From Stdlib Require Import ZArith NArith List Bool Lia String Ascii.
From Stdlib Require Import QArith Qminmax Qround Qpower Lqa DecimalString.
Import ListNotations.

(** ** JavaScript strings *)

(** A JavaScript string is a sequence of UTF-16 code units. *)
Definition jsstring := list N.

Definition lit (s : string) : jsstring :=
  map N_of_ascii (list_ascii_of_string s).

(** A code point outside the basic plane, as its surrogate pair. *)
Definition astral (cp : N) : jsstring :=
  [ (0xD800 + (cp - 0x10000) / 1024)%N ; (0xDC00 + (cp - 0x10000) mod 1024)%N ].

Fixpoint jseq (a b : jsstring) : bool :=
  match a, b with
  | [], [] => true
  | x :: a', y :: b' => (x =? y)%N && jseq a' b'
  | _, _ => false
  end.

(** WhiteSpace and LineTerminator code units, the ones
    [String.prototype.trim] strips. *)
Definition isWhiteSpace (c : N) : bool :=
  ((c =? 0x0009) || (c =? 0x000A) || (c =? 0x000B) || (c =? 0x000C)
   || (c =? 0x000D) || (c =? 0x0020) || (c =? 0x00A0) || (c =? 0x1680)
   || ((0x2000 <=? c) && (c <=? 0x200A))
   || (c =? 0x2028) || (c =? 0x2029) || (c =? 0x202F) || (c =? 0x205F)
   || (c =? 0x3000) || (c =? 0xFEFF))%N.

Fixpoint trimStart (s : jsstring) : jsstring :=
  match s with
  | [] => []
  | c :: t => if isWhiteSpace c then trimStart t else s
  end.

Definition trimEnd (s : jsstring) : jsstring := rev (trimStart (rev s)).

Definition trim (s : jsstring) : jsstring := trimEnd (trimStart s).

Fixpoint startsWith (s p : jsstring) : bool :=
  match p with
  | [] => true
  | c :: p' =>
      match s with
      | [] => false
      | d :: s' => (d =? c)%N && startsWith s' p'
      end
  end.

(** Truthiness of a string and of an optional string field. *)
Definition truthy (s : jsstring) : bool :=
  match s with [] => false | _ :: _ => true end.

Definition truthy_opt (o : option jsstring) : bool :=
  match o with Some s => truthy s | None => false end.

(** [a || b] on an optional string with a literal default. *)
Definition orElse (o : option jsstring) (d : jsstring) : jsstring :=
  match o with
  | Some s => if truthy s then s else d
  | None => d
  end.

(** ** Webhook responses *)

Record AnalysisResponse := mkResponse {
  status : jsstring;
  video_url : option jsstring;
  message : option jsstring;
  processing_status : option jsstring;
  created_at : option jsstring;
  request_id : option jsstring
}.

(** What the two awaits [fetch(...)] and [response.json()] can give. *)
Inductive FetchOutcome :=
| FetchRejects                                   (* fetch() rejects: network error *)
| Response (ok : bool) (body : option AnalysisResponse).
                                                 (* body = None: response.json() rejects *)

(** The test guarding both success branches:
    [result.status === "success" && result.video_url &&
     result.video_url.trim() && result.video_url.startsWith('http')]. *)
Definition hasVideo (r : AnalysisResponse) : bool :=
  jseq (status r) (lit "success")
  && match video_url r with
     | None => false
     | Some u => truthy u && truthy (trim u) && startsWith u (lit "http")
     end.

Definition isSuccess (r : AnalysisResponse) : bool :=
  jseq (status r) (lit "success").

(** The validity rule in the words of the specification: after trimming,
    non-empty and beginning with [http://] or [https://]. *)
Definition spec_validUrl (u : jsstring) : bool :=
  let t := trim u in
  truthy t && (startsWith t (lit "http://") || startsWith t (lit "https://")).

Definition spec_ready (r : AnalysisResponse) : bool :=
  isSuccess r
  && match video_url r with None => false | Some u => spec_validUrl u end.

(** ** Numbers *)

(** A JavaScript number is a binary64 floating-point number; it is given
    here by its exact value, a rational.  [round64] is the rounding that
    every arithmetic operation ends with. *)

(** The integer nearest to [x], ties to the even one. *)
Definition roundHalfEven (x : Q) : Z :=
  let f := Qfloor x in
  match (x - inject_Z f ?= 1 # 2)%Q with
  | Lt => f
  | Gt => (f + 1)%Z
  | Eq => if Z.even f then f else (f + 1)%Z
  end.

(** For [0 < q], the [b] with [2 ^ b <= q < 2 ^ (b + 1)]. *)
Definition binade (q : Q) : Z :=
  let k := (Z.log2 (Qnum q) - Z.log2 (Zpos (Qden q)))%Z in
  if Qle_bool (2 ^ k) q then k else (k - 1)%Z.

(** A positive [q] rounded to 53 significant bits. *)
Definition roundPositive (q : Q) : Q :=
  let u := (2 ^ (binade q - 52))%Q in
  (inject_Z (roundHalfEven (q / u)) * u)%Q.

(** The binary64 number nearest to [q], ties to even; the exponent range is
    not bounded. *)
Definition round64 (q : Q) : Q :=
  match (q ?= 0)%Q with
  | Eq => 0%Q
  | Gt => Qred (roundPositive q)
  | Lt => Qred (- roundPositive (- q))
  end.

(** Half a unit in the last place, relative to the number. *)
Definition eps64 : Q := 1 # 9007199254740992.

(** ** Progress estimator *)

(** [!processingStartTime]: [null] and [0] are falsy. *)
Definition noStart (start : option Z) : bool :=
  match start with None => true | Some t => (t =? 0)%Z end.

(** [Math.floor((Date.now() - processingStartTime) / 1000)]; for clock
    values the rounded quotient has this floor ([elapsedSeconds_as_computed]
    below). *)
Definition elapsedSeconds (start now : Z) : Z := ((now - start) / 1000)%Z.

Definition totalEstimatedTime : Z := 240.

(** [Math.min((elapsed / totalEstimatedTime) * 100, 95)]: the quotient
    and the product are each rounded. *)
Definition percentage (elapsed : Z) : Q :=
  Qmin (round64 (round64 (inject_Z elapsed / inject_Z totalEstimatedTime) * 100)) 95.

(** The same formula over the rationals, without rounding. *)
Definition exactPercentage (elapsed : Z) : Q :=
  Qmin ((inject_Z elapsed / inject_Z totalEstimatedTime) * 100) 95.

Definition getProgress (start : option Z) (now : Z) : Q :=
  match start with
  | None => 0
  | Some t => if (t =? 0)%Z then 0 else percentage (elapsedSeconds t now)
  end.

Definition msgAnalyzing : jsstring :=
  astral 0x1F50D ++ lit " Cave spirits analyzing your essence...".
Definition msgGeneratingImage : jsstring :=
  astral 0x1F3A8 ++ lit " Ancient artists crafting your caveman form...".
Definition msgGeneratingVideo : jsstring :=
  astral 0x1F3AC ++ lit " Weaving time magic for your transformation...".

Definition processingMessage (elapsed : Z) : jsstring :=
  if (elapsed <? 15)%Z then msgAnalyzing
  else if (elapsed <? 90)%Z then msgGeneratingImage
  else msgGeneratingVideo.

Definition getProcessingMessage (start : option Z) (now : Z) : jsstring :=
  match start with
  | None => lit "Preparing cave magic..."
  | Some t =>
      if (t =? 0)%Z then lit "Preparing cave magic..."
      else processingMessage (elapsedSeconds t now)
  end.

Definition estimatedTimeRemaining (elapsed : Z) : jsstring :=
  if (elapsed <? 15)%Z then lit "2-4 minutes remaining"
  else if (elapsed <? 90)%Z then lit "1-3 minutes remaining"
  else if (elapsed <? 180)%Z then lit "1-2 minutes remaining"
  else lit "Almost done...".

Definition getEstimatedTimeRemaining (start : option Z) (now : Z) : jsstring :=
  match start with
  | None => lit "2-4 minutes"
  | Some t =>
      if (t =? 0)%Z then lit "2-4 minutes"
      else estimatedTimeRemaining (elapsedSeconds t now)
  end.

(** The type of the [processingStage] cell. *)
Inductive Stage := analyzing | generating_image | generating_video.

(** The stage label in the words of the specification's table. *)
Definition spec_stageLabel (elapsed : Z) : jsstring :=
  if (elapsed <? 15)%Z then lit "analyzing"
  else if (elapsed <? 90)%Z then lit "generating image"
  else lit "generating video".

(** The stage of that table, as a value of the cell's type. *)
Definition spec_stage (elapsed : Z) : Stage :=
  if (elapsed <? 15)%Z then analyzing
  else if (elapsed <? 90)%Z then generating_image
  else generating_video.

(** ** The component: state, effects, timers and requests in flight *)

Local Open Scope Z_scope.

Record File := mkFile {
  name : jsstring;
  type : jsstring;
  size : Z;
  readerResult : option jsstring
    (* reader.result after readAsDataURL(file); None: the reader fails *)
}.

(** [s.split(sep)] for a separator of one code unit. *)
Fixpoint splitOn (sep : N) (s : jsstring) : list jsstring :=
  match s with
  | [] => [[]]
  | c :: t =>
      if (c =? sep)%N then [] :: splitOn sep t
      else match splitOn sep t with
           | [] => [[c]]
           | h :: r => (c :: h) :: r
           end
  end.

Definition comma : N := 44.

(** What the [onload] of [convertToBase64] resolves the promise to when the
    reader's result is [result]: [base64.split(',')[1]], [None] for
    [undefined]. *)
Definition base64Data (result : jsstring) : option jsstring :=
  nth_error (splitOn comma result) 1.

(** [convertToBase64(file)]: the promise rejects ([None]) when the reader
    fails, and otherwise resolves, to a string or to [undefined]
    ([Some None]). *)
Definition convertToBase64 (f : File) : option (option jsstring) :=
  option_map base64Data (readerResult f).

(** The [useState] cells the coordinator reads or writes.  No call of
    [setProcessingStage] exists, so that cell has no setter here. *)
Record State := mkState {
  selectedImage : option File;
  isAnalyzing : bool;
  videoUrl : option jsstring;
  isProcessing : bool;
  requestId : option jsstring;
  processingStage : Stage;
  processingStartTime : option Z;
  progress : Q;
  showSuccessAnimation : bool
}.

Definition initialState : State :=
  mkState None false None false None analyzing None 0%Q false.

Definition setSelectedImage (f : option File) (s : State) : State :=
  mkState f (isAnalyzing s) (videoUrl s) (isProcessing s) (requestId s)
          (processingStage s) (processingStartTime s) (progress s)
          (showSuccessAnimation s).

Definition setIsAnalyzing (b : bool) (s : State) : State :=
  mkState (selectedImage s) b (videoUrl s) (isProcessing s) (requestId s)
          (processingStage s) (processingStartTime s) (progress s)
          (showSuccessAnimation s).
Definition setVideoUrl (u : option jsstring) (s : State) : State :=
  mkState (selectedImage s) (isAnalyzing s) u (isProcessing s) (requestId s)
          (processingStage s) (processingStartTime s) (progress s)
          (showSuccessAnimation s).
Definition setIsProcessing (b : bool) (s : State) : State :=
  mkState (selectedImage s) (isAnalyzing s) (videoUrl s) b (requestId s)
          (processingStage s) (processingStartTime s) (progress s)
          (showSuccessAnimation s).
Definition setRequestId (r : option jsstring) (s : State) : State :=
  mkState (selectedImage s) (isAnalyzing s) (videoUrl s) (isProcessing s) r
          (processingStage s) (processingStartTime s) (progress s)
          (showSuccessAnimation s).
Definition setProcessingStartTime (t : option Z) (s : State) : State :=
  mkState (selectedImage s) (isAnalyzing s) (videoUrl s) (isProcessing s)
          (requestId s) (processingStage s) t (progress s)
          (showSuccessAnimation s).
Definition setProgress (p : Q) (s : State) : State :=
  mkState (selectedImage s) (isAnalyzing s) (videoUrl s) (isProcessing s)
          (requestId s) (processingStage s) (processingStartTime s) p
          (showSuccessAnimation s).
Definition setShowSuccessAnimation (b : bool) (s : State) : State :=
  mkState (selectedImage s) (isAnalyzing s) (videoUrl s) (isProcessing s)
          (requestId s) (processingStage s) (processingStartTime s)
          (progress s) b.

(** JSON values of the request bodies.  [JIsoDate ms] stands for the
    string [new Date(ms).toISOString()]. *)
Inductive JValue :=
| JString (s : jsstring)
| JNumber (z : Z)
| JBool (b : bool)
| JNull
| JUndefined
| JIsoDate (ms : Z).

(** An object literal, fields in source order. *)
Definition Payload := list (string * JValue).

Definition keys (p : Payload) : list string := map fst p.

(** [obj.k] *)
Fixpoint field (k : string) (p : Payload) : option JValue :=
  match p with
  | [] => None
  | (k', v) :: rest => if String.eqb k' k then Some v else field k rest
  end.

Definition isUndefined (v : JValue) : bool :=
  match v with JUndefined => true | _ => false end.

(** [JSON.stringify(obj)], as the object the receiver parses: fields whose
    value is [undefined] are left out. *)
Definition stringify (p : Payload) : Payload :=
  filter (fun kv => negb (isUndefined (snd kv))) p.

Record Toast := mkToast {
  title : jsstring;
  description : jsstring;
  destructive : bool
}.

Inductive Effect :=
| EToast (t : Toast)
| EFetch (body : Payload)
| EConsoleError (label : jsstring).

(** Timer callbacks, each with the variables its closure captured. *)
Inductive Callback :=
| PollTick (capturedRequestId : option jsstring)
| PollDeadline (pollInterval : nat) (capturedIsProcessing : bool)
| HideSuccessAnimation
| RetryDelay (attempt : Z) (render : State).

Record Timer := mkTimer {
  tid : nat;
  due : Z;
  period : option Z;           (* Some p for setInterval, None for setTimeout *)
  callback : Callback
}.

(** What waits for a response of the webhook. *)
Inductive Continuation :=
| SubmitAwait (attempt : Z) (render : State)
| PollAwait (pollInterval : nat).

Record Pending := mkPending { rid : nat; cont : Continuation }.

Record World := mkWorld {
  st : State;
  now : Z;                     (* Date.now(), in milliseconds *)
  timers : list Timer;
  inflight : list Pending;
  nextId : nat;                (* next timer or request identifier *)
  log : list Effect            (* oldest first *)
}.

(** The component freshly mounted at time [t], with the picture [f]
    selected. *)
Definition initialWorld (f : File) (t : Z) : World :=
  mkWorld (setSelectedImage (Some f) initialState) t [] [] 0%nat [].

Definition setState (f : State -> State) (w : World) : World :=
  mkWorld (f (st w)) (now w) (timers w) (inflight w) (nextId w) (log w).

Definition emit (e : Effect) (w : World) : World :=
  mkWorld (st w) (now w) (timers w) (inflight w) (nextId w) (log w ++ [e]).

Definition addTimer (d : Z) (p : option Z) (cb : Callback) (w : World) : World :=
  mkWorld (st w) (now w) (timers w ++ [mkTimer (nextId w) d p cb])
          (inflight w) (S (nextId w)) (log w).

Definition clearTimer (id : nat) (w : World) : World :=
  mkWorld (st w) (now w) (filter (fun t => negb (tid t =? id)%nat) (timers w))
          (inflight w) (nextId w) (log w).

Definition reschedule (id : nat) (d : Z) (w : World) : World :=
  mkWorld (st w) (now w)
          (map (fun t => if (tid t =? id)%nat
                         then mkTimer (tid t) d (period t) (callback t) else t)
               (timers w))
          (inflight w) (nextId w) (log w).

Definition addPending (k : Continuation) (w : World) : World :=
  mkWorld (st w) (now w) (timers w) (inflight w ++ [mkPending (nextId w) k])
          (S (nextId w)) (log w).

Definition removePending (id : nat) (w : World) : World :=
  mkWorld (st w) (now w) (timers w)
          (filter (fun p => negb (rid p =? id)%nat) (inflight w))
          (nextId w) (log w).

Definition advance (d : Z) (w : World) : World :=
  mkWorld (st w) (now w + d) (timers w) (inflight w) (nextId w) (log w).

(** ** Toasts and request bodies *)

Definition party : jsstring := astral 0x1F389.

Definition toastNoPicture : Toast :=
  mkToast (lit "No Picture!")
          (lit "Caveman need picture first! Upload image please.") true.
Definition toastStarting : Toast :=
  mkToast (lit "Caveman Magic Starting!")
          (lit "Sending picture to cave spirits... This take time!") false.
Definition toastRetry (attempt : Z) : Toast :=
  mkToast (lit "Retry Attempt " ++ lit (NilZero.string_of_int (Z.to_int attempt)))
          (lit "Waking up sleeping cave spirits...") false.
Definition completeTitle : jsstring :=
  party ++ lit " Epic Transformation Complete! " ++ party.
Definition completeDefault : jsstring :=
  lit "Behold your mighty caveman form! The ancestors are proud!".
Definition toastComplete (d : jsstring) : Toast := mkToast completeTitle d false.
Definition toastWorking : Toast :=
  mkToast (lit "Cave Magic Working!")
          (lit "This process typically takes 2-4 minutes. Please keep this tab open!")
          false.
Definition toastAngry (m : option jsstring) : Toast :=
  mkToast (lit "Cave Spirits Angry!")
          (orElse m (lit "Something went wrong with cave magic!")) true.
Definition toastFailed : Toast :=
  mkToast (lit "Cave Magic Failed!")
          (lit "All attempts failed. Please try manually executing your n8n workflow first, then retry.")
          true.
Definition toastTakingLong : Toast :=
  mkToast (lit "Cave Magic Taking Long!")
          (lit "Video still processing. Try refreshing or check back later!") true.

(** A value that is a string or [undefined]. *)
Definition jsonOfUndefString (o : option jsstring) : JValue :=
  match o with Some s => JString s | None => JUndefined end.

(** The body of a submission: [JSON.stringify(payload)]. *)
Definition submitPayload (image : option jsstring) (f : File) (t attempt : Z)
    : Payload :=
  stringify
    [ ("image", jsonOfUndefString image);
      ("filename", JString (name f));
      ("mimeType", JString (type f));
      ("timestamp", JIsoDate t);
      ("trigger_workflow", JBool true);
      ("attempt", JNumber attempt) ]%string.

(** A value that is a string or [null]. *)
Definition jsonOfOptString (o : option jsstring) : JValue :=
  match o with Some s => JString s | None => JNull end.

(** The body of a probe; none of its fields can be [undefined]. *)
Definition pollPayload (capturedRequestId : option jsstring) (t : Z) : Payload :=
  [ ("check_status", JBool true);
    ("request_id", jsonOfOptString capturedRequestId);
    ("timestamp", JIsoDate t) ]%string.

(** ** analyzeImage and makeRequest *)

Definition decimal (n : Z) : jsstring :=
  lit (NilZero.string_of_int (Z.to_int n)).

Definition attemptFailedLabel (attempt : Z) : jsstring :=
  lit "Analysis attempt " ++ decimal attempt ++ lit " failed:".

Definition finallyAnalyze (w : World) : World :=
  setState (setIsAnalyzing false) w.

(** The [catch] of [makeRequest], then, when the attempts are used up, the
    [catch] and [finally] of [analyzeImage]. *)
Definition attemptFailed (attempt : Z) (render : State) (w : World) : World :=
  let w1 := emit (EConsoleError (attemptFailedLabel attempt)) w in
  if attempt <? 3 then
    (* const delay = Math.pow(2, attempt) * 1000 *)
    addTimer (now w1 + 2 ^ attempt * 1000) None (RetryDelay (attempt + 1) render) w1
  else
    finallyAnalyze
      (emit (EToast toastFailed)
         (emit (EConsoleError (lit "Final analysis error:")) w1)).

(** [makeRequest(attempt)] up to its [await fetch(...)]. *)
Definition makeRequest (attempt : Z) (render : State) (w : World) : World :=
  match selectedImage render with
  | None => attemptFailed attempt render w
  | Some f =>
      match convertToBase64 f with
      | None => attemptFailed attempt render w
      | Some image =>
          let payload := submitPayload image f (now w) attempt in
          let w1 := emit (EToast (if attempt =? 1 then toastStarting
                                  else toastRetry attempt)) w in
          addPending (SubmitAwait attempt render) (emit (EFetch payload) w1)
      end
  end.

(** [startPollingForVideo], the closure of the render [render]: the
    interval sees that render's [requestId], the timeout that render's
    [isProcessing]. *)
Definition startPollingForVideo (render : State) (w : World) : World :=
  let pollInterval := nextId w in
  let w1 := addTimer (now w + 5000) (Some 5000) (PollTick (requestId render)) w in
  addTimer (now w + 360000) None
           (PollDeadline pollInterval (isProcessing render)) w1.

(** What both success branches do to the state. *)
Definition showVideo (r : AnalysisResponse) (s : State) : State :=
  setShowSuccessAnimation true
    (setProgress 100%Q (setIsProcessing false (setVideoUrl (video_url r) s))).

(** The body of [analyzeImage] after [makeRequest] has resolved to [r]. *)
Definition onResult (r : AnalysisResponse) (render : State) (w : World) : World :=
  if hasVideo r then
    let w1 := setState (showVideo r) w in
    let w2 := emit (EToast (toastComplete (orElse (message r) completeDefault))) w1 in
    finallyAnalyze (addTimer (now w2 + 3000) None HideSuccessAnimation w2)
  else if isSuccess r then
    let w1 := setState (fun s => setProcessingStartTime (Some (now w))
                                   (setIsProcessing true s)) w in
    let w2 := if truthy_opt (request_id r)
              then setState (setRequestId (request_id r)) w1 else w1 in
    let w3 := emit (EToast toastWorking) w2 in
    finallyAnalyze (startPollingForVideo render w3)
  else
    finallyAnalyze (emit (EToast (toastAngry (message r))) w).

(** [makeRequest] resumed with the outcome of its request. *)
Definition onSubmitResponse (attempt : Z) (render : State) (o : FetchOutcome)
    (w : World) : World :=
  match o with
  | FetchRejects => attemptFailed attempt render w
  | Response false _ => attemptFailed attempt render w
  | Response true None => attemptFailed attempt render w
  | Response true (Some r) => onResult r render w
  end.

Definition analyzeImage (w : World) : World :=
  let render := st w in
  match selectedImage render with
  | None => emit (EToast toastNoPicture) w
  | Some _ => makeRequest 1 render (setState (setIsAnalyzing true) w)
  end.

(** ** The polling loop *)

(** The interval callback up to its [await fetch(...)]. *)
Definition pollTick (pollInterval : nat) (capturedRequestId : option jsstring)
    (w : World) : World :=
  let payload := pollPayload capturedRequestId (now w) in
  addPending (PollAwait pollInterval) (emit (EFetch payload) w).

(** The interval callback resumed with the outcome of its probe. *)
Definition onPollResponse (pollInterval : nat) (o : FetchOutcome) (w : World)
    : World :=
  match o with
  | FetchRejects => emit (EConsoleError (lit "Polling error:")) w
  | Response false _ => w
  | Response true None => emit (EConsoleError (lit "Polling error:")) w
  | Response true (Some r) =>
      if hasVideo r then
        let w1 := setState (showVideo r) w in
        let w2 := clearTimer pollInterval w1 in
        let w3 := emit (EToast (toastComplete completeDefault)) w2 in
        addTimer (now w3 + 3000) None HideSuccessAnimation w3
      else w
  end.

(** The 6 minute timeout callback. *)
Definition pollDeadline (pollInterval : nat) (capturedIsProcessing : bool)
    (w : World) : World :=
  let w1 := clearTimer pollInterval w in
  if capturedIsProcessing then
    emit (EToast toastTakingLong) (setState (setIsProcessing false) w1)
  else w1.

Definition runCallback (self : nat) (cb : Callback) (w : World) : World :=
  match cb with
  | PollTick rq => pollTick self rq w
  | PollDeadline pollInterval isP => pollDeadline pollInterval isP w
  | HideSuccessAnimation => setState (setShowSuccessAnimation false) w
  | RetryDelay attempt render => makeRequest attempt render w
  end.

(** The effect that refreshes the progress bar: while
    [isProcessing && processingStartTime], [setProgress(getProgress())]. *)
Definition tickerActive (s : State) : bool :=
  isProcessing s && negb (noStart (processingStartTime s)).

Definition progressTick (w : World) : World :=
  setState (setProgress (getProgress (processingStartTime (st w)) (now w))) w.

(** ** Events *)

Inductive Event :=
| Click                                   (* the transform button *)
| Elapse (d : Z)                          (* d milliseconds pass *)
| Fire (id : nat)                         (* a due timer runs *)
| Respond (id : nat) (o : FetchOutcome)   (* a request in flight settles *)
| Tick.                                   (* the progress effect's 1 s interval runs *)

Definition findTimer (id : nat) (w : World) : option Timer :=
  find (fun t => (tid t =? id)%nat) (timers w).

Definition findPending (id : nat) (w : World) : option Pending :=
  find (fun p => (rid p =? id)%nat) (inflight w).

(** The button is disabled while [!selectedImage || isAnalyzing]. *)
Definition buttonEnabled (s : State) : bool :=
  match selectedImage s with None => false | Some _ => negb (isAnalyzing s) end.

Definition fire (id : nat) (w : World) : option World :=
  match findTimer id w with
  | None => None
  | Some t =>
      if due t <=? now w then
        let w1 := match period t with
                  | Some p => reschedule id (due t + p) w
                  | None => clearTimer id w
                  end in
        Some (runCallback id (callback t) w1)
      else None
  end.

Definition respond (id : nat) (o : FetchOutcome) (w : World) : option World :=
  match findPending id w with
  | None => None
  | Some p =>
      let w1 := removePending id w in
      Some match cont p with
           | SubmitAwait attempt render => onSubmitResponse attempt render o w1
           | PollAwait pollInterval => onPollResponse pollInterval o w1
           end
  end.

(** One event; [None] when the event cannot happen in [w].  Time cannot
    pass over a timer that is due. *)
Definition step (w : World) (e : Event) : option World :=
  match e with
  | Click => if buttonEnabled (st w) then Some (analyzeImage w) else None
  | Elapse d =>
      if (0 <? d) && forallb (fun t => now w + d <=? due t) (timers w)
      then Some (advance d w) else None
  | Fire id => fire id w
  | Respond id o => respond id o w
  | Tick => if tickerActive (st w) then Some (progressTick w) else None
  end.

Fixpoint run (w : World) (es : list Event) : option World :=
  match es with
  | [] => Some w
  | e :: es' =>
      match step w e with
      | Some w' => run w' es'
      | None => None
      end
  end.

(** ** Classification of outcomes *)

(** A probe outcome that enters the success branch of the poll callback. *)
Definition isReadyOutcome (o : FetchOutcome) : bool :=
  match o with
  | Response true (Some r) => hasVideo r
  | _ => false
  end.

(** An outcome on which the [try] block of [makeRequest] throws. *)
Definition attemptThrows (o : FetchOutcome) : bool :=
  match o with
  | Response true (Some _) => false
  | _ => true
  end.


Definition isToast (e : Effect) : bool :=
  match e with EToast _ => true | _ => false end.

Definition isFetch (e : Effect) : bool :=
  match e with EFetch _ => true | _ => false end.

Definition isPoll (cb : Callback) : bool :=
  match cb with PollTick _ => true | _ => false end.

Definition isDeadline (cb : Callback) : bool :=
  match cb with PollDeadline _ _ => true | _ => false end.

Definition isRetry (cb : Callback) : bool :=
  match cb with RetryDelay _ _ => true | _ => false end.

Definition isProbe (k : Continuation) : bool :=
  match k with PollAwait _ => true | _ => false end.

(** The requests of the polling loop [pollInterval] still in flight. *)
Definition probesInFlight (pollInterval : nat) (w : World) : list Pending :=
  filter (fun p => match cont p with
                   | PollAwait i => (i =? pollInterval)%nat
                   | _ => false
                   end) (inflight w).

(** ** Well-formed worlds *)

(** Identifier [pid], where it names a timer at all, names a poll interval. *)
Definition refersToPoll (ts : list Timer) (pid : nat) : Prop :=
  forall t, In t ts -> tid t = pid -> isPoll (callback t) = true.

Definition timerOk (nid : nat) (clock : Z) (ts : list Timer) (t : Timer) : Prop :=
  (tid t < nid)%nat /\ clock <= due t /\
  match callback t with
  | PollTick _ => period t = Some 5000
  | PollDeadline pid _ =>
      period t = None /\ (pid < nid)%nat /\ refersToPoll ts pid
  | HideSuccessAnimation => period t = None
  | RetryDelay a _ => period t = None /\ 2 <= a <= 3
  end.

Definition pendingOk (nid : nat) (ts : list Timer) (p : Pending) : Prop :=
  (rid p < nid)%nat /\
  match cont p with
  | SubmitAwait a _ => 1 <= a <= 3
  | PollAwait pid => (pid < nid)%nat /\ refersToPoll ts pid
  end.

(** The invariant of the worlds the component can be in: identifiers are
    unique and older than [nextId], no timer is overdue, intervals are the
    5 s poll ticks, attempt numbers stay within the retry budget. *)
Definition wf (w : World) : Prop :=
  NoDup (map tid (timers w))
  /\ Forall (timerOk (nextId w) (now w) (timers w)) (timers w)
  /\ Forall (pendingOk (nextId w) (timers w)) (inflight w).

(** ** What is submitted *)

(** A render whose selected file, if there is one, satisfies [P]. *)
Definition renderOk (P : File -> Prop) (s : State) : Prop :=
  match selectedImage s with
  | None => True
  | Some f => P f
  end.

(** A render with a selected file that satisfies [P]. *)
Definition renderHas (P : File -> Prop) (s : State) : Prop :=
  match selectedImage s with
  | None => False
  | Some f => P f
  end.

Definition pendingImageOk (P : File -> Prop) (p : Pending) : Prop :=
  match cont p with
  | SubmitAwait a render => renderHas P render /\ 1 <= a <= 3
  | PollAwait _ => True
  end.

Definition timerImageOk (P : File -> Prop) (t : Timer) : Prop :=
  match callback t with
  | RetryDelay a render => renderHas P render /\ 2 <= a <= 3
  | _ => True
  end.

(** A request body is a probe, or the submission of a file that satisfies
    [P], with what [convertToBase64] gave for it and an attempt number from 1
    to 3. *)
Definition effectOk (P : File -> Prop) (e : Effect) : Prop :=
  match e with
  | EFetch body =>
      (exists rq t, body = pollPayload rq t)
      \/ (exists f image t a,
             P f /\ convertToBase64 f = Some image /\ 1 <= a <= 3
             /\ body = submitPayload image f t a)
  | _ => True
  end.

Definition selectionInv (P : File -> Prop) (w : World) : Prop :=
  renderOk P (st w)
  /\ Forall (pendingImageOk P) (inflight w)
  /\ Forall (timerImageOk P) (timers w)
  /\ Forall (effectOk P) (log w).

(** ** Relations between worlds *)

(** Timers after a step: an old identifier, or a fresh one. *)
Definition grows (w w' : World) : Prop :=
  (nextId w <= nextId w')%nat
  /\ forall t', In t' (timers w') ->
       (exists t, In t (timers w) /\ tid t = tid t') \/ (nextId w <= tid t')%nat.

(** No timer carries the identifier [id]. *)
Definition absentTimer (id : nat) (w : World) : Prop :=
  forall t, In t (timers w) -> tid t <> id.

(** ** The specification's claims that the code is compared with *)

(** Generation guarding in the words of the specification: a probe issued
    before a later submission settles without changing the state and
    without a notification. *)
Definition spec_staleProbeDiscarded : Prop :=
  forall (f : File) (t : Z) (pre post : list Event) (w1 w w' : World)
         (id : nat) (p : Pending) (o : FetchOutcome),
    run (initialWorld f t) pre = Some w1 ->
    findPending id w1 = Some p -> isProbe (cont p) = true ->
    run w1 (Click :: post) = Some w ->
    step w (Respond id o) = Some w' ->
    st w' = st w /\ filter isToast (log w') = filter isToast (log w).

(** Strictly sequential probing: a polling loop never has two probes in
    flight. *)
Definition spec_probesSequential : Prop :=
  forall (f : File) (t : Z) (es : list Event) (w : World) (pollInterval : nat),
    run (initialWorld f t) es = Some w ->
    (List.length (probesInFlight pollInterval w) <= 1)%nat.

(** Once a ready probe has stopped the loop, its deadline callback does not
    fire. *)
Definition spec_deadlineStoppedByReady : Prop :=
  forall (f : File) (t : Z) (pre post : list Event) (w w1 w2 : World)
         (id pid dlid : nat) (p : Pending) (r : AnalysisResponse)
         (dl : Timer) (isP : bool),
    run (initialWorld f t) pre = Some w ->
    findPending id w = Some p -> cont p = PollAwait pid ->
    hasVideo r = true ->
    step w (Respond id (Response true (Some r))) = Some w1 ->
    run w1 post = Some w2 ->
    findTimer dlid w2 = Some dl -> callback dl = PollDeadline pid isP ->
    step w2 (Fire dlid) = None.

(** The percentage becomes 100 only when a validated success is handled. *)
Definition spec_hundredOnlyOnValidated : Prop :=
  forall (f : File) (t : Z) (es : list Event) (w w' : World) (e : Event),
    run (initialWorld f t) es = Some w ->
    step w e = Some w' ->
    (progress (st w') == 100)%Q -> ~ (progress (st w) == 100)%Q ->
    exists id r, e = Respond id (Response true (Some r)) /\ spec_ready r = true.

(** The stage label follows the breakpoint table: while a job is processing,
    the stage the component holds, or the text it shows for it, is the one of
    the table. *)
Definition spec_stageFollowsTable : Prop :=
  forall (f : File) (t : Z) (es : list Event) (w : World) (start : Z),
    run (initialWorld f t) es = Some w ->
    isProcessing (st w) = true -> processingStartTime (st w) = Some start ->
    processingStage (st w) = spec_stage (elapsedSeconds start (now w))
    \/ getProcessingMessage (Some start) (now w)
       = spec_stageLabel (elapsedSeconds start (now w)).

(** The field names of a submission body according to the specification. *)
Definition spec_submitKeys : list string :=
  ["image"; "filename"; "mimeType"; "timestamp"; "attempt"]%string.


(** ** Sample inputs *)

Definition file0 : File :=
  mkFile (lit "me.png") (lit "image/png") 204800
         (Some (lit "data:image/png;base64,iVBORw0KGgo=")).


(** An empty file: the reader's result holds no comma. *)
Definition fileEmpty : File :=
  mkFile (lit "empty.png") (lit "image/png") 0 (Some (lit "data:")).

Definition t0 : Z := 1700000000000.

Definition w0 : World := initialWorld file0 t0.

Definition respAccepted : AnalysisResponse :=
  mkResponse (lit "success") None None None None (Some (lit "abc")).

Definition urlOk : jsstring := lit "https://x.example/y.mp4".

Definition respReady : AnalysisResponse :=
  mkResponse (lit "success") (Some urlOk) None None None None.

Definition respHttpx : AnalysisResponse :=
  mkResponse (lit "success") (Some (lit "httpx")) None None None None.

Definition respPadded : AnalysisResponse :=
  mkResponse (lit "success") (Some (lit " https://x.example/y.mp4")) None None None None.

Definition respFtp : AnalysisResponse :=
  mkResponse (lit "success") (Some (lit "ftp://bad")) None None None None.

Definition respError : AnalysisResponse :=
  mkResponse (lit "error") None (Some (lit "bad image")) None None None.

(** First submission accepted, polling started: interval 1, deadline 2. *)
Definition tracePolling : list Event :=
  [Click; Respond 0 (Response true (Some respAccepted))].

(** ... and the first probe (request 3) sent at 5 s. *)
Definition traceFirstProbe : list Event :=
  tracePolling ++ [Elapse 5000; Fire 1%nat].

Definition orInit (o : option World) : World :=
  match o with Some w => w | None => w0 end.

Definition wFirstProbe : World := orInit (run w0 traceFirstProbe).

(** ... answered by a ready response: hide-animation timer 4. *)
Definition traceReady : list Event :=
  traceFirstProbe ++ [Respond 3 (Response true (Some respReady))].

(** ... and then the clock reaches the deadline of that loop. *)
Definition traceDeadlineAfterReady : list Event :=
  traceReady ++ [Elapse 3000; Fire 4%nat; Elapse 352000].

(** First probe still in flight when the user submits again; the second
    submission (request 4) is accepted too: interval 5, deadline 6. *)
Definition traceResubmit : list Event :=
  traceFirstProbe ++ [Click; Respond 4 (Response true (Some respAccepted))].

(** The second tick of the loop while the first probe is unanswered. *)
Definition traceTwoProbes : list Event :=
  traceFirstProbe ++ [Elapse 5000; Fire 1%nat].

(** A 2xx answer whose body is not JSON. *)
Definition traceBadBody : list Event :=
  [Click; Respond 0 (Response true None)].


(** Polling without any answer until the deadline is due. *)
Fixpoint pollRounds (n : nat) : list Event :=
  match n with
  | O => []
  | S n' => Elapse 5000 :: Fire 1%nat :: pollRounds n'
  end.

Definition traceSilentDeadline : list Event :=
  tracePolling ++ pollRounds 71 ++ [Elapse 5000].

Definition wClicked : World := orInit (step w0 Click).
Definition wRetryDue : World := orInit (run w0 (traceBadBody ++ [Elapse 2000])).
Definition wReady : World := orInit (run w0 traceReady).
Definition wDeadlineAfterReady : World := orInit (run w0 traceDeadlineAfterReady).
Definition wResubmit : World := orInit (run w0 traceResubmit).
Definition wTwoProbes : World := orInit (run w0 traceTwoProbes).
Definition wSilentDeadline : World := orInit (run w0 traceSilentDeadline).

(** Twenty seconds into the first job. *)
Definition wTwentySeconds : World := orInit (run w0 (tracePolling ++ pollRounds 4)).

(** * The upload area, the progress bar and the session

    The rest of the component and what surrounds it: the choice of the
    picture ([handleFileSelect], [handleDrop], the drag handlers), the data
    URL that [convertToBase64] cuts, the number that [ProgressBar] prints,
    the [useAuth] hook and the gate of the [Index] page.  The reader that
    [handleFileSelect] starts for the preview is asynchronous here: its
    [onload] is an event of its own. *)

(** ** Choosing a picture *)

Definition slash : N := 47.

(** [selectedImage.type.split('/')[1]], on which the info card calls
    [toUpperCase()]; [None] for [undefined], where that call throws. *)
Definition formatSegment (fileType : jsstring) : option jsstring :=
  nth_error (splitOn slash fileType) 1.

Definition maxImageSize : Z := 10 * 1024 * 1024.

Definition toastWrongFile : Toast :=
  mkToast (lit "Ooga Booga! Wrong File!")
          (lit "Caveman only understand picture files! Upload image please.") true.
Definition toastTooBig : Toast :=
  mkToast (lit "Picture Too Big!")
          (lit "Caveman brain small! Make picture smaller than 10MB.") true.
Definition toastPictureReady : Toast :=
  mkToast (lit "Picture Ready!")
          (lit "Caveman see good picture! Now click magic button!") false.

(** The component with the two cells of its upload area and the
    [FileReader]s that [handleFileSelect] has started and that have not
    finished: [readers] counts them. *)
Record Ui := mkUi {
  core : World;
  imagePreview : option jsstring;
  isDragOver : bool;
  readers : nat
}.

Definition onCore (f : World -> World) (u : Ui) : Ui :=
  mkUi (f (core u)) (imagePreview u) (isDragOver u) (readers u).

Definition setImagePreview (p : option jsstring) (u : Ui) : Ui :=
  mkUi (core u) p (isDragOver u) (readers u).

Definition setIsDragOver (b : bool) (u : Ui) : Ui :=
  mkUi (core u) (imagePreview u) b (readers u).

(** [reader.readAsDataURL(file)] *)
Definition startReader (u : Ui) : Ui :=
  mkUi (core u) (imagePreview u) (isDragOver u) (S (readers u)).

(** [handleFileSelect(file)] *)
Definition handleFileSelect (file : File) (u : Ui) : Ui :=
  if negb (startsWith (type file) (lit "image/")) then
    onCore (emit (EToast toastWrongFile)) u
  else if maxImageSize <? size file then
    onCore (emit (EToast toastTooBig)) u
  else
    let u1 := onCore (setState (setSelectedImage (Some file))) u in
    let u2 := startReader u1 in
    onCore (emit (EToast toastPictureReady)) u2.

(** [handleDrop]: only [files[0]] is looked at. *)
Definition handleDrop (files : list File) (u : Ui) : Ui :=
  let u1 := setIsDragOver false u in
  match files with
  | [] => u1
  | file :: _ => handleFileSelect file u1
  end.

(** The [onChange] of the file input:
    [e.target.files?.[0] && handleFileSelect(e.target.files[0])]. *)
Definition handleInputChange (files : list File) (u : Ui) : Ui :=
  match files with
  | [] => u
  | file :: _ => handleFileSelect file u
  end.

(** [reader.onload] of [handleFileSelect], with the data URL read. *)
Definition readerLoaded (result : jsstring) (u : Ui) : option Ui :=
  match readers u with
  | O => None
  | S n => Some (mkUi (core u) (Some result) (isDragOver u) n)
  end.

(** A reader that fails: no [onerror] is set, nothing changes. *)
Definition readerFailed (u : Ui) : option Ui :=
  match readers u with
  | O => None
  | S n => Some (mkUi (core u) (imagePreview u) (isDragOver u) n)
  end.

Inductive UiEvent :=
| ChooseFiles (files : list File)
| DropFiles (files : list File)
| DragOver
| DragLeave
| ReaderLoad (result : jsstring)
| ReaderError
| Component (e : Event).

Definition uiStep (u : Ui) (e : UiEvent) : option Ui :=
  match e with
  | ChooseFiles files => Some (handleInputChange files u)
  | DropFiles files => Some (handleDrop files u)
  | DragOver => Some (setIsDragOver true u)
  | DragLeave => Some (setIsDragOver false u)
  | ReaderLoad result => readerLoaded result u
  | ReaderError => readerFailed u
  | Component ev =>
      match step (core u) ev with
      | Some w => Some (mkUi w (imagePreview u) (isDragOver u) (readers u))
      | None => None
      end
  end.

Fixpoint uiRun (u : Ui) (es : list UiEvent) : option Ui :=
  match es with
  | [] => Some u
  | e :: es' =>
      match uiStep u e with
      | Some u' => uiRun u' es'
      | None => None
      end
  end.

(** The component freshly mounted at time [t]. *)
Definition mountedUi (t : Z) : Ui :=
  mkUi (mkWorld initialState t [] [] 0%nat []) None false 0.

(** A file that passes both tests of [handleFileSelect]. *)
Definition acceptable (f : File) : bool :=
  startsWith (type f) (lit "image/") && (size f <=? maxImageSize).

(** ** Submissions under way *)

Definition isSubmit (k : Continuation) : bool :=
  match k with SubmitAwait _ _ => true | _ => false end.

Definition attemptsInFlight (w : World) : nat :=
  List.length (filter (fun p => isSubmit (cont p)) (inflight w)).

Definition retriesScheduled (w : World) : nat :=
  List.length (filter (fun t => isRetry (callback t)) (timers w)).

Definition exclusive (w : World) : Prop :=
  NoDup (map rid (inflight w))
  /\ (attemptsInFlight w + retriesScheduled w
      = if isAnalyzing (st w) then 1 else 0)%nat.

(** A preview, shown or being read, belongs to a selection. *)
Definition previewInv (u : Ui) : Prop :=
  (imagePreview u <> None \/ readers u <> 0%nat) ->
  selectedImage (st (core u)) <> None.

(** Until a picture is accepted nothing has happened but refusals. *)
Definition isRefusal (e : Effect) : bool :=
  match e with EToast t => destructive t | _ => false end.

Definition untouched (w : World) : Prop :=
  st w = initialState /\ timers w = [] /\ inflight w = [] /\ nextId w = 0%nat
  /\ forallb isRefusal (log w) = true.

(** ** The progress bar *)

(** [Math.round(progress)], the number the bar prints before [%]. *)
Definition shownPercentage (p : Q) : Z := Qfloor (p + (1 # 2))%Q.

(** ** The video URL *)

Definition shownUrlOk (o : option jsstring) : Prop :=
  match o with
  | None => True
  | Some u => truthy (trim u) = true /\ startsWith u (lit "http") = true
  end.

(** ** Sessions *)

Record User := mkUser { userId : jsstring }.

Record Session := mkSession { sessionUser : User; accessToken : jsstring }.

(** The three cells of [useAuth]. *)
Record AuthState := mkAuth {
  user : option User;
  session : option Session;
  loading : bool
}.

Definition initialAuth : AuthState := mkAuth None None true.

(** [s.includes(sub)]. *)
Fixpoint includes (s sub : jsstring) : bool :=
  startsWith s sub
  || match s with
     | [] => false
     | _ :: t => includes t sub
     end.

(** [hasAuthHash]; [hash] is [window.location.hash], [None] without a
    window. *)
Definition hasAuthHash (hash : option jsstring) : bool :=
  match hash with
  | None => false
  | Some h =>
      truthy h
      && (includes h (lit "access_token") || includes h (lit "refresh_token")
          || includes h (lit "type=signup") || includes h (lit "type=recovery"))
  end.

Inductive AuthEvent :=
| AuthStateChange (s : option Session)   (* the onAuthStateChange listener runs *)
| SessionLoaded (s : option Session).    (* getSession() resolves *)

Definition authStep (hash : option jsstring) (a : AuthState) (e : AuthEvent)
    : AuthState :=
  match e with
  | AuthStateChange s => mkAuth (option_map sessionUser s) s false
  | SessionLoaded s =>
      mkAuth (option_map sessionUser s) s
             (match s with
              | Some _ => false
              | None => if negb (hasAuthHash hash) then false else loading a
              end)
  end.

Definition authRun (hash : option jsstring) (a : AuthState) (es : list AuthEvent)
    : AuthState :=
  fold_left (authStep hash) es a.

Definition isAuthenticated (a : AuthState) : bool :=
  match user a with Some _ => true | None => false end.

(** What the [Index] page renders. *)
Inductive View := Spinner | Nothing | Analyzer.

Definition indexView (a : AuthState) : View :=
  if loading a then Spinner
  else if negb (isAuthenticated a) then Nothing
  else Analyzer.

(** The effect of [Index]: [navigate('/auth')]. *)
Definition redirectsToAuth (a : AuthState) : bool :=
  negb (loading a) && negb (isAuthenticated a).

(** ** Invariants of the running component *)

(** Timers after a step: an old one that is due no earlier, or a fresh one. *)
Definition later (w w' : World) : Prop :=
  (nextId w <= nextId w')%nat
  /\ forall t', In t' (timers w') ->
       (exists t, In t (timers w) /\ tid t = tid t' /\ due t <= due t')
       \/ (nextId w <= tid t')%nat.

(** What an event of the upload area leaves as it was. *)
Definition sameJob (w w' : World) : Prop :=
  now w' = now w /\ timers w' = timers w /\ inflight w' = inflight w
  /\ nextId w' = nextId w
  /\ isAnalyzing (st w') = isAnalyzing (st w)
  /\ isProcessing (st w') = isProcessing (st w)
  /\ processingStartTime (st w') = processingStartTime (st w)
  /\ videoUrl (st w') = videoUrl (st w)
  /\ showSuccessAnimation (st w') = showSuccessAnimation (st w).

(** A job that shows as processing has a start time, between the mount and
    the present; a success animation that shows has the timer that hides it. *)
Definition processingInv (t : Z) (w : World) : Prop :=
  t <= now w
  /\ (isProcessing (st w) = true -> processingStartTime (st w) <> None)
  /\ (forall s, processingStartTime (st w) = Some s -> t <= s <= now w)
  /\ (showSuccessAnimation (st w) = true ->
      exists h, In h (timers w) /\ callback h = HideSuccessAnimation
                /\ due h <= now w + 3000).

(** Everything the coordinator keeps, in every state of the component. *)
Definition componentInv (t : Z) (u : Ui) : Prop :=
  wf (core u) /\ exclusive (core u) /\ processingInv t (core u)
  /\ shownUrlOk (videoUrl (st (core u))).

(** The progress cell holds an estimate, between 0 and 95, or the 100 of a
    finished job; it holds 100 only once a video is stored. *)
Definition progressInv (w : World) : Prop :=
  ((0 <= progress (st w) <= 95)%Q \/ progress (st w) = 100%Q)
  /\ (progress (st w) = 100%Q -> videoUrl (st w) <> None).

(** ** Sample session at the upload area *)

Definition dataUrl0 : jsstring :=
  lit "data:image/png;base64" ++ comma :: lit "iVBORw0KGgo=".

Definition fileTooBig : File :=
  mkFile (lit "huge.png") (lit "image/png") 10485761
         (Some (lit "data:image/png;base64,AAAA")).

Definition fileAtLimit : File :=
  mkFile (lit "limit.png") (lit "image/png") 10485760
         (Some (lit "data:image/png;base64,AAAA")).

Definition filePdf : File :=
  mkFile (lit "cv.pdf") (lit "application/pdf") 1024
         (Some (lit "data:application/pdf;base64,AAAA")).

(** A PDF is refused, a picture is chosen and submitted, the submission is
    accepted, the first probe goes out and answers with the video. *)
Definition uiTraceSubmitted : list UiEvent :=
  [ DropFiles [filePdf; file0];
    ChooseFiles [file0];
    ReaderLoad dataUrl0;
    Component Click ].

Definition uiTraceProcessing : list UiEvent :=
  uiTraceSubmitted
  ++ [ Component (Respond 0 (Response true (Some respAccepted)));
       Component (Elapse 5000);
       Component (Fire 1%nat) ].

Definition uiTraceDone : list UiEvent :=
  uiTraceProcessing ++ [ Component (Respond 3 (Response true (Some respReady))) ].

Definition orMounted (o : option Ui) : Ui :=
  match o with Some u => u | None => mountedUi t0 end.

Definition uSubmitted : Ui := orMounted (uiRun (mountedUi t0) uiTraceSubmitted).
Definition uProcessing : Ui := orMounted (uiRun (mountedUi t0) uiTraceProcessing).
Definition uDone : Ui := orMounted (uiRun (mountedUi t0) uiTraceDone).

(** Twenty-six more rounds of the sample session, then the refresh of the
    bar at 138 s. *)
Definition uiTraceAt138 : list UiEvent :=
  uiTraceProcessing
  ++ map Component (pollRounds 26 ++ [Elapse 3000; Tick]).

Definition uAt138 : Ui := orMounted (uiRun (mountedUi t0) uiTraceAt138).

(** * Properties *)

(** ** Strings *)

Lemma jseq_eq (a b : jsstring) : jseq a b = true <-> a = b.
Proof.
  revert b; induction a as [|x a IH]; intros [|y b]; simpl; split;
    try congruence; try reflexivity.
  - rewrite andb_true_iff, N.eqb_eq, IH. intros [-> ->]; reflexivity.
  - intros H; injection H as -> ->. rewrite N.eqb_refl.
    apply IH; reflexivity.
Qed.

Lemma trimStart_blank (s : jsstring) :
  truthy (trimStart s) = negb (forallb isWhiteSpace s).
Proof.
  induction s as [|c s IH]; simpl; [reflexivity|].
  destruct (isWhiteSpace c); simpl; [exact IH | reflexivity].
Qed.

Lemma forallb_trimStart (s : jsstring) :
  forallb isWhiteSpace (trimStart s) = forallb isWhiteSpace s.
Proof.
  induction s as [|c s IH]; simpl; [reflexivity|].
  destruct (isWhiteSpace c) eqn:E; simpl; [exact IH | rewrite E; reflexivity].
Qed.

Lemma forallb_rev (A : Type) (f : A -> bool) (l : list A) :
  forallb f (rev l) = forallb f l.
Proof.
  induction l as [|x l IH]; simpl; [reflexivity|].
  rewrite forallb_app, IH; simpl. rewrite andb_true_r, andb_comm; reflexivity.
Qed.

Lemma truthy_rev (s : jsstring) : truthy (rev s) = truthy s.
Proof.
  destruct s as [|c s]; simpl; [reflexivity|].
  destruct (rev s); reflexivity.
Qed.

Lemma truthy_trim (s : jsstring) :
  truthy (trim s) = negb (forallb isWhiteSpace s).
Proof.
  unfold trim, trimEnd.
  rewrite truthy_rev, trimStart_blank, forallb_rev, forallb_trimStart.
  reflexivity.
Qed.

Lemma not_blank_iff (s : jsstring) :
  negb (forallb isWhiteSpace s) = true <->
  exists c, In c s /\ isWhiteSpace c = false.
Proof.
  rewrite negb_true_iff. split.
  - intros H. induction s as [|c s IH]; simpl in H; [discriminate|].
    destruct (isWhiteSpace c) eqn:E.
    + destruct (IH H) as [d [Hd Hw]]. exists d; split; [right|]; assumption.
    + exists c; split; [left; reflexivity | assumption].
  - intros [c [Hin Hw]]. destruct (forallb isWhiteSpace s) eqn:E; [|reflexivity].
    rewrite forallb_forall in E. rewrite (E c Hin) in Hw; discriminate.
Qed.

(** ** The invariant is preserved *)

Lemma refersToPoll_fresh ts pid t' :
  refersToPoll ts pid -> tid t' <> pid -> refersToPoll (ts ++ [t']) pid.
Proof.
  intros H Hne t Hin Ht. apply in_app_or in Hin as [Hin | [<- | []]].
  - exact (H t Hin Ht).
  - contradiction.
Qed.

Lemma refersToPoll_filter f ts pid :
  refersToPoll ts pid -> refersToPoll (filter f ts) pid.
Proof.
  intros H t Hin. apply filter_In in Hin as [Hin _]. exact (H t Hin).
Qed.

Lemma refersToPoll_reschedule id d ts pid :
  refersToPoll ts pid ->
  refersToPoll
    (map (fun t => if (tid t =? id)%nat
                   then mkTimer (tid t) d (period t) (callback t) else t) ts) pid.
Proof.
  intros H t Hin Ht. apply in_map_iff in Hin as [t1 [<- Hin]].
  destruct (tid t1 =? id)%nat; simpl in *; exact (H t1 Hin Ht).
Qed.

Lemma timerOk_weaken nid clock ts ts' t :
  (forall pid, (pid < nid)%nat -> refersToPoll ts pid -> refersToPoll ts' pid) ->
  timerOk nid clock ts t -> timerOk (S nid) clock ts' t.
Proof.
  intros Hts (Hid & Hdue & Hcb). repeat split; [lia | assumption |].
  destruct (callback t); try assumption.
  destruct Hcb as (Hp & Hlt & Hr). repeat split; [assumption | lia | auto].
Qed.

Lemma timerOk_same nid clock ts ts' t :
  (forall pid, refersToPoll ts pid -> refersToPoll ts' pid) ->
  timerOk nid clock ts t -> timerOk nid clock ts' t.
Proof.
  intros Hts (Hid & Hdue & Hcb). repeat split; [assumption | assumption |].
  destruct (callback t); try assumption.
  destruct Hcb as (Hp & Hlt & Hr). repeat split; auto.
Qed.

Lemma pendingOk_weaken nid ts ts' p :
  (forall pid, (pid < nid)%nat -> refersToPoll ts pid -> refersToPoll ts' pid) ->
  pendingOk nid ts p -> pendingOk (S nid) ts' p.
Proof.
  intros Hts (Hid & Hk). split; [lia |].
  destruct (cont p); [assumption |].
  destruct Hk as (Hlt & Hr). split; [lia | auto].
Qed.

Lemma pendingOk_same nid ts ts' p :
  (forall pid, refersToPoll ts pid -> refersToPoll ts' pid) ->
  pendingOk nid ts p -> pendingOk nid ts' p.
Proof.
  intros Hts (Hid & Hk). split; [assumption |].
  destruct (cont p); [assumption |].
  destruct Hk as (Hlt & Hr). split; auto.
Qed.

Lemma wf_setState f w : wf w -> wf (setState f w).
Proof. intros H; exact H. Qed.

Lemma wf_emit e w : wf w -> wf (emit e w).
Proof. intros H; exact H. Qed.

Lemma tid_fresh nid clock ts :
  Forall (timerOk nid clock ts) ts -> ~ In nid (map tid ts).
Proof.
  intros H Hin. apply in_map_iff in Hin as [t [Ht Hin]].
  rewrite Forall_forall in H. destruct (H t Hin) as [Hlt _]. lia.
Qed.

Lemma wf_addTimer d p cb w :
  wf w ->
  timerOk (S (nextId w)) (now w) (timers w ++ [mkTimer (nextId w) d p cb])
          (mkTimer (nextId w) d p cb) ->
  wf (addTimer d p cb w).
Proof.
  intros (Hnd & Hts & Hps) Hnew. unfold wf; simpl.
  assert (Hext : forall pid, (pid < nextId w)%nat ->
            refersToPoll (timers w) pid ->
            refersToPoll (timers w ++ [mkTimer (nextId w) d p cb]) pid).
  { intros pid Hlt Hr. apply refersToPoll_fresh; [assumption | simpl; lia]. }
  repeat split.
  - rewrite map_app; simpl. apply NoDup_app; [assumption | repeat constructor; simpl; tauto |].
    intros x Hx [<- | []]. exact (tid_fresh _ _ _ Hts Hx).
  - apply Forall_app; split; [| constructor; [assumption | constructor]].
    eapply Forall_impl; [| exact Hts]. intros t; apply timerOk_weaken; assumption.
  - eapply Forall_impl; [| exact Hps]. intros q; apply pendingOk_weaken; assumption.
Qed.

Lemma wf_addPending k w :
  wf w -> pendingOk (S (nextId w)) (timers w) (mkPending (nextId w) k) ->
  wf (addPending k w).
Proof.
  intros (Hnd & Hts & Hps) Hnew. unfold wf; simpl. repeat split.
  - assumption.
  - eapply Forall_impl; [| exact Hts]. intros t; apply timerOk_weaken; auto.
  - apply Forall_app; split; [| constructor; [assumption | constructor]].
    eapply Forall_impl; [| exact Hps]. intros q; apply pendingOk_weaken; auto.
Qed.

Lemma NoDup_map_filter (A : Type) (g : A -> nat) f (l : list A) :
  NoDup (map g l) -> NoDup (map g (filter f l)).
Proof.
  induction l as [|x l IH]; simpl; intros H; [constructor|].
  inversion H as [|? ? Hnin Hnd]; subst.
  destruct (f x); simpl; [constructor |]; auto.
  intros Hin; apply Hnin. apply in_map_iff in Hin as [y [Hy Hin]].
  apply filter_In in Hin as [Hin _]. apply in_map_iff; eauto.
Qed.

Lemma Forall_filter (A : Type) (P : A -> Prop) f (l : list A) :
  Forall P l -> Forall P (filter f l).
Proof.
  rewrite !Forall_forall. intros H x Hin. apply filter_In in Hin as [Hin _]; auto.
Qed.

Lemma wf_clearTimer id w : wf w -> wf (clearTimer id w).
Proof.
  intros (Hnd & Hts & Hps). unfold wf; simpl. repeat split.
  - apply NoDup_map_filter; assumption.
  - apply Forall_filter. eapply Forall_impl; [| exact Hts].
    intros t; apply timerOk_same. intros pid; apply refersToPoll_filter.
  - eapply Forall_impl; [| exact Hps].
    intros q; apply pendingOk_same. intros pid; apply refersToPoll_filter.
Qed.

Lemma wf_removePending id w : wf w -> wf (removePending id w).
Proof.
  intros (Hnd & Hts & Hps). unfold wf; simpl. repeat split; try assumption.
  apply Forall_filter; assumption.
Qed.

Lemma wf_reschedule id d w :
  wf w -> now w <= d -> wf (reschedule id d w).
Proof.
  intros (Hnd & Hts & Hps) Hd. unfold wf; simpl. repeat split.
  - rewrite map_map. erewrite map_ext; [exact Hnd |].
    intros t; destruct (tid t =? id)%nat; reflexivity.
  - rewrite Forall_map. eapply Forall_impl; [| exact Hts].
    intros t Ht. apply (timerOk_same _ _ (timers w));
      [intros pid; apply refersToPoll_reschedule |].
    destruct (tid t =? id)%nat; [| assumption].
    destruct Ht as (H1 & H2 & H3). repeat split; simpl; assumption.
  - eapply Forall_impl; [| exact Hps].
    intros q; apply pendingOk_same. intros pid; apply refersToPoll_reschedule.
Qed.

Lemma wf_advance d w :
  wf w -> forallb (fun t => now w + d <=? due t) (timers w) = true ->
  wf (advance d w).
Proof.
  intros (Hnd & Hts & Hps) Hd. unfold wf; simpl. repeat split; try assumption.
  rewrite forallb_forall in Hd. rewrite Forall_forall in *.
  intros t Hin. destruct (Hts t Hin) as (H1 & H2 & H3).
  repeat split; try assumption. apply Z.leb_le; auto.
Qed.

Lemma findTimer_some id w t :
  findTimer id w = Some t -> In t (timers w) /\ tid t = id.
Proof.
  unfold findTimer; intros H. apply find_some in H as [Hin Hid].
  apply Nat.eqb_eq in Hid. split; assumption.
Qed.

Lemma findPending_some id w p :
  findPending id w = Some p -> In p (inflight w) /\ rid p = id.
Proof.
  unfold findPending; intros H. apply find_some in H as [Hin Hid].
  apply Nat.eqb_eq in Hid. split; assumption.
Qed.

Lemma tid_inj ts (t t' : Timer) :
  NoDup (map tid ts) -> In t ts -> In t' ts -> tid t = tid t' -> t = t'.
Proof.
  induction ts as [|x ts IH]; simpl; intros Hnd Ht Ht' He; [contradiction|].
  inversion Hnd as [|? ? Hnin Hnd']; subst.
  destruct Ht as [-> | Ht], Ht' as [-> | Ht']; auto.
  - exfalso; apply Hnin. rewrite He. apply in_map; assumption.
  - exfalso; apply Hnin. rewrite <- He. apply in_map; assumption.
Qed.

Lemma wf_attemptFailed a render w :
  wf w -> 1 <= a <= 3 -> wf (attemptFailed a render w).
Proof.
  intros Hw Ha. unfold attemptFailed.
  destruct (a <? 3) eqn:E.
  - apply Z.ltb_lt in E. apply wf_addTimer; [apply wf_emit; assumption |].
    assert (0 < 2 ^ a) by (apply Z.pow_pos_nonneg; lia).
    repeat split; simpl; lia.
  - unfold finallyAnalyze. apply wf_setState. repeat apply wf_emit. assumption.
Qed.

Lemma wf_makeRequest a render w :
  wf w -> 1 <= a <= 3 -> wf (makeRequest a render w).
Proof.
  intros Hw Ha. unfold makeRequest.
  destruct (selectedImage render) as [f|]; [| apply wf_attemptFailed; assumption].
  destruct (convertToBase64 f) as [image|]; [| apply wf_attemptFailed; assumption].
  apply wf_addPending; [repeat apply wf_emit; assumption |].
  split; simpl; [lia | assumption].
Qed.

Lemma wf_startPollingForVideo render w :
  wf w -> wf (startPollingForVideo render w).
Proof.
  intros Hw. unfold startPollingForVideo.
  assert (H1 : wf (addTimer (now w + 5000) (Some 5000) (PollTick (requestId render)) w)).
  { apply wf_addTimer; [assumption |]. repeat split; simpl; lia. }
  apply wf_addTimer; [exact H1 |].
  repeat split; simpl; try lia.
  intros t Hin Ht.
  rewrite <- app_assoc in Hin. apply in_app_or in Hin as [Hin | Hin].
  - destruct Hw as (_ & Hts & _). rewrite Forall_forall in Hts.
    destruct (Hts t Hin) as [Hlt _]. lia.
  - destruct Hin as [<- | [<- | []]]; simpl in *; [reflexivity | lia].
Qed.

Lemma wf_onResult r render w : wf w -> wf (onResult r render w).
Proof.
  intros Hw. unfold onResult, finallyAnalyze.
  destruct (hasVideo r); [| destruct (isSuccess r)].
  - apply wf_setState. apply wf_addTimer; [apply wf_emit, wf_setState; assumption |].
    repeat split; simpl; lia.
  - apply wf_setState, wf_startPollingForVideo, wf_emit.
    destruct (truthy_opt (request_id r)); repeat apply wf_setState; assumption.
  - apply wf_setState, wf_emit; assumption.
Qed.

Lemma wf_onSubmitResponse a render o w :
  wf w -> 1 <= a <= 3 -> wf (onSubmitResponse a render o w).
Proof.
  intros Hw Ha. unfold onSubmitResponse.
  destruct o as [| [|] [r|]];
    first [apply wf_attemptFailed; assumption | apply wf_onResult; assumption].
Qed.

Lemma wf_onPollResponse pid o w : wf w -> wf (onPollResponse pid o w).
Proof.
  intros Hw. unfold onPollResponse.
  destruct o as [| [|] [r|]]; try assumption; try (apply wf_emit; assumption).
  destruct (hasVideo r); [| assumption].
  apply wf_addTimer; [apply wf_emit, wf_clearTimer, wf_setState; assumption |].
  repeat split; simpl; lia.
Qed.

Lemma wf_pollDeadline pid isP w : wf w -> wf (pollDeadline pid isP w).
Proof.
  intros Hw. unfold pollDeadline.
  destruct isP; [apply wf_emit, wf_setState |]; apply wf_clearTimer; assumption.
Qed.

Lemma wf_analyzeImage w : wf w -> wf (analyzeImage w).
Proof.
  intros Hw. unfold analyzeImage.
  destruct (selectedImage (st w)); [| apply wf_emit; assumption].
  apply wf_makeRequest; [apply wf_setState; assumption | lia].
Qed.

Lemma wf_fire id w w' : wf w -> fire id w = Some w' -> wf w'.
Proof.
  intros Hw. unfold fire.
  destruct (findTimer id w) as [t|] eqn:Hf; [| discriminate].
  apply findTimer_some in Hf as [Hin Hid].
  destruct (due t <=? now w) eqn:Hdue; [| discriminate].
  intros H; injection H as <-.
  pose proof Hw as (Hnd & Hts & _). rewrite Forall_forall in Hts.
  destruct (Hts t Hin) as (Hlt & Hnow & Hcb).
  destruct (callback t) as [rq | pid isP | | a render] eqn:Ecb; simpl.
  - rewrite Hcb. unfold pollTick.
    apply wf_addPending; [apply wf_emit, wf_reschedule; [assumption | lia] |].
    split; simpl; [lia | split; [lia |]].
    apply refersToPoll_reschedule. intros t' Hin' Ht'.
    assert (He : t' = t) by (eapply tid_inj; [exact Hnd | exact Hin' | exact Hin | congruence]).
    rewrite He, Ecb; reflexivity.
  - destruct Hcb as (-> & _). apply wf_pollDeadline, wf_clearTimer; assumption.
  - rewrite Hcb. apply wf_setState, wf_clearTimer; assumption.
  - destruct Hcb as (-> & Ha). apply wf_makeRequest; [apply wf_clearTimer; assumption | lia].
Qed.

Lemma wf_respond id o w w' : wf w -> respond id o w = Some w' -> wf w'.
Proof.
  intros Hw. unfold respond.
  destruct (findPending id w) as [p|] eqn:Hf; [| discriminate].
  apply findPending_some in Hf as [Hin Hid].
  intros H; injection H as <-.
  pose proof Hw as (_ & _ & Hps). rewrite Forall_forall in Hps.
  destruct (Hps p Hin) as (Hlt & Hk).
  destruct (cont p) as [a render | pid].
  - apply wf_onSubmitResponse; [apply wf_removePending; assumption | assumption].
  - apply wf_onPollResponse, wf_removePending; assumption.
Qed.

Lemma wf_step w e w' : wf w -> step w e = Some w' -> wf w'.
Proof.
  intros Hw. destruct e as [| d | id | id o |]; simpl.
  - destruct (buttonEnabled (st w)); [| discriminate].
    intros H; injection H as <-. apply wf_analyzeImage; assumption.
  - destruct (0 <? d) eqn:Hd; simpl; [| discriminate].
    destruct (forallb _ _) eqn:Hall; [| discriminate].
    intros H; injection H as <-. apply wf_advance; assumption.
  - apply wf_fire; assumption.
  - apply wf_respond; assumption.
  - destruct (tickerActive (st w)); [| discriminate].
    intros H; injection H as <-. apply wf_setState; assumption.
Qed.

Lemma wf_run es : forall w w', wf w -> run w es = Some w' -> wf w'.
Proof.
  induction es as [|e es IH]; simpl; intros w w' Hw H.
  - injection H as <-; assumption.
  - destruct (step w e) as [w1|] eqn:Hs; [| discriminate].
    apply (IH w1); [eapply wf_step; eassumption | assumption].
Qed.

Lemma wf_initialWorld f t : wf (initialWorld f t).
Proof. repeat split; constructor. Qed.

(** ** The progress estimator *)

(** ** Rounding to binary64 *)

Lemma roundHalfEven_bounds (x : Q) :
  (Qfloor x <= roundHalfEven x <= Qfloor x + 1)%Z.
Proof.
  unfold roundHalfEven.
  destruct (x - inject_Z (Qfloor x) ?= 1 # 2)%Q; [destruct (Z.even (Qfloor x)) | |]; lia.
Qed.

Lemma roundHalfEven_inject (n : Z) : roundHalfEven (inject_Z n) = n.
Proof.
  unfold roundHalfEven. rewrite Qfloor_Z.
  destruct (Qcompare_spec (inject_Z n - inject_Z n) (1 # 2)) as [H | H | H].
  - exfalso. lra.
  - reflexivity.
  - exfalso. lra.
Qed.

Lemma roundHalfEven_mono (x y : Q) :
  (x <= y)%Q -> (roundHalfEven x <= roundHalfEven y)%Z.
Proof.
  intros Hxy. pose proof (Qfloor_resp_le _ _ Hxy) as Hf.
  destruct (Z.eq_dec (Qfloor x) (Qfloor y)) as [E | N].
  - unfold roundHalfEven. rewrite <- E.
    destruct (Qcompare_spec (x - inject_Z (Qfloor x)) (1 # 2)) as [Hx | Hx | Hx];
      destruct (Qcompare_spec (y - inject_Z (Qfloor x)) (1 # 2)) as [Hy | Hy | Hy];
      try (destruct (Z.even (Qfloor x))); try lia; exfalso; lra.
  - pose proof (roundHalfEven_bounds x). pose proof (roundHalfEven_bounds y). lia.
Qed.

Lemma Qmake_mult_lt (n : Z) (d : positive) (c a : Z) :
  (n * c < a * Zpos d)%Z -> ((n # d) * inject_Z c < inject_Z a)%Q.
Proof.
  intros H. unfold Qlt, Qmult, inject_Z. simpl. rewrite Pos.mul_1_r. lia.
Qed.

Lemma Qmake_mult_le (n : Z) (d : positive) (c a : Z) :
  (a * Zpos d <= n * c)%Z -> (inject_Z a <= (n # d) * inject_Z c)%Q.
Proof.
  intros H. unfold Qle, Qmult, inject_Z. simpl. rewrite Pos.mul_1_r. lia.
Qed.

Lemma two_neq_0 : ~ (2 == 0)%Q.
Proof. discriminate. Qed.

Lemma pow2_pos (e : Z) : (0 < 2 ^ e)%Q.
Proof. apply Qpower_0_lt. reflexivity. Qed.

Lemma pow2_inject (e : Z) : (0 <= e)%Z -> (2 ^ e == inject_Z (2 ^ e))%Q.
Proof. intros H. symmetry. apply (Zpower_Qpower 2 e H). Qed.

Lemma pow2_le (a b : Z) : (a <= b)%Z -> (2 ^ a <= 2 ^ b)%Q.
Proof. intros H. apply Qpower_le_compat_l; [assumption | discriminate]. Qed.

Lemma pow2_join (x y z : Z) :
  (0 <= z)%Z -> (x + y = z)%Z -> (2 ^ x * 2 ^ y == inject_Z (2 ^ z))%Q.
Proof.
  intros Hz E. rewrite <- (Qpower_plus 2 x y two_neq_0), E. apply pow2_inject, Hz.
Qed.

Lemma binade_window (q : Q) :
  (0 < q)%Q ->
  (2 ^ (Z.log2 (Qnum q) - Z.log2 (Zpos (Qden q)) - 1) <= q
   /\ q < 2 ^ (Z.log2 (Qnum q) - Z.log2 (Zpos (Qden q)) + 1))%Q.
Proof.
  destruct q as [n d]. intros Hq.
  assert (Hn : (0 < n)%Z) by (unfold Qlt in Hq; simpl in Hq; lia).
  cbn [Qnum Qden].
  set (a := Z.log2 n). set (c := Z.log2 (Zpos d)).
  assert (Ha : (0 <= a)%Z) by apply Z.log2_nonneg.
  assert (Hc : (0 <= c)%Z) by apply Z.log2_nonneg.
  destruct (Z.log2_spec n Hn) as [Ha1 Ha2]. fold a in Ha1, Ha2.
  destruct (Z.log2_spec (Zpos d) (Pos2Z.is_pos d)) as [Hc1 Hc2]. fold c in Hc1, Hc2.
  unfold Z.succ in Ha2, Hc2.
  assert (Hpa : (0 < 2 ^ a)%Z) by (apply Z.pow_pos_nonneg; lia).
  assert (Hpc : (0 < 2 ^ c)%Z) by (apply Z.pow_pos_nonneg; lia).
  assert (Ea : (2 ^ (a + 1) = 2 * 2 ^ a)%Z) by (rewrite Z.pow_add_r by lia; lia).
  assert (Ec : (2 ^ (c + 1) = 2 * 2 ^ c)%Z) by (rewrite Z.pow_add_r by lia; lia).
  split.
  - apply (Qmult_le_r _ _ (2 ^ (c + 1))); [apply pow2_pos |].
    rewrite (pow2_join (a - c - 1) (c + 1) a Ha ltac:(lia)).
    rewrite (pow2_inject (c + 1)) by lia.
    apply Qmake_mult_le. nia.
  - apply (Qmult_lt_r _ _ (2 ^ c)); [apply pow2_pos |].
    rewrite (pow2_join (a - c + 1) c (a + 1) ltac:(lia) ltac:(lia)).
    rewrite (pow2_inject c) by lia.
    apply Qmake_mult_lt. nia.
Qed.

Lemma binade_spec (q : Q) :
  (0 < q)%Q -> (2 ^ binade q <= q /\ q < 2 ^ (binade q + 1))%Q.
Proof.
  intros Hq. destruct (binade_window q Hq) as [Hlo Hhi]. unfold binade.
  set (k := (Z.log2 (Qnum q) - Z.log2 (Zpos (Qden q)))%Z) in *.
  destruct (Qle_bool (2 ^ k) q) eqn:E.
  - split; [apply Qle_bool_iff; assumption | assumption].
  - split; [assumption |].
    replace (k - 1 + 1)%Z with k by lia.
    apply Qnot_le_lt. intros H. apply Qle_bool_iff in H. congruence.
Qed.

Lemma binade_mono (q1 q2 : Q) :
  (0 < q1)%Q -> (q1 <= q2)%Q -> (binade q1 <= binade q2)%Z.
Proof.
  intros H1 H12.
  assert (H2 : (0 < q2)%Q) by lra.
  destruct (binade_spec q1 H1) as [L1 _]. destruct (binade_spec q2 H2) as [_ U2].
  destruct (Z_le_gt_dec (binade q1) (binade q2)) as [H | H]; [assumption |].
  exfalso. pose proof (pow2_le (binade q2 + 1) (binade q1) ltac:(lia)). lra.
Qed.

Lemma pow2_split (b : Z) : (2 ^ b == inject_Z (2 ^ 52) * 2 ^ (b - 52))%Q.
Proof.
  rewrite <- (pow2_inject 52) by lia.
  rewrite <- (Qpower_plus 2 52 (b - 52) two_neq_0).
  replace (52 + (b - 52))%Z with b by lia. reflexivity.
Qed.

Lemma pow2_split_up (b : Z) : (2 ^ (b + 1) == inject_Z (2 ^ 53) * 2 ^ (b - 52))%Q.
Proof.
  rewrite <- (pow2_inject 53) by lia.
  rewrite <- (Qpower_plus 2 53 (b - 52) two_neq_0).
  replace (53 + (b - 52))%Z with (b + 1)%Z by lia. reflexivity.
Qed.

Lemma roundPositive_bounds (q : Q) :
  (0 < q)%Q ->
  (2 ^ binade q <= roundPositive q /\ roundPositive q <= 2 ^ (binade q + 1))%Q.
Proof.
  intros Hq. destruct (binade_spec q Hq) as [Hlo Hhi]. unfold roundPositive.
  set (b := binade q) in *. set (u := (2 ^ (b - 52))%Q).
  assert (Hu : (0 < u)%Q) by apply pow2_pos.
  rewrite (pow2_split b) in Hlo |- *. rewrite (pow2_split_up b) in Hhi |- *.
  fold u in Hlo, Hhi |- *. split.
  - apply Qmult_le_compat_r; [| apply Qlt_le_weak; assumption].
    rewrite <- Zle_Qle. rewrite <- (roundHalfEven_inject (2 ^ 52)) at 1.
    apply roundHalfEven_mono. apply Qle_shift_div_l; assumption.
  - apply Qmult_le_compat_r; [| apply Qlt_le_weak; assumption].
    rewrite <- Zle_Qle. rewrite <- (roundHalfEven_inject (2 ^ 53)) at 1.
    apply roundHalfEven_mono. apply Qle_shift_div_r; [assumption |].
    apply Qlt_le_weak; assumption.
Qed.

Lemma roundPositive_pos (q : Q) : (0 < q)%Q -> (0 < roundPositive q)%Q.
Proof.
  intros Hq. destruct (roundPositive_bounds q Hq) as [H _].
  pose proof (pow2_pos (binade q)). lra.
Qed.

Lemma roundPositive_mono (q1 q2 : Q) :
  (0 < q1)%Q -> (q1 <= q2)%Q -> (roundPositive q1 <= roundPositive q2)%Q.
Proof.
  intros H1 H12. assert (H2 : (0 < q2)%Q) by lra.
  pose proof (binade_mono q1 q2 H1 H12) as Hb.
  destruct (Z.eq_dec (binade q1) (binade q2)) as [E | N].
  - unfold roundPositive. rewrite E.
    pose proof (pow2_pos (binade q2 - 52)) as Hu.
    apply Qmult_le_compat_r; [| apply Qlt_le_weak; assumption].
    rewrite <- Zle_Qle. apply roundHalfEven_mono.
    apply Qmult_le_compat_r; [assumption |].
    apply Qlt_le_weak, Qinv_lt_0_compat; assumption.
  - destruct (roundPositive_bounds q1 H1) as [_ U1].
    destruct (roundPositive_bounds q2 H2) as [L2 _].
    pose proof (pow2_le (binade q1 + 1) (binade q2) ltac:(lia)). lra.
Qed.

Lemma round64_mono (q1 q2 : Q) : (q1 <= q2)%Q -> (round64 q1 <= round64 q2)%Q.
Proof.
  intros H. unfold round64.
  destruct (Qcompare_spec q1 0) as [E1 | L1 | G1];
    destruct (Qcompare_spec q2 0) as [E2 | L2 | G2];
    rewrite ?Qred_correct; try (exfalso; lra).
  - apply Qle_refl.
  - apply Qlt_le_weak, roundPositive_pos; assumption.
  - pose proof (roundPositive_pos (- q1) ltac:(lra)). lra.
  - pose proof (roundPositive_mono (- q2) (- q1) ltac:(lra) ltac:(lra)). lra.
  - pose proof (roundPositive_pos (- q1) ltac:(lra)).
    pose proof (roundPositive_pos q2 G2). lra.
  - apply roundPositive_mono; assumption.
Qed.

Lemma round64_nonneg (q : Q) : (0 <= q)%Q -> (0 <= round64 q)%Q.
Proof. intros H. apply (round64_mono 0 q H). Qed.

Lemma roundHalfEven_near (x : Q) :
  (x - (1 # 2) <= inject_Z (roundHalfEven x) <= x + (1 # 2))%Q.
Proof.
  pose proof (Qfloor_le x) as Hlo. pose proof (Qlt_floor x) as Hhi.
  rewrite inject_Z_plus in Hhi. change (inject_Z 1) with 1%Q in Hhi.
  unfold roundHalfEven.
  destruct (Qcompare_spec (x - inject_Z (Qfloor x)) (1 # 2)) as [H | H | H];
    [destruct (Z.even (Qfloor x)) | |];
    rewrite ?inject_Z_plus; change (inject_Z 1) with 1%Q; split; lra.
Qed.

Lemma roundPositive_near (q : Q) :
  (0 < q)%Q ->
  (q * (1 - eps64) <= roundPositive q <= q * (1 + eps64))%Q.
Proof.
  intros Hq. destruct (binade_spec q Hq) as [Hlo _]. unfold roundPositive.
  set (b := binade q) in *. set (u := (2 ^ (b - 52))%Q).
  assert (Hu : (0 < u)%Q) by apply pow2_pos.
  rewrite (pow2_split b) in Hlo. fold u in Hlo.
  pose proof (roundHalfEven_near (q / u)) as [N1 N2].
  set (m := inject_Z (roundHalfEven (q / u))) in *.
  assert (E : (q / u * u == q)%Q) by (field; lra).
  assert (M1 : ((q / u - (1 # 2)) * u <= m * u)%Q)
    by (apply Qmult_le_compat_r; lra).
  assert (M2 : (m * u <= (q / u + (1 # 2)) * u)%Q)
    by (apply Qmult_le_compat_r; lra).
  assert (D1 : ((q / u - (1 # 2)) * u == q - (1 # 2) * u)%Q) by (rewrite <- E at 2; ring).
  assert (D2 : ((q / u + (1 # 2)) * u == q + (1 # 2) * u)%Q) by (rewrite <- E at 2; ring).
  rewrite D1 in M1. rewrite D2 in M2.
  assert (P : inject_Z (2 ^ 52) == 4503599627370496) by reflexivity.
  rewrite P in Hlo. unfold eps64. split; lra.
Qed.

Lemma round64_near (q : Q) :
  (0 <= q)%Q -> (q * (1 - eps64) <= round64 q <= q * (1 + eps64))%Q.
Proof.
  intros Hq. unfold round64.
  destruct (Qcompare_spec q 0) as [E | L | G].
  - rewrite E. split; discriminate.
  - exfalso; lra.
  - rewrite Qred_correct. apply roundPositive_near; assumption.
Qed.

Lemma roundHalfEven_eq (x y : Q) : (x == y)%Q -> roundHalfEven x = roundHalfEven y.
Proof.
  intros E. apply Z.le_antisymm; apply roundHalfEven_mono; rewrite E; apply Qle_refl.
Qed.

(** Integers below [2 ^ 53] are binary64 numbers. *)
Lemma round64_integer (k : Z) :
  0 <= k < 2 ^ 53 -> (round64 (inject_Z k) == inject_Z k)%Q.
Proof.
  intros [H0 H53]. unfold round64.
  destruct (Qcompare_spec (inject_Z k) 0) as [E | L | G].
  - symmetry; exact E.
  - exfalso. change 0%Q with (inject_Z 0) in L. rewrite <- Zlt_Qlt in L. lia.
  - rewrite Qred_correct. unfold roundPositive.
    destruct (binade_spec (inject_Z k) G) as [Blo Bhi].
    set (b := binade (inject_Z k)) in *.
    assert (Hk : 1 <= k) by (change 0%Q with (inject_Z 0) in G; rewrite <- Zlt_Qlt in G; lia).
    assert (Hb0 : 0 <= b).
    { destruct (Z_lt_le_dec b 0) as [N |]; [exfalso | assumption].
      pose proof (pow2_le (b + 1) 0 ltac:(lia)) as P.
      change (2 ^ 0)%Q with 1%Q in P.
      assert (Q1 : (1 <= inject_Z k)%Q) by (change 1%Q with (inject_Z 1); rewrite <- Zle_Qle; lia).
      lra. }
    assert (Hb52 : b <= 52).
    { destruct (Z_le_gt_dec b 52) as [| N]; [assumption | exfalso].
      pose proof (pow2_le 53 b ltac:(lia)) as P.
      rewrite (pow2_inject 53) in P by lia.
      assert (Q1 : (inject_Z k < inject_Z (2 ^ 53))%Q) by (rewrite <- Zlt_Qlt; lia).
      lra. }
    set (s := 52 - b).
    assert (Es : (2 ^ (b - 52) == / inject_Z (2 ^ s))%Q).
    { replace (b - 52) with (- s) by (unfold s; lia).
      rewrite Qpower_opp, (pow2_inject s) by (unfold s; lia). reflexivity. }
    assert (Hs : (0 < inject_Z (2 ^ s))%Q).
    { change 0%Q with (inject_Z 0). rewrite <- Zlt_Qlt.
      apply Z.pow_pos_nonneg; unfold s; lia. }
    assert (Ex : (inject_Z k / 2 ^ (b - 52) == inject_Z (k * 2 ^ s))%Q).
    { rewrite Es, inject_Z_mult. field. lra. }
    rewrite (roundHalfEven_eq _ _ Ex), roundHalfEven_inject, Es, inject_Z_mult.
    field. lra.
Qed.

(** ** The percentage *)

(** [Math.floor((Date.now() - processingStartTime) / 1000)], computed in
    binary64, is the integer quotient for every pair of clock values a
    [Date] can hold. *)
Lemma elapsedSeconds_as_computed (start t : Z) :
  start <= t -> t - start <= 8640000000000000 ->
  Qfloor (round64 (inject_Z (t - start) / 1000)) = elapsedSeconds start t.
Proof.
  intros Hle Hmax. unfold elapsedSeconds.
  set (n := t - start) in *. set (k := n / 1000).
  pose proof (Z.div_mod n 1000 ltac:(lia)) as Hdm.
  pose proof (Z.mod_pos_bound n 1000 ltac:(lia)) as Hm. fold k in Hdm.
  assert (Hk0 : 0 <= k) by (apply Z.div_pos; lia).
  set (q := (inject_Z n / 1000)%Q).
  assert (Eq : (q * 1000 == inject_Z n)%Q) by (unfold q; field).
  assert (N1 : (1000 * inject_Z k <= inject_Z n)%Q).
  { change 1000%Q with (inject_Z 1000). rewrite <- inject_Z_mult, <- Zle_Qle. lia. }
  assert (N2 : (inject_Z n <= 1000 * inject_Z k + 999)%Q).
  { change 1000%Q with (inject_Z 1000). change 999%Q with (inject_Z 999).
    rewrite <- inject_Z_mult, <- inject_Z_plus, <- Zle_Qle. lia. }
  assert (K0 : (0 <= inject_Z k)%Q)
    by (change 0%Q with (inject_Z 0); rewrite <- Zle_Qle; lia).
  assert (Kmax : (1000 * inject_Z k <= 8640000000000000)%Q).
  { change 1000%Q with (inject_Z 1000).
    change 8640000000000000%Q with (inject_Z 8640000000000000).
    rewrite <- inject_Z_mult, <- Zle_Qle. lia. }
  assert (Hq : (0 <= q)%Q) by lra.
  assert (Lo : (inject_Z k <= round64 q)%Q).
  { rewrite <- (round64_integer k) by lia. apply round64_mono. lra. }
  destruct (round64_near q Hq) as [_ Up]. unfold eps64 in Up.
  assert (Hi : (round64 q < inject_Z (k + 1))%Q).
  { rewrite inject_Z_plus. change (inject_Z 1) with 1%Q. lra. }
  apply Z.le_antisymm.
  - assert (H : (inject_Z (Qfloor (round64 q)) < inject_Z (k + 1))%Q)
      by (apply (Qle_lt_trans _ (round64 q)); [apply Qfloor_le | assumption]).
    rewrite <- Zlt_Qlt in H. lia.
  - rewrite <- (Qfloor_Z k). apply Qfloor_resp_le. assumption.
Qed.


Lemma percentage_le_95 (e : Z) : (percentage e <= 95)%Q.
Proof. unfold percentage. apply Q.le_min_r. Qed.

Lemma percentage_mono (e1 e2 : Z) : e1 <= e2 -> (percentage e1 <= percentage e2)%Q.
Proof.
  intros H. unfold percentage. apply Q.min_le_compat_r.
  apply round64_mono. apply Qmult_le_compat_r; [| discriminate].
  apply round64_mono. apply Qmult_le_compat_r; [| discriminate].
  rewrite <- Zle_Qle. assumption.
Qed.

Lemma percentage_nonneg (e : Z) : 0 <= e -> (0 <= percentage e)%Q.
Proof.
  intros H. apply (Qle_trans _ (percentage 0)); [| apply percentage_mono; assumption].
  vm_compute. discriminate.
Qed.

Lemma percentage_near (e : Z) :
  (0 <= e)%Z ->
  (exactPercentage e - (1 # 1000000000000) <= percentage e
   <= exactPercentage e + (1 # 1000000000000))%Q.
Proof.
  intros He. unfold percentage, exactPercentage.
  set (x := (inject_Z e / inject_Z totalEstimatedTime)%Q).
  assert (Hx : (0 <= x)%Q).
  { unfold x. apply Qle_shift_div_l; [reflexivity |].
    rewrite Qmult_0_l. change 0%Q with (inject_Z 0).
    rewrite <- Zle_Qle. assumption. }
  destruct (round64_near x Hx) as [A1 A2].
  pose proof (round64_nonneg x Hx) as Hr1.
  set (r1 := round64 x) in *.
  assert (Hy : (0 <= r1 * 100)%Q) by lra.
  destruct (round64_near (r1 * 100) Hy) as [B1 B2].
  set (r2 := round64 (r1 * 100)) in *.
  unfold eps64 in *.
  destruct (Q.min_spec r2 95) as [[C1 ->] | [C1 ->]];
    destruct (Q.min_spec (x * 100) 95) as [[C2 ->] | [C2 ->]];
    split; lra.
Qed.

Lemma getProgress_le_95 (start : option Z) (t : Z) : (getProgress start t <= 95)%Q.
Proof.
  unfold getProgress. destruct start as [s|]; [| discriminate].
  destruct (s =? 0); [discriminate | apply percentage_le_95].
Qed.

Lemma getProgress_not_100 (start : option Z) (t : Z) : ~ (getProgress start t == 100)%Q.
Proof.
  intros H. pose proof (getProgress_le_95 start t) as Hle.
  rewrite H in Hle. apply Qle_not_lt in Hle. apply Hle. reflexivity.
Qed.

Ltac break_match :=
  match goal with
  | |- context [match ?x with _ => _ end] => destruct x eqn:?
  | H : context [match ?x with _ => _ end] |- _ => destruct x eqn:?
  end.

Ltac unfold_ops :=
  unfold analyzeImage, makeRequest, attemptFailed, onSubmitResponse, onResult,
    startPollingForVideo, onPollResponse, pollDeadline, pollTick, runCallback,
    finallyAnalyze, progressTick in *.

Ltac crush_ops :=
  repeat first [ progress (unfold_ops; simpl in *) | break_match ].

Lemma progress_step_100 w e w' :
  step w e = Some w' -> (progress (st w') == 100)%Q -> ~ (progress (st w) == 100)%Q ->
  exists id r, e = Respond id (Response true (Some r)) /\ hasVideo r = true.
Proof.
  intros Hs H100 Hn.
  destruct e as [| d | id | id o |]; simpl in Hs.
  - destruct (buttonEnabled (st w)); [| discriminate]. injection Hs as <-.
    exfalso; apply Hn. revert H100. unfold_ops. repeat break_match; simpl; auto.
  - repeat break_match; try discriminate. injection Hs as <-. contradiction.
  - unfold fire in Hs. repeat break_match; try discriminate; injection Hs as <-;
      exfalso; apply Hn; revert H100; crush_ops; auto.
  - unfold respond in Hs. destruct (findPending id w) as [p|]; [| discriminate].
    injection Hs as <-.
    destruct (isReadyOutcome o) eqn:Hr.
    + destruct o as [| [|] [r|]]; try discriminate. exists id, r; auto.
    + exfalso; apply Hn; revert H100.
      destruct o as [| [|] [r|]]; simpl in Hr; crush_ops; auto; congruence.
  - destruct (tickerActive (st w)); [| discriminate]. injection Hs as <-.
    simpl in H100. exfalso. exact (getProgress_not_100 _ _ H100).
Qed.

Lemma progress_success w id r w' :
  hasVideo r = true -> step w (Respond id (Response true (Some r))) = Some w' ->
  progress (st w') = 100%Q /\ videoUrl (st w') = video_url r.
Proof.
  intros Hv Hs. simpl in Hs. unfold respond in Hs.
  destruct (findPending id w) as [p|]; [| discriminate]. injection Hs as <-.
  unfold_ops. simpl. rewrite Hv. destruct (cont p); simpl; auto.
Qed.

(** ** Timers across a step *)

Ltac in_timers := rewrite ?in_app_iff; auto.

Lemma timers_makeRequest a render w t :
  In t (timers w) -> In t (timers (makeRequest a render w)).
Proof. intros H. crush_ops; in_timers. Qed.

Lemma timers_analyzeImage w t :
  In t (timers w) -> In t (timers (analyzeImage w)).
Proof. intros H. crush_ops; in_timers. Qed.

Lemma timers_onSubmitResponse a render o w t :
  In t (timers w) -> In t (timers (onSubmitResponse a render o w)).
Proof. intros H. crush_ops; in_timers. Qed.

Lemma in_clearTimer id w t :
  In t (timers w) -> tid t <> id -> In t (timers (clearTimer id w)).
Proof.
  intros Hin Hne. simpl. apply filter_In. split; [assumption |].
  apply negb_true_iff, Nat.eqb_neq; assumption.
Qed.

Lemma tid_in_reschedule id d w t :
  In t (timers w) -> exists t', In t' (timers (reschedule id d w)) /\ tid t' = tid t.
Proof.
  intros Hin. simpl.
  exists (if (tid t =? id)%nat then mkTimer (tid t) d (period t) (callback t) else t).
  split.
  - apply in_map_iff. exists t. split; [reflexivity | assumption].
  - destruct (tid t =? id)%nat; reflexivity.
Qed.

(** A response other than a ready one leaves state and timers alone. *)
Lemma poll_notready_unchanged w id p pid o w' :
  findPending id w = Some p -> cont p = PollAwait pid ->
  isReadyOutcome o = false ->
  step w (Respond id o) = Some w' ->
  st w' = st w /\ timers w' = timers w
  /\ (log w' = log w \/ log w' = log w ++ [EConsoleError (lit "Polling error:")]).
Proof.
  intros Hf Hk Hr Hs. simpl in Hs. unfold respond in Hs. rewrite Hf, Hk in Hs.
  injection Hs as <-.
  destruct o as [| [|] [r|]]; simpl in Hr; unfold onPollResponse; rewrite ?Hr;
    simpl; auto.
Qed.

(** Only a ready probe of the loop or its deadline removes a poll interval. *)
Lemma poll_interval_removed w e w' t :
  wf w -> step w e = Some w' ->
  In t (timers w) -> isPoll (callback t) = true ->
  (forall t', In t' (timers w') -> tid t' <> tid t) ->
  (exists id p r, e = Respond id (Response true (Some r)) /\ hasVideo r = true
                  /\ findPending id w = Some p /\ cont p = PollAwait (tid t))
  \/ (exists id dl isP, e = Fire id /\ findTimer id w = Some dl
                        /\ callback dl = PollDeadline (tid t) isP
                        /\ due dl = now w).
Proof.
  intros Hw Hs Hin Hpoll Hgone.
  assert (Hkeep : In t (timers w') -> False) by (intros H; exact (Hgone t H eq_refl)).
  destruct e as [| d | id | id o |]; simpl in Hs.
  - destruct (buttonEnabled (st w)); [| discriminate]. injection Hs as <-.
    exfalso; apply Hkeep, timers_analyzeImage; assumption.
  - repeat break_match; try discriminate. injection Hs as <-.
    exfalso; apply Hkeep; assumption.
  - unfold fire in Hs. destruct (findTimer id w) as [dl|] eqn:Hf; [| discriminate].
    destruct (due dl <=? now w) eqn:Hdue; [| discriminate]. injection Hs as <-.
    pose proof (findTimer_some _ _ _ Hf) as [Hdl Hid].
    pose proof Hw as (Hnd & Hts & _). rewrite Forall_forall in Hts.
    destruct (Hts dl Hdl) as (_ & Hnow & Hcb).
    destruct (callback dl) as [rq | pid isP | | a render] eqn:Ecb.
    + exfalso. rewrite Hcb in Hgone. simpl in Hgone.
      destruct (tid_in_reschedule id (due dl + 5000) w t Hin) as [t' [Hin' Ht']].
      exact (Hgone t' Hin' Ht').
    + assert (Hne : tid t <> id).
      { intros He. assert (t = dl) by (eapply tid_inj; eauto; congruence).
        subst t. rewrite Ecb in Hpoll; discriminate. }
      destruct Hcb as (Hp & _). rewrite Hp in Hkeep.
      destruct (Nat.eq_dec (tid t) pid) as [He | Hne'].
      * right. exists id, dl, isP. subst pid. apply Z.leb_le in Hdue.
        repeat split; auto; lia.
      * exfalso; apply Hkeep. simpl. unfold pollDeadline.
        assert (In t (timers (clearTimer pid (clearTimer id w)))).
        { apply in_clearTimer; [apply in_clearTimer |]; assumption. }
        destruct isP; assumption.
    + assert (Hne : tid t <> id).
      { intros He. assert (t = dl) by (eapply tid_inj; eauto; congruence).
        subst t. rewrite Ecb in Hpoll; discriminate. }
      rewrite Hcb in Hkeep. exfalso; apply Hkeep. simpl.
      apply (in_clearTimer id w t); assumption.
    + assert (Hne : tid t <> id).
      { intros He. assert (t = dl) by (eapply tid_inj; eauto; congruence).
        subst t. rewrite Ecb in Hpoll; discriminate. }
      destruct Hcb as (Hp & _). rewrite Hp in Hkeep. exfalso; apply Hkeep. simpl.
      apply timers_makeRequest, in_clearTimer; assumption.
  - unfold respond in Hs. destruct (findPending id w) as [p|] eqn:Hf; [| discriminate].
    injection Hs as <-.
    destruct (cont p) as [a render | pid] eqn:Ek.
    + exfalso; apply Hkeep, timers_onSubmitResponse. assumption.
    + destruct (isReadyOutcome o) eqn:Hr.
      * destruct o as [| [|] [r|]]; try discriminate. simpl in Hr.
        destruct (Nat.eq_dec (tid t) pid) as [He | Hne'].
        -- left. exists id, p, r. subst pid. auto.
        -- exfalso; apply Hkeep. unfold onPollResponse; rewrite Hr. simpl.
           apply in_or_app; left. apply filter_In. split; [assumption |].
           apply negb_true_iff, Nat.eqb_neq; assumption.
      * exfalso; apply Hkeep.
        destruct o as [| [|] [r|]]; simpl in Hr; unfold onPollResponse;
          rewrite ?Hr; simpl; assumption.
  - destruct (tickerActive (st w)); [| discriminate]. injection Hs as <-.
    exfalso; apply Hkeep; assumption.
Qed.

(** ** The step function, event by event *)

(** Equations of the step function at each kind of event. *)

Lemma step_respond_poll w id p pid o :
  findPending id w = Some p -> cont p = PollAwait pid ->
  step w (Respond id o) = Some (onPollResponse pid o (removePending id w)).
Proof. intros Hf Hk. simpl. unfold respond. rewrite Hf, Hk. reflexivity. Qed.

Lemma step_respond_submit w id p a render o :
  findPending id w = Some p -> cont p = SubmitAwait a render ->
  step w (Respond id o) = Some (onSubmitResponse a render o (removePending id w)).
Proof. intros Hf Hk. simpl. unfold respond. rewrite Hf, Hk. reflexivity. Qed.

Lemma step_fire_oneshot w id t :
  findTimer id w = Some t -> period t = None -> due t <= now w ->
  step w (Fire id) = Some (runCallback id (callback t) (clearTimer id w)).
Proof.
  intros Hf Hp Hd. simpl. unfold fire. rewrite Hf, Hp.
  apply Z.leb_le in Hd. rewrite Hd. reflexivity.
Qed.

Lemma step_fire_interval w id t p :
  findTimer id w = Some t -> period t = Some p -> due t <= now w ->
  step w (Fire id)
  = Some (runCallback id (callback t) (reschedule id (due t + p) w)).
Proof.
  intros Hf Hp Hd. simpl. unfold fire. rewrite Hf, Hp.
  apply Z.leb_le in Hd. rewrite Hd. reflexivity.
Qed.

Lemma step_fire_due w id w' :
  step w (Fire id) = Some w' ->
  exists t, findTimer id w = Some t /\ due t <= now w.
Proof.
  simpl. unfold fire. destruct (findTimer id w) as [t|]; [| discriminate].
  destruct (due t <=? now w) eqn:E; [| discriminate].
  intros _. exists t. split; [reflexivity | apply Z.leb_le; assumption].
Qed.

Lemma wf_timer w t :
  wf w -> In t (timers w) -> timerOk (nextId w) (now w) (timers w) t.
Proof. intros (_ & Hts & _) Hin. rewrite Forall_forall in Hts. auto. Qed.

Lemma wf_pending w p :
  wf w -> In p (inflight w) -> pendingOk (nextId w) (timers w) p.
Proof. intros (_ & _ & Hps) Hin. rewrite Forall_forall in Hps. auto. Qed.

(** A timer fires at the instant it is due. *)
Lemma fire_on_time w id t w' :
  wf w -> findTimer id w = Some t -> step w (Fire id) = Some w' -> now w = due t.
Proof.
  intros Hw Hf Hs. destruct (step_fire_due _ _ _ Hs) as [t' [Hf' Hd]].
  rewrite Hf in Hf'; injection Hf' as <-.
  destruct (findTimer_some _ _ _ Hf) as [Hin _].
  destruct (wf_timer _ _ Hw Hin) as (_ & Hn & _). lia.
Qed.

Lemma grows_refl w : grows w w.
Proof. split; [lia |]. intros t' H; left; exists t'; auto. Qed.

Lemma grows_trans w1 w2 w3 : grows w1 w2 -> grows w2 w3 -> grows w1 w3.
Proof.
  intros [Hn1 H1] [Hn2 H2]. split; [lia |].
  intros t3 Hin3. destruct (H2 t3 Hin3) as [[t2 [Hin2 He]] | Hge]; [| right; lia].
  destruct (H1 t2 Hin2) as [[t1 [Hin1 He1]] | Hge]; [left | right].
  - exists t1; split; [assumption | congruence].
  - lia.
Qed.

Lemma grows_setState f w : grows w (setState f w).
Proof. split; simpl; [lia |]. intros t' H; left; exists t'; auto. Qed.

Lemma grows_emit e w : grows w (emit e w).
Proof. split; simpl; [lia |]. intros t' H; left; exists t'; auto. Qed.

Lemma grows_advance d w : grows w (advance d w).
Proof. split; simpl; [lia |]. intros t' H; left; exists t'; auto. Qed.

Lemma grows_removePending id w : grows w (removePending id w).
Proof. split; simpl; [lia |]. intros t' H; left; exists t'; auto. Qed.

Lemma grows_addPending k w : grows w (addPending k w).
Proof. split; simpl; [lia |]. intros t' H; left; exists t'; auto. Qed.

Lemma grows_addTimer d p cb w : grows w (addTimer d p cb w).
Proof.
  split; simpl; [lia |]. intros t' H. apply in_app_or in H as [H | [<- | []]].
  - left; exists t'; auto.
  - right; simpl; lia.
Qed.

Lemma grows_clearTimer id w : grows w (clearTimer id w).
Proof.
  split; simpl; [lia |]. intros t' H. apply filter_In in H as [H _].
  left; exists t'; auto.
Qed.

Lemma grows_reschedule id d w : grows w (reschedule id d w).
Proof.
  split; simpl; [lia |]. intros t' H. apply in_map_iff in H as [t [<- Hin]].
  left; exists t. split; [assumption |]. destruct (tid t =? id)%nat; reflexivity.
Qed.

Ltac grows_step :=
  match goal with
  | |- grows ?w ?w => apply grows_refl
  | |- grows ?w (setState _ ?x) => apply (grows_trans w x); [| apply grows_setState]
  | |- grows ?w (emit _ ?x) => apply (grows_trans w x); [| apply grows_emit]
  | |- grows ?w (advance _ ?x) => apply (grows_trans w x); [| apply grows_advance]
  | |- grows ?w (removePending _ ?x) =>
      apply (grows_trans w x); [| apply grows_removePending]
  | |- grows ?w (addPending _ ?x) => apply (grows_trans w x); [| apply grows_addPending]
  | |- grows ?w (addTimer _ _ _ ?x) => apply (grows_trans w x); [| apply grows_addTimer]
  | |- grows ?w (clearTimer _ ?x) => apply (grows_trans w x); [| apply grows_clearTimer]
  | |- grows ?w (reschedule _ _ ?x) =>
      apply (grows_trans w x); [| apply grows_reschedule]
  | |- grows ?w (if ?b then _ else _) => destruct b
  | |- grows ?w (match ?x with _ => _ end) => destruct x
  end.

Lemma grows_attemptFailed a render w : grows w (attemptFailed a render w).
Proof. unfold attemptFailed, finallyAnalyze. cbv zeta. repeat grows_step. Qed.

Lemma grows_makeRequest a render w : grows w (makeRequest a render w).
Proof.
  unfold makeRequest. cbv zeta.
  destruct (selectedImage render) as [f|]; [| apply grows_attemptFailed].
  destruct (convertToBase64 f); [| apply grows_attemptFailed]. repeat grows_step.
Qed.

Lemma grows_onResult r render w : grows w (onResult r render w).
Proof.
  unfold onResult, startPollingForVideo, finallyAnalyze. cbv zeta.
  repeat grows_step.
Qed.

Lemma grows_onSubmitResponse a render o w :
  grows w (onSubmitResponse a render o w).
Proof.
  unfold onSubmitResponse.
  destruct o as [| [|] [r|]];
    first [apply grows_attemptFailed | apply grows_onResult].
Qed.

Lemma grows_onPollResponse pid o w : grows w (onPollResponse pid o w).
Proof. unfold onPollResponse. cbv zeta. repeat grows_step. Qed.

Lemma grows_runCallback self cb w : grows w (runCallback self cb w).
Proof.
  destruct cb; simpl; unfold pollTick, pollDeadline; cbv zeta;
    try apply grows_makeRequest; repeat grows_step.
Qed.

Lemma step_timer_origin w e w' : step w e = Some w' -> grows w w'.
Proof.
  intros Hs. destruct e as [| d | id | id o |]; simpl in Hs.
  - destruct (buttonEnabled (st w)); [| discriminate]. injection Hs as <-.
    unfold analyzeImage. cbv zeta.
    destruct (selectedImage (st w)); [| apply grows_emit].
    eapply grows_trans; [apply grows_setState | apply grows_makeRequest].
  - destruct (_ && _); [| discriminate]. injection Hs as <-. apply grows_advance.
  - unfold fire in Hs. destruct (findTimer id w) as [t|]; [| discriminate].
    destruct (due t <=? now w); [| discriminate]. injection Hs as <-.
    eapply grows_trans; [| apply grows_runCallback].
    destruct (period t); [apply grows_reschedule | apply grows_clearTimer].
  - unfold respond in Hs. destruct (findPending id w) as [p|]; [| discriminate].
    injection Hs as <-.
    eapply grows_trans; [apply grows_removePending |].
    destruct (cont p); [apply grows_onSubmitResponse | apply grows_onPollResponse].
  - destruct (tickerActive (st w)); [| discriminate]. injection Hs as <-.
    apply grows_setState.
Qed.

Lemma absent_findTimer id w : absentTimer id w -> findTimer id w = None.
Proof.
  intros H. destruct (findTimer id w) as [t|] eqn:E; [| reflexivity].
  destruct (findTimer_some _ _ _ E) as [Hin Hid]. destruct (H t Hin Hid).
Qed.

(** An identifier that is used up never comes back. *)
Lemma absent_run es : forall w w' id,
  absentTimer id w -> (id < nextId w)%nat -> run w es = Some w' ->
  absentTimer id w' /\ (id < nextId w')%nat.
Proof.
  induction es as [|e es IH]; simpl; intros w w' id Ha Hlt Hr.
  - injection Hr as <-. auto.
  - destruct (step w e) as [w1|] eqn:Hs; [| discriminate].
    destruct (step_timer_origin _ _ _ Hs) as [Hn Ho].
    apply (IH w1 w' id); [| lia | assumption].
    intros t' Hin He. destruct (Ho t' Hin) as [[t [Hin0 Ht]] | Hge].
    + apply (Ha t Hin0). congruence.
    + lia.
Qed.

(** ** Deadlines and poll intervals *)

Lemma in_reschedule_other id d w t :
  In t (timers w) -> tid t <> id -> In t (timers (reschedule id d w)).
Proof.
  intros Hin Hne. simpl. apply in_map_iff. exists t.
  split; [| assumption]. apply Nat.eqb_neq in Hne. rewrite Hne. reflexivity.
Qed.

Lemma absent_clearTimer id w : absentTimer id (clearTimer id w).
Proof.
  intros t Hin. simpl in Hin. apply filter_In in Hin as [_ H].
  apply negb_true_iff, Nat.eqb_neq in H. assumption.
Qed.

Lemma fire_absent id w : absentTimer id w -> step w (Fire id) = None.
Proof. intros H. simpl. unfold fire. rewrite (absent_findTimer _ _ H). reflexivity. Qed.

(** A deadline and the interval it guards have different identifiers. *)
Lemma deadline_not_poll ts dl pid :
  refersToPoll ts pid -> In dl ts -> isDeadline (callback dl) = true -> tid dl <> pid.
Proof.
  intros Hr Hin Hd He. specialize (Hr dl Hin He).
  destruct (callback dl); discriminate.
Qed.

Lemma onResult_accepted r render w :
  hasVideo r = false -> isSuccess r = true ->
  onResult r render w
  = finallyAnalyze
      (startPollingForVideo render
         (emit (EToast toastWorking)
            ((if truthy_opt (request_id r)
              then setState (setRequestId (request_id r)) else fun x => x)
               (setState (fun s => setProcessingStartTime (Some (now w))
                                     (setIsProcessing true s)) w)))).
Proof.
  intros Hv Hs. unfold onResult. rewrite Hv, Hs.
  destruct (truthy_opt (request_id r)); reflexivity.
Qed.

Lemma polling_start w id p a render r :
  findPending id w = Some p -> cont p = SubmitAwait a render ->
  isSuccess r = true -> hasVideo r = false ->
  exists w', step w (Respond id (Response true (Some r))) = Some w'
    /\ timers w' = timers w ++
         [ mkTimer (nextId w) (now w + 5000) (Some 5000) (PollTick (requestId render));
           mkTimer (S (nextId w)) (now w + 360000) None
                   (PollDeadline (nextId w) (isProcessing render)) ]
    /\ log w' = log w ++ [EToast toastWorking]
    /\ isProcessing (st w') = true
    /\ processingStartTime (st w') = Some (now w)
    /\ videoUrl (st w') = videoUrl (st w)
    /\ requestId (st w')
       = (if truthy_opt (request_id r) then request_id r else requestId (st w)).
Proof.
  intros Hf Hk Hs Hv. eexists. split.
  - rewrite (step_respond_submit _ _ _ _ _ _ Hf Hk). reflexivity.
  - simpl. rewrite (onResult_accepted _ _ _ Hv Hs).
    destruct (truthy_opt (request_id r)); simpl; rewrite <- app_assoc; simpl;
      repeat split; reflexivity.
Qed.

Lemma deadline_fire w id dl pid isP w' :
  wf w -> findTimer id w = Some dl -> callback dl = PollDeadline pid isP ->
  step w (Fire id) = Some w' ->
  now w = due dl
  /\ w' = pollDeadline pid isP (clearTimer id w)
  /\ forall es w'', run w' es = Some w'' ->
       step w'' (Fire id) = None /\ step w'' (Fire pid) = None.
Proof.
  intros Hw Hf Hcb Hs.
  pose proof (fire_on_time _ _ _ _ Hw Hf Hs) as Hnow.
  destruct (findTimer_some _ _ _ Hf) as [Hin Hid].
  destruct (wf_timer _ _ Hw Hin) as (Hlt & _ & Hok). rewrite Hcb in Hok.
  destruct Hok as (Hp & Hpid & _).
  rewrite (step_fire_oneshot _ _ _ Hf Hp) in Hs by lia.
  rewrite Hcb in Hs. simpl in Hs. injection Hs as <-.
  split; [assumption | split; [reflexivity |]].
  assert (Ha1 : absentTimer id (pollDeadline pid isP (clearTimer id w))).
  { unfold pollDeadline. destruct isP; simpl; intros t Ht;
      apply filter_In in Ht as [Ht _]; exact (absent_clearTimer id w t Ht). }
  assert (Ha2 : absentTimer pid (pollDeadline pid isP (clearTimer id w))).
  { unfold pollDeadline. destruct isP; simpl; intros t Ht;
      exact (absent_clearTimer pid (clearTimer id w) t Ht). }
  assert (Hn : nextId (pollDeadline pid isP (clearTimer id w)) = nextId w)
    by (unfold pollDeadline; destruct isP; reflexivity).
  intros es w'' Hr. split; apply fire_absent.
  - eapply absent_run; [exact Ha1 | | exact Hr]. rewrite Hn. lia.
  - eapply absent_run; [exact Ha2 | | exact Hr]. rewrite Hn. lia.
Qed.

Lemma onPollResponse_ready pid r w :
  hasVideo r = true ->
  onPollResponse pid (Response true (Some r)) w
  = addTimer (now w + 3000) None HideSuccessAnimation
      (emit (EToast (toastComplete completeDefault))
         (clearTimer pid (setState (showVideo r) w))).
Proof. intros Hv. unfold onPollResponse. rewrite Hv. reflexivity. Qed.

Lemma ready_probe w id p pid r w' :
  wf w -> findPending id w = Some p -> cont p = PollAwait pid ->
  hasVideo r = true ->
  step w (Respond id (Response true (Some r))) = Some w' ->
  (forall es w'', run w' es = Some w'' -> step w'' (Fire pid) = None)
  /\ (forall dl, In dl (timers w) -> isDeadline (callback dl) = true ->
                 In dl (timers w')).
Proof.
  intros Hw Hf Hk Hv Hs.
  rewrite (step_respond_poll _ _ _ _ _ Hf Hk) in Hs. injection Hs as <-.
  rewrite Hv.
  destruct (findPending_some _ _ _ Hf) as [Hin _].
  destruct (wf_pending _ _ Hw Hin) as (_ & Hok). rewrite Hk in Hok.
  destruct Hok as (Hpid & Href).
  split.
  - intros es w'' Hr. apply fire_absent.
    eapply absent_run; [| | exact Hr]; simpl; [| lia].
    intros t Ht. apply in_app_or in Ht as [Ht | [<- | []]]; simpl; [| lia].
    apply filter_In in Ht as [_ Ht].
    apply negb_true_iff, Nat.eqb_neq in Ht. assumption.
  - intros dl Hdl Hd. simpl. apply in_or_app; left.
    apply filter_In; split; [assumption |].
    apply negb_true_iff, Nat.eqb_neq.
    exact (deadline_not_poll _ _ _ Href Hdl Hd).
Qed.

Lemma deadline_never_cancelled w e w' dl :
  wf w -> step w e = Some w' ->
  In dl (timers w) -> isDeadline (callback dl) = true ->
  In dl (timers w') \/ e = Fire (tid dl).
Proof.
  intros Hw Hs Hdl Hd.
  destruct e as [| d | id | id o |]; simpl in Hs.
  - destruct (buttonEnabled (st w)); [| discriminate]. injection Hs as <-.
    left; apply timers_analyzeImage; assumption.
  - destruct (_ && _); [| discriminate]. injection Hs as <-. left; assumption.
  - destruct (Nat.eq_dec (tid dl) id) as [He | Hne]; [right; congruence | left].
    unfold fire in Hs. destruct (findTimer id w) as [t|] eqn:Hf; [| discriminate].
    destruct (due t <=? now w); [| discriminate]. injection Hs as <-.
    destruct (findTimer_some _ _ _ Hf) as [Hin Hid].
    destruct (wf_timer _ _ Hw Hin) as (_ & _ & Hok).
    destruct (callback t) as [rq | pid isP | | a render].
    + rewrite Hok. simpl. apply (in_reschedule_other id _ w dl); assumption.
    + destruct Hok as (-> & _ & Href). simpl. unfold pollDeadline.
      assert (In dl (timers (clearTimer pid (clearTimer id w)))).
      { apply in_clearTimer; [apply in_clearTimer; assumption |].
        exact (deadline_not_poll _ _ _ Href Hdl Hd). }
      destruct isP; assumption.
    + rewrite Hok. simpl. apply (in_clearTimer id w dl); assumption.
    + destruct Hok as (-> & _). simpl.
      apply timers_makeRequest, in_clearTimer; assumption.
  - left. unfold respond in Hs.
    destruct (findPending id w) as [p|] eqn:Hf; [| discriminate].
    injection Hs as <-.
    destruct (findPending_some _ _ _ Hf) as [Hin _].
    destruct (wf_pending _ _ Hw Hin) as (_ & Hok).
    destruct (cont p) as [a render | pid].
    + apply timers_onSubmitResponse. assumption.
    + destruct Hok as (_ & Href).
      destruct (isReadyOutcome o) eqn:Hr.
      * destruct o as [| [|] [r|]]; try discriminate. simpl in Hr.
        rewrite (onPollResponse_ready _ _ _ Hr). simpl. apply in_or_app; left.
        apply filter_In; split; [assumption |].
        apply negb_true_iff, Nat.eqb_neq.
        exact (deadline_not_poll _ _ _ Href Hdl Hd).
      * destruct o as [| [|] [r|]]; simpl in Hr; unfold onPollResponse;
          rewrite ?Hr; simpl; assumption.
  - destruct (tickerActive (st w)); [| discriminate]. injection Hs as <-.
    left; assumption.
Qed.

(** Time does not pass over a timer that is due. *)
Lemma elapse_stops_at_due w d w' t :
  step w (Elapse d) = Some w' -> In t (timers w) -> now w' <= due t.
Proof.
  simpl. destruct (0 <? d); simpl; [| discriminate].
  destruct (forallb (fun t => now w + d <=? due t) (timers w)) eqn:Hall;
    [| discriminate].
  intros H Hin. injection H as <-. simpl.
  rewrite forallb_forall in Hall. apply Z.leb_le. exact (Hall t Hin).
Qed.

(** ** Reachable worlds *)

Lemma wf_reach (es : list Event) (w : World) :
  run w0 es = Some w -> wf w.
Proof. apply wf_run. apply wf_initialWorld. Qed.

Lemma findTimer_reschedule id d w t :
  findTimer id w = Some t ->
  findTimer id (reschedule id d w) = Some (mkTimer id d (period t) (callback t)).
Proof.
  unfold findTimer. simpl. induction (timers w) as [|x ts IH]; simpl; [discriminate |].
  destruct (tid x =? id)%nat eqn:E.
  - intros H; injection H as <-. simpl. rewrite E. apply Nat.eqb_eq in E.
    rewrite E. reflexivity.
  - simpl. rewrite E. exact IH.
Qed.

(** ** The readiness test *)

Lemma hasVideo_iff (r : AnalysisResponse) :
  hasVideo r = true <->
  status r = lit "success"
  /\ exists u, video_url r = Some u
       /\ (exists c, In c u /\ isWhiteSpace c = false)
       /\ startsWith u (lit "http") = true.
Proof.
  unfold hasVideo. rewrite andb_true_iff, jseq_eq. split.
  - intros [Hs Hu]. split; [assumption |].
    destruct (video_url r) as [u|]; [| discriminate].
    rewrite !andb_true_iff, truthy_trim in Hu. destruct Hu as [[_ Hb] Hp].
    exists u. split; [reflexivity |]. split; [apply not_blank_iff |]; assumption.
  - intros [Hs [u [Hu [Hb Hp]]]]. split; [assumption |]. rewrite Hu.
    rewrite !andb_true_iff, truthy_trim. repeat split; try assumption.
    + destruct Hb as [c [Hin _]]. destruct u; [destruct Hin | reflexivity].
    + apply not_blank_iff; assumption.
Qed.

(** ** Submission attempts *)

Lemma attemptFailed_retry a render w :
  a < 3 ->
  attemptFailed a render w
  = addTimer (now w + 2 ^ a * 1000) None (RetryDelay (a + 1) render)
      (emit (EConsoleError (attemptFailedLabel a)) w).
Proof.
  intros H. unfold attemptFailed. apply Z.ltb_lt in H. rewrite H. reflexivity.
Qed.


Lemma onSubmitResponse_throws a render o w :
  attemptThrows o = true ->
  onSubmitResponse a render o w = attemptFailed a render w.
Proof. destruct o as [| [|] [r|]]; simpl; intros H; try reflexivity; discriminate. Qed.


Lemma makeRequest_sends a render w f image :
  selectedImage render = Some f -> convertToBase64 f = Some image ->
  makeRequest a render w
  = addPending (SubmitAwait a render)
      (emit (EFetch (submitPayload image f (now w) a))
         (emit (EToast (if a =? 1 then toastStarting else toastRetry a)) w)).
Proof. intros Hf Hb. unfold makeRequest. rewrite Hf, Hb. reflexivity. Qed.

Lemma click_sends_first_attempt w f image :
  buttonEnabled (st w) = true ->
  selectedImage (st w) = Some f -> convertToBase64 f = Some image ->
  exists w', step w Click = Some w'
    /\ log w' = log w ++ [EToast toastStarting;
                          EFetch (submitPayload image f (now w) 1)]
    /\ inflight w' = inflight w ++ [mkPending (nextId w) (SubmitAwait 1 (st w))]
    /\ timers w' = timers w.
Proof.
  intros Hb Hf Hi. eexists. split.
  - simpl. rewrite Hb. unfold analyzeImage. rewrite Hf.
    rewrite (makeRequest_sends _ _ _ f image Hf Hi). reflexivity.
  - simpl. rewrite <- app_assoc. repeat split.
Qed.

Lemma failed_attempt_schedules_retry w id p a render o :
  wf w -> findPending id w = Some p -> cont p = SubmitAwait a render ->
  attemptThrows o = true -> a < 3 ->
  exists w', step w (Respond id o) = Some w'
    /\ (a = 1 \/ a = 2)
    /\ timers w' = timers w ++
         [mkTimer (nextId w) (now w + (if a =? 1 then 2000 else 4000)) None
                  (RetryDelay (a + 1) render)]
    /\ log w' = log w ++ [EConsoleError (attemptFailedLabel a)]
    /\ inflight w' = filter (fun q => negb (rid q =? id)%nat) (inflight w).
Proof.
  intros Hw Hf Hk Ho Ha.
  destruct (findPending_some _ _ _ Hf) as [Hin _].
  destruct (wf_pending _ _ Hw Hin) as (_ & Hok). rewrite Hk in Hok.
  assert (Hcases : a = 1 \/ a = 2) by lia.
  eexists. split.
  - rewrite (step_respond_submit _ _ _ _ _ _ Hf Hk).
    rewrite (onSubmitResponse_throws _ _ _ _ Ho), (attemptFailed_retry _ _ _ Ha).
    reflexivity.
  - split; [assumption |]. simpl.
    destruct Hcases as [-> | ->]; repeat split.
Qed.


Lemma retry_fires_after_delay w id t a render f image w' :
  wf w -> findTimer id w = Some t -> callback t = RetryDelay a render ->
  selectedImage render = Some f -> convertToBase64 f = Some image ->
  step w (Fire id) = Some w' ->
  now w = due t
  /\ (a = 2 \/ a = 3)
  /\ log w' = log w ++ [EToast (toastRetry a);
                        EFetch (submitPayload image f (now w) a)]
  /\ inflight w' = inflight w ++ [mkPending (nextId w) (SubmitAwait a render)].
Proof.
  intros Hw Hf Hcb Hsel Hb Hs.
  pose proof (fire_on_time _ _ _ _ Hw Hf Hs) as Hnow.
  destruct (findTimer_some _ _ _ Hf) as [Hin _].
  destruct (wf_timer _ _ Hw Hin) as (_ & _ & Hok). rewrite Hcb in Hok.
  destruct Hok as (Hp & Ha).
  rewrite (step_fire_oneshot _ _ _ Hf Hp) in Hs by lia.
  rewrite Hcb in Hs. simpl in Hs.
  rewrite (makeRequest_sends _ _ _ f image Hsel Hb) in Hs. injection Hs as <-.
  assert (Hcases : a = 2 \/ a = 3) by lia.
  split; [assumption |]. split; [assumption |]. simpl. rewrite <- app_assoc.
  destruct Hcases as [-> | ->]; split; reflexivity.
Qed.


(** ** What is submitted: the invariant *)

Section Selection.

Variable P : File -> Prop.

Lemma renderHas_ok s : renderHas P s -> renderOk P s.
Proof. unfold renderHas, renderOk. destruct (selectedImage s); tauto. Qed.

Lemma sel_setState g w :
  selectedImage (g (st w)) = selectedImage (st w) ->
  selectionInv P w -> selectionInv P (setState g w).
Proof.
  intros Hg (H1 & H2 & H3 & H4). repeat split; try assumption.
  unfold renderOk; simpl. rewrite Hg. exact H1.
Qed.

Lemma sel_emit e w :
  effectOk P e -> selectionInv P w -> selectionInv P (emit e w).
Proof.
  intros He (H1 & H2 & H3 & H4). repeat split; try assumption.
  simpl. apply Forall_app; split; [assumption | constructor; [assumption | constructor]].
Qed.

Lemma sel_addTimer d p cb w :
  timerImageOk P (mkTimer (nextId w) d p cb) ->
  selectionInv P w -> selectionInv P (addTimer d p cb w).
Proof.
  intros Hc (H1 & H2 & H3 & H4). repeat split; try assumption.
  simpl. apply Forall_app; split; [assumption | constructor; [assumption | constructor]].
Qed.

Lemma sel_addPending k w :
  pendingImageOk P (mkPending (nextId w) k) ->
  selectionInv P w -> selectionInv P (addPending k w).
Proof.
  intros Hc (H1 & H2 & H3 & H4). repeat split; try assumption.
  simpl. apply Forall_app; split; [assumption | constructor; [assumption | constructor]].
Qed.

Lemma sel_clearTimer id w : selectionInv P w -> selectionInv P (clearTimer id w).
Proof.
  intros (H1 & H2 & H3 & H4). repeat split; try assumption.
  simpl. apply Forall_filter; assumption.
Qed.

Lemma sel_removePending id w :
  selectionInv P w -> selectionInv P (removePending id w).
Proof.
  intros (H1 & H2 & H3 & H4). repeat split; try assumption.
  simpl. apply Forall_filter; assumption.
Qed.

Lemma sel_reschedule id d w : selectionInv P w -> selectionInv P (reschedule id d w).
Proof.
  intros (H1 & H2 & H3 & H4). repeat split; try assumption.
  simpl. rewrite Forall_map. eapply Forall_impl; [| exact H3].
  intros t Ht. destruct (tid t =? id)%nat; exact Ht.
Qed.

Lemma sel_attemptFailed a render w :
  renderHas P render -> 1 <= a <= 3 ->
  selectionInv P w -> selectionInv P (attemptFailed a render w).
Proof.
  intros Hr Ha Hw. unfold attemptFailed, finallyAnalyze. cbv zeta.
  destruct (a <? 3) eqn:E.
  - apply Z.ltb_lt in E.
    apply sel_addTimer; [split; [exact Hr | lia] |].
    apply sel_emit; [exact I | assumption].
  - apply sel_setState; [reflexivity |].
    repeat (apply sel_emit; [exact I |]). assumption.
Qed.

Lemma sel_makeRequest a render w :
  renderHas P render -> 1 <= a <= 3 ->
  selectionInv P w -> selectionInv P (makeRequest a render w).
Proof.
  intros Hr Ha Hw. unfold makeRequest.
  destruct (selectedImage render) as [f|] eqn:Hf;
    [| apply sel_attemptFailed; assumption].
  destruct (convertToBase64 f) as [image|] eqn:Hc;
    [| apply sel_attemptFailed; assumption].
  cbv zeta. apply sel_addPending; [split; assumption |].
  apply sel_emit; [| apply sel_emit; [exact I | assumption]].
  right. exists f, image, (now w), a.
  unfold renderHas in Hr. rewrite Hf in Hr. repeat split; try assumption; lia.
Qed.

Lemma sel_onResult r render w :
  selectionInv P w -> selectionInv P (onResult r render w).
Proof.
  intros Hw. unfold onResult, startPollingForVideo, finallyAnalyze. cbv zeta.
  destruct (hasVideo r); [| destruct (isSuccess r)].
  - apply sel_setState; [reflexivity |]. apply sel_addTimer; [exact I |].
    apply sel_emit; [exact I |]. apply sel_setState; [reflexivity | assumption].
  - apply sel_setState; [reflexivity |].
    apply sel_addTimer; [exact I |]. apply sel_addTimer; [exact I |].
    apply sel_emit; [exact I |].
    destruct (truthy_opt (request_id r));
      repeat (apply sel_setState; [reflexivity |]); assumption.
  - apply sel_setState; [reflexivity |]. apply sel_emit; [exact I | assumption].
Qed.

Lemma sel_onSubmitResponse a render o w :
  renderHas P render -> 1 <= a <= 3 -> selectionInv P w ->
  selectionInv P (onSubmitResponse a render o w).
Proof.
  intros Hr Ha Hw. unfold onSubmitResponse.
  destruct o as [| [|] [r|]];
    first [apply sel_attemptFailed; assumption | apply sel_onResult; assumption].
Qed.

Lemma sel_onPollResponse pid o w :
  selectionInv P w -> selectionInv P (onPollResponse pid o w).
Proof.
  intros Hw. unfold onPollResponse.
  destruct o as [| [|] [r|]]; try assumption;
    try (apply sel_emit; [exact I | assumption]).
  destruct (hasVideo r); [| assumption]. cbv zeta.
  apply sel_addTimer; [exact I |]. apply sel_emit; [exact I |].
  apply sel_clearTimer. apply sel_setState; [reflexivity | assumption].
Qed.

Lemma sel_step w e w' :
  selectionInv P w -> step w e = Some w' -> selectionInv P w'.
Proof.
  intros Hw Hs. destruct e as [| d | id | id o |]; simpl in Hs.
  - destruct (buttonEnabled (st w)); [| discriminate]. injection Hs as <-.
    unfold analyzeImage. cbv zeta.
    destruct (selectedImage (st w)) eqn:Hf; [| apply sel_emit; [exact I | assumption]].
    apply sel_makeRequest;
      [| lia | apply sel_setState; [reflexivity | assumption]].
    pose proof (proj1 Hw) as Hr. unfold renderOk in Hr. unfold renderHas.
    rewrite Hf in *. exact Hr.
  - destruct (_ && _); [| discriminate]. injection Hs as <-. assumption.
  - unfold fire in Hs. destruct (findTimer id w) as [t|] eqn:Hf; [| discriminate].
    destruct (due t <=? now w); [| discriminate]. injection Hs as <-.
    destruct (findTimer_some _ _ _ Hf) as [Hin _].
    assert (Ht : timerImageOk P t).
    { destruct Hw as (_ & _ & H3 & _). rewrite Forall_forall in H3. auto. }
    assert (H1 : selectionInv P (match period t with
                                 | Some p => reschedule id (due t + p) w
                                 | None => clearTimer id w
                                 end))
      by (destruct (period t); [apply sel_reschedule | apply sel_clearTimer]; assumption).
    unfold timerImageOk in Ht.
    destruct (callback t) as [rq | pid isP | | a render]; simpl.
    + unfold pollTick. cbv zeta. apply sel_addPending; [exact I |].
      apply sel_emit; [| assumption]. left. eexists; eexists; reflexivity.
    + unfold pollDeadline. cbv zeta.
      destruct isP; [apply sel_emit; [exact I |]; apply sel_setState; [reflexivity |] |];
        apply sel_clearTimer; assumption.
    + apply sel_setState; [reflexivity | assumption].
    + destruct Ht as [Hr Ha]. apply sel_makeRequest; [assumption | lia | assumption].
  - unfold respond in Hs. destruct (findPending id w) as [p|] eqn:Hf; [| discriminate].
    injection Hs as <-.
    destruct (findPending_some _ _ _ Hf) as [Hin _].
    assert (Hp : pendingImageOk P p).
    { destruct Hw as (_ & H2 & _). rewrite Forall_forall in H2. auto. }
    unfold pendingImageOk in Hp.
    destruct (cont p) as [a render | pid].
    + destruct Hp as [Hr Ha].
      apply sel_onSubmitResponse; [assumption | assumption |].
      apply sel_removePending; assumption.
    + apply sel_onPollResponse, sel_removePending; assumption.
  - destruct (tickerActive (st w)); [| discriminate]. injection Hs as <-.
    apply sel_setState; [reflexivity | assumption].
Qed.

Lemma sel_run es : forall w w',
  selectionInv P w -> run w es = Some w' -> selectionInv P w'.
Proof.
  induction es as [|e es IH]; simpl; intros w w' Hw H.
  - injection H as <-; assumption.
  - destruct (step w e) as [w1|] eqn:Hs; [| discriminate].
    apply (IH w1); [exact (sel_step _ _ _ Hw Hs) | assumption].
Qed.

End Selection.

(** The fields of a submission body. *)
Lemma submitPayload_fields (image : option jsstring) (f : File) (t a : Z) :
  field "filename" (submitPayload image f t a) = Some (JString (name f))
  /\ field "mimeType" (submitPayload image f t a) = Some (JString (type f))
  /\ field "timestamp" (submitPayload image f t a) = Some (JIsoDate t)
  /\ field "trigger_workflow" (submitPayload image f t a) = Some (JBool true)
  /\ field "attempt" (submitPayload image f t a) = Some (JNumber a)
  /\ field "image" (submitPayload image f t a) = option_map JString image
  /\ keys (submitPayload image f t a)
     = match image with
       | Some _ => ["image"; "filename"; "mimeType"; "timestamp";
                    "trigger_workflow"; "attempt"]%string
       | None => ["filename"; "mimeType"; "timestamp";
                  "trigger_workflow"; "attempt"]%string
       end.
Proof. destruct image; repeat split. Qed.

(** ** The stage cell *)

Lemma stage_makeRequest a render w :
  processingStage (st (makeRequest a render w)) = processingStage (st w).
Proof. crush_ops; reflexivity. Qed.

Lemma stage_onSubmitResponse a render o w :
  processingStage (st (onSubmitResponse a render o w)) = processingStage (st w).
Proof. crush_ops; reflexivity. Qed.

Lemma stage_onPollResponse pid o w :
  processingStage (st (onPollResponse pid o w)) = processingStage (st w).
Proof. crush_ops; reflexivity. Qed.

Lemma stage_step w e w' :
  step w e = Some w' -> processingStage (st w') = processingStage (st w).
Proof.
  destruct e as [| d | id | id o |]; simpl; intros Hs.
  - destruct (buttonEnabled (st w)); [| discriminate]. injection Hs as <-.
    unfold analyzeImage. cbv zeta.
    destruct (selectedImage (st w)); [| reflexivity].
    rewrite stage_makeRequest. reflexivity.
  - destruct (_ && _); [| discriminate]. injection Hs as <-. reflexivity.
  - unfold fire in Hs. destruct (findTimer id w) as [t|]; [| discriminate].
    destruct (due t <=? now w); [| discriminate]. injection Hs as <-.
    assert (E : forall w1, st w1 = st w ->
                processingStage (st (runCallback id (callback t) w1))
                = processingStage (st w)).
    { intros w1 E1. destruct (callback t) as [rq | pid isP | | a render]; simpl.
      - rewrite E1; reflexivity.
      - unfold pollDeadline. cbv zeta. destruct isP; simpl; rewrite E1; reflexivity.
      - rewrite E1; reflexivity.
      - rewrite stage_makeRequest, E1; reflexivity. }
    apply E. destruct (period t); reflexivity.
  - unfold respond in Hs. destruct (findPending id w) as [p|]; [| discriminate].
    injection Hs as <-. destruct (cont p).
    + rewrite stage_onSubmitResponse. reflexivity.
    + rewrite stage_onPollResponse. reflexivity.
  - destruct (tickerActive (st w)); [| discriminate]. injection Hs as <-.
    reflexivity.
Qed.

(** No event updates the stage cell: it holds [analyzing] throughout. *)
Lemma stage_stays_analyzing (f : File) (t : Z) (es : list Event) :
  forall w, run (initialWorld f t) es = Some w ->
            processingStage (st w) = analyzing.
Proof.
  assert (G : forall es w w', run w es = Some w' ->
                processingStage (st w') = processingStage (st w)).
  { clear es. induction es as [|e es IH]; simpl; intros w w' H.
    - injection H as <-; reflexivity.
    - destruct (step w e) as [w1|] eqn:Hs; [| discriminate].
      rewrite (IH _ _ H). exact (stage_step _ _ _ Hs). }
  intros w H. rewrite (G _ _ _ H). reflexivity.
Qed.

(** * The claims *)

(** ** C1: stale callbacks *)

(** C1, as stated, does not hold: the component has no generation counter.
    The first probe of a polling loop is still in flight when the user
    submits again and that submission is accepted; the old probe then
    settles with a ready response, and the state changes. *)
Lemma stale_probe_changes_state : ~ spec_staleProbeDiscarded.
Proof.
  intros H.
  destruct (H file0 t0 traceFirstProbe [Respond 4 (Response true (Some respAccepted))]
              wFirstProbe wResubmit
              (orInit (step wResubmit (Respond 3 (Response true (Some respReady)))))
              3%nat (mkPending 3 (PollAwait 1))
              (Response true (Some respReady))) as [Hst _];
    try (vm_compute; reflexivity).
  apply (f_equal isProcessing) in Hst. vm_compute in Hst. discriminate.
Qed.

(** C1, amended.  No callback compares anything with the current state
    before it acts.  Whatever the state, a probe response that passes the
    readiness test stores the video URL, clears [isProcessing], sets the
    progress to 100, shows the success animation and the completion toast
    and clears the interval of its loop; a deadline that fires clears the
    interval of its loop; a retry continuation that fires runs the next
    attempt and, when the file can be read, sends the next request. *)
Theorem callbacks_never_compare_generations :
  (forall w id p pid r,
      findPending id w = Some p -> cont p = PollAwait pid -> hasVideo r = true ->
      exists w', step w (Respond id (Response true (Some r))) = Some w'
        /\ videoUrl (st w') = video_url r
        /\ isProcessing (st w') = false
        /\ progress (st w') = 100%Q
        /\ showSuccessAnimation (st w') = true
        /\ log w' = log w ++ [EToast (toastComplete completeDefault)]
        /\ timers w'
           = filter (fun t => negb (tid t =? pid)%nat) (timers w)
             ++ [mkTimer (nextId w) (now w + 3000) None HideSuccessAnimation]
        /\ selectedImage (st w') = selectedImage (st w)
        /\ isAnalyzing (st w') = isAnalyzing (st w)
        /\ requestId (st w') = requestId (st w)
        /\ processingStartTime (st w') = processingStartTime (st w))
  /\ (forall w id dl pid isP,
      findTimer id w = Some dl -> callback dl = PollDeadline pid isP ->
      period dl = None -> due dl <= now w ->
      exists w', step w (Fire id) = Some w'
        /\ timers w'
           = filter (fun t => negb (tid t =? pid)%nat)
               (filter (fun t => negb (tid t =? id)%nat) (timers w))
        /\ inflight w' = inflight w)
  /\ (forall w id t a render f image,
      findTimer id w = Some t -> callback t = RetryDelay a render ->
      period t = None -> due t <= now w ->
      selectedImage render = Some f -> convertToBase64 f = Some image ->
      exists w', step w (Fire id) = Some w'
        /\ log w' = log w ++ [EToast (if a =? 1 then toastStarting else toastRetry a);
                              EFetch (submitPayload image f (now w) a)]
        /\ inflight w' = inflight w ++ [mkPending (nextId w) (SubmitAwait a render)]
        /\ st w' = st w).
Proof.
  split; [| split].
  - intros w id p pid r Hf Hk Hv. eexists. split.
    + rewrite (step_respond_poll _ _ _ _ _ Hf Hk). reflexivity.
    + rewrite (onPollResponse_ready _ _ _ Hv). simpl. repeat split.
  - intros w id dl pid isP Hf Hcb Hp Hd. eexists. split.
    + rewrite (step_fire_oneshot _ _ _ Hf Hp Hd). reflexivity.
    + rewrite Hcb. simpl. unfold pollDeadline. destruct isP; split; reflexivity.
  - intros w id t a render f image Hf Hcb Hp Hd Hsel Hc. eexists. split.
    + rewrite (step_fire_oneshot _ _ _ Hf Hp Hd). reflexivity.
    + rewrite Hcb. simpl. rewrite (makeRequest_sends _ _ _ _ _ Hsel Hc). simpl.
      rewrite <- app_assoc. repeat split.
Qed.

(** The three parts of C1 (amended) at work: the stale probe of the
    resubmission scenario, the deadline after a ready probe, a retry. *)
Lemma callbacks_never_compare_generations_witness :
  (exists w', step wResubmit (Respond 3 (Response true (Some respReady))) = Some w'
      /\ videoUrl (st w') = video_url respReady
      /\ isProcessing (st w') = false
      /\ progress (st w') = 100%Q
      /\ showSuccessAnimation (st w') = true
      /\ log w' = log wResubmit ++ [EToast (toastComplete completeDefault)]
      /\ timers w'
         = filter (fun t => negb (tid t =? 1)%nat) (timers wResubmit)
           ++ [mkTimer (nextId wResubmit) (now wResubmit + 3000) None
                       HideSuccessAnimation]
      /\ selectedImage (st w') = selectedImage (st wResubmit)
      /\ isAnalyzing (st w') = isAnalyzing (st wResubmit)
      /\ requestId (st w') = requestId (st wResubmit)
      /\ processingStartTime (st w') = processingStartTime (st wResubmit))
  /\ (exists w', step wDeadlineAfterReady (Fire 2) = Some w'
      /\ timers w'
         = filter (fun t => negb (tid t =? 1)%nat)
             (filter (fun t => negb (tid t =? 2)%nat) (timers wDeadlineAfterReady))
      /\ inflight w' = inflight wDeadlineAfterReady)
  /\ (exists w', step wRetryDue (Fire 1) = Some w'
      /\ log w' = log wRetryDue
                  ++ [EToast (if 2 =? 1 then toastStarting else toastRetry 2);
                      EFetch (submitPayload (Some (lit "iVBORw0KGgo=")) file0
                                            (now wRetryDue) 2)]
      /\ inflight w' = inflight wRetryDue
                       ++ [mkPending (nextId wRetryDue) (SubmitAwait 2 (st w0))]
      /\ st w' = st wRetryDue).
Proof.
  destruct callbacks_never_compare_generations as (H1 & H2 & H3).
  split; [| split].
  - apply (H1 wResubmit 3%nat (mkPending 3 (PollAwait 1)) 1%nat respReady);
      vm_compute; reflexivity.
  - apply (H2 wDeadlineAfterReady 2%nat
              (mkTimer 2 (t0 + 360000) None (PollDeadline 1 false)) 1%nat false);
      vm_compute; try reflexivity. discriminate.
  - apply (H3 wRetryDue 1%nat (mkTimer 1 (t0 + 2000) None (RetryDelay 2 (st w0)))
              2 (st w0) file0 (Some (lit "iVBORw0KGgo=")));
      vm_compute; try reflexivity. discriminate.
Defined.

(** ** C2: the readiness test *)

(** C2, as stated, does not hold: ["httpx"] does not begin with
    [http://] or [https://], yet a success response carrying it is shown as
    the finished video; and a URL with a leading blank, valid after
    trimming, is treated as not ready. *)
Lemma ready_test_differs_from_validity_rule :
  isSuccess respHttpx = true /\ spec_ready respHttpx = false
  /\ hasVideo respHttpx = true
  /\ option_map (fun w => videoUrl (st w))
       (run w0 [Click; Respond 0 (Response true (Some respHttpx))])
     = Some (Some (lit "httpx"))
  /\ isSuccess respPadded = true /\ spec_ready respPadded = true
  /\ hasVideo respPadded = false.
Proof. vm_compute. repeat split. Qed.

(** C2, amended.  A response is ready exactly when its status is
    ["success"] and its [video_url] is present, has a character that is not
    white space, and itself (not trimmed) begins with ["http"].  A ready
    response gives the finished state; a success response that is not ready
    starts processing when it answers the submission and changes nothing
    when it answers a probe. *)
Theorem ready_iff_untrimmed_http_prefix (r : AnalysisResponse) :
  (hasVideo r = true <->
     status r = lit "success"
     /\ exists u, video_url r = Some u
          /\ (exists c, In c u /\ isWhiteSpace c = false)
          /\ startsWith u (lit "http") = true)
  /\ (hasVideo r = true ->
      forall render w,
        videoUrl (st (onResult r render w)) = video_url r
        /\ isProcessing (st (onResult r render w)) = false)
  /\ (isSuccess r = true -> hasVideo r = false ->
      forall w id p a render,
        findPending id w = Some p -> cont p = SubmitAwait a render ->
        exists w', step w (Respond id (Response true (Some r))) = Some w'
          /\ isProcessing (st w') = true
          /\ videoUrl (st w') = videoUrl (st w)
          /\ log w' = log w ++ [EToast toastWorking])
  /\ (hasVideo r = false ->
      forall w id p pid,
        findPending id w = Some p -> cont p = PollAwait pid ->
        exists w', step w (Respond id (Response true (Some r))) = Some w'
          /\ st w' = st w /\ timers w' = timers w /\ log w' = log w).
Proof.
  split; [apply hasVideo_iff |]. split; [| split].
  - intros Hv render w. unfold onResult. rewrite Hv. simpl. split; reflexivity.
  - intros Hs Hv w id p a render Hf Hk.
    destruct (polling_start w id p a render r Hf Hk Hs Hv)
      as [w' (H1 & _ & H3 & H4 & _ & H6 & _)].
    exists w'. repeat split; assumption.
  - intros Hv w id p pid Hf Hk. eexists. split.
    + rewrite (step_respond_poll _ _ _ _ _ Hf Hk). reflexivity.
    + unfold onPollResponse. rewrite Hv. simpl. repeat split; reflexivity.
Qed.

(** C2 (amended) on a ready response and on [ftp://bad], as the answer to
    the submission and as the answer to a probe. *)
Lemma ready_iff_untrimmed_http_prefix_witness :
  (videoUrl (st (onResult respReady (st w0) (orInit (step w0 Click)))) = Some urlOk
   /\ isProcessing (st (onResult respReady (st w0) (orInit (step w0 Click)))) = false)
  /\ (exists w', step (orInit (step w0 Click))
                      (Respond 0 (Response true (Some respFtp))) = Some w'
        /\ isProcessing (st w') = true
        /\ videoUrl (st w') = videoUrl (st (orInit (step w0 Click)))
        /\ log w' = log (orInit (step w0 Click)) ++ [EToast toastWorking])
  /\ (exists w', step wFirstProbe (Respond 3 (Response true (Some respFtp))) = Some w'
        /\ st w' = st wFirstProbe /\ timers w' = timers wFirstProbe
        /\ log w' = log wFirstProbe).
Proof.
  split; [| split].
  - apply (proj1 (proj2 (ready_iff_untrimmed_http_prefix respReady))).
    vm_compute; reflexivity.
  - apply (proj1 (proj2 (proj2 (ready_iff_untrimmed_http_prefix respFtp)))
             eq_refl eq_refl (orInit (step w0 Click)) 0%nat
             (mkPending 0 (SubmitAwait 1 (st w0))) 1 (st w0));
      vm_compute; reflexivity.
  - apply (proj2 (proj2 (proj2 (ready_iff_untrimmed_http_prefix respFtp)))
             eq_refl wFirstProbe 3%nat (mkPending 3 (PollAwait 1)) 1%nat);
      vm_compute; reflexivity.
Defined.

(** ** C3: the deadline *)

(** C3, as stated, does not hold: the timeout is never cancelled.  After a
    ready probe has stopped the loop, the deadline callback still fires at
    360000 ms. *)
Lemma deadline_fires_after_ready_probe : ~ spec_deadlineStoppedByReady.
Proof.
  intros H.
  assert (Hn : step wDeadlineAfterReady (Fire 2) = None).
  { apply (H file0 t0 traceFirstProbe [Elapse 3000; Fire 4%nat; Elapse 352000]
             wFirstProbe wReady wDeadlineAfterReady 3%nat 1%nat 2%nat
             (mkPending 3 (PollAwait 1)) respReady
             (mkTimer 2 (t0 + 360000) None (PollDeadline 1 false)) false);
      vm_compute; reflexivity. }
  vm_compute in Hn. discriminate.
Qed.

(** C3, amended.  Polling registers the interval and, 360000 ms ahead, the
    deadline.  The deadline callback fires at that instant, once, and clears
    the interval: neither can fire afterwards.  A ready probe clears the
    interval, so no further tick fires, but leaves every deadline timer in
    place; a deadline timer disappears only by firing.  Time does not pass
    over a due deadline, and a due deadline can fire. *)
Theorem deadline_fires_once_and_polling_stops :
  (forall w id p a render r,
      findPending id w = Some p -> cont p = SubmitAwait a render ->
      isSuccess r = true -> hasVideo r = false ->
      exists w', step w (Respond id (Response true (Some r))) = Some w'
        /\ timers w' = timers w ++
             [ mkTimer (nextId w) (now w + 5000) (Some 5000)
                       (PollTick (requestId render));
               mkTimer (S (nextId w)) (now w + 360000) None
                       (PollDeadline (nextId w) (isProcessing render)) ])
  /\ (forall w id dl pid isP w',
      wf w -> findTimer id w = Some dl -> callback dl = PollDeadline pid isP ->
      step w (Fire id) = Some w' ->
      now w = due dl
      /\ forall es w'', run w' es = Some w'' ->
           step w'' (Fire id) = None /\ step w'' (Fire pid) = None)
  /\ (forall w id p pid r w',
      wf w -> findPending id w = Some p -> cont p = PollAwait pid ->
      hasVideo r = true ->
      step w (Respond id (Response true (Some r))) = Some w' ->
      (forall es w'', run w' es = Some w'' -> step w'' (Fire pid) = None)
      /\ (forall dl, In dl (timers w) -> isDeadline (callback dl) = true ->
                     In dl (timers w')))
  /\ (forall w e w' dl,
      wf w -> step w e = Some w' ->
      In dl (timers w) -> isDeadline (callback dl) = true ->
      In dl (timers w') \/ e = Fire (tid dl))
  /\ (forall w d w' dl,
      step w (Elapse d) = Some w' -> In dl (timers w) -> now w' <= due dl)
  /\ (forall w id dl pid isP,
      wf w -> findTimer id w = Some dl -> callback dl = PollDeadline pid isP ->
      due dl <= now w ->
      exists w', step w (Fire id) = Some w').
Proof.
  split; [| split; [| split; [| split; [| split]]]].
  - intros w id p a render r Hf Hk Hs Hv.
    destruct (polling_start w id p a render r Hf Hk Hs Hv) as [w' (H1 & H2 & _)].
    exists w'. split; assumption.
  - intros w id dl pid isP w' Hw Hf Hcb Hs.
    destruct (deadline_fire w id dl pid isP w' Hw Hf Hcb Hs) as (H1 & _ & H3).
    split; assumption.
  - exact ready_probe.
  - exact deadline_never_cancelled.
  - exact elapse_stops_at_due.
  - intros w id dl pid isP Hw Hf Hcb Hd.
    destruct (findTimer_some _ _ _ Hf) as [Hin _].
    destruct (wf_timer _ _ Hw Hin) as (_ & _ & Hok). rewrite Hcb in Hok.
    destruct Hok as (Hp & _).
    eexists. apply (step_fire_oneshot _ _ _ Hf Hp Hd).
Qed.

(** The parts of C3 (amended) on the sample run: polling starts, a ready
    probe, the deadline at 360000 ms. *)
Lemma deadline_fires_once_and_polling_stops_witness :
  (exists w', step (orInit (step w0 Click))
                   (Respond 0 (Response true (Some respAccepted))) = Some w'
      /\ timers w' = [ mkTimer 1 (t0 + 5000) (Some 5000) (PollTick None);
                       mkTimer 2 (t0 + 360000) None (PollDeadline 1 false) ])
  /\ (now wDeadlineAfterReady = t0 + 360000
      /\ forall es w'',
           run (orInit (step wDeadlineAfterReady (Fire 2))) es = Some w'' ->
           step w'' (Fire 2) = None /\ step w'' (Fire 1) = None)
  /\ In (mkTimer 2 (t0 + 360000) None (PollDeadline 1 false)) (timers wReady)
  /\ In (mkTimer 2 (t0 + 360000) None (PollDeadline 1 false))
        (timers (orInit (step wReady (Elapse 3000))))
  /\ now (orInit (step wReady (Elapse 3000)))
     <= due (mkTimer 2 (t0 + 360000) None (PollDeadline 1 false))
  /\ (exists w', step wDeadlineAfterReady (Fire 2) = Some w').
Proof.
  destruct deadline_fires_once_and_polling_stops as (H1 & H2 & H3 & H4 & H5 & H6).
  split; [| split; [| split; [| split; [| split]]]].
  - apply (H1 (orInit (step w0 Click)) 0%nat
              (mkPending 0 (SubmitAwait 1 (st w0))) 1 (st w0) respAccepted);
      vm_compute; reflexivity.
  - apply (H2 wDeadlineAfterReady 2%nat
              (mkTimer 2 (t0 + 360000) None (PollDeadline 1 false)) 1%nat false).
    + apply (wf_reach traceDeadlineAfterReady). vm_compute; reflexivity.
    + vm_compute; reflexivity.
    + reflexivity.
    + vm_compute; reflexivity.
  - assert (Hw : wf wFirstProbe)
      by (apply (wf_reach traceFirstProbe); vm_compute; reflexivity).
    assert (Hf : findPending 3 wFirstProbe = Some (mkPending 3 (PollAwait 1)))
      by (vm_compute; reflexivity).
    assert (Hs : step wFirstProbe (Respond 3 (Response true (Some respReady)))
                 = Some wReady) by (vm_compute; reflexivity).
    destruct (H3 wFirstProbe 3%nat (mkPending 3 (PollAwait 1)) 1%nat respReady
                 wReady Hw Hf eq_refl eq_refl Hs) as [_ Hkeep].
    apply Hkeep; [vm_compute; tauto | reflexivity].
  - destruct (H4 wReady (Elapse 3000) (orInit (step wReady (Elapse 3000)))
                 (mkTimer 2 (t0 + 360000) None (PollDeadline 1 false))) as [H | H].
    + apply (wf_reach traceReady). vm_compute; reflexivity.
    + vm_compute; reflexivity.
    + vm_compute. tauto.
    + reflexivity.
    + exact H.
    + discriminate H.
  - apply (H5 wReady 3000).
    + vm_compute; reflexivity.
    + vm_compute. tauto.
  - apply (H6 wDeadlineAfterReady 2%nat
              (mkTimer 2 (t0 + 360000) None (PollDeadline 1 false)) 1%nat false).
    + apply (wf_reach traceDeadlineAfterReady). vm_compute; reflexivity.
    + vm_compute; reflexivity.
    + reflexivity.
    + vm_compute. discriminate.
Defined.

(** What the deadline callback does to the state depends on the
    [isProcessing] of the render that started the submission: on a first
    submission that is [false], and the deadline passes without clearing
    [isProcessing] and without its toast. *)
Lemma first_submission_deadline_is_silent :
  run w0 traceSilentDeadline = Some wSilentDeadline
  /\ now wSilentDeadline = t0 + 360000
  /\ exists w', step wSilentDeadline (Fire 2) = Some w'
       /\ isProcessing (st w') = true
       /\ filter isToast (log w') = filter isToast (log wSilentDeadline)
       /\ timers w' = [].
Proof.
  split; [vm_compute; reflexivity |]. split; [vm_compute; reflexivity |].
  eexists. split; [vm_compute; reflexivity |].
  repeat split; vm_compute; reflexivity.
Qed.

(** ** C4: the polling interval *)

(** C4, as stated, does not hold: the interval does not wait for the probe
    before it.  At 10 s the second probe is sent while the first is still
    unanswered. *)
Lemma probes_overlap : ~ spec_probesSequential.
Proof.
  intros H. specialize (H file0 t0 traceTwoProbes wTwoProbes 1%nat).
  assert (Hr : run (initialWorld file0 t0) traceTwoProbes = Some wTwoProbes)
    by (vm_compute; reflexivity).
  specialize (H Hr). vm_compute in H. lia.
Qed.

(** C4, amended.  No probe is sent when polling starts; the first tick is
    due 5000 ms later.  A tick fires when it is due, sends one probe, adds it
    to the requests in flight and is due again 5000 ms later; it fires
    whatever is still in flight. *)
Theorem poll_ticks_every_5000ms :
  (forall w id p a render r,
      findPending id w = Some p -> cont p = SubmitAwait a render ->
      isSuccess r = true -> hasVideo r = false ->
      exists w', step w (Respond id (Response true (Some r))) = Some w'
        /\ In (mkTimer (nextId w) (now w + 5000) (Some 5000)
                       (PollTick (requestId render))) (timers w')
        /\ log w' = log w ++ [EToast toastWorking])
  /\ (forall w id t rq w',
      wf w -> findTimer id w = Some t -> callback t = PollTick rq ->
      step w (Fire id) = Some w' ->
      now w = due t
      /\ log w' = log w ++ [EFetch (pollPayload rq (now w))]
      /\ inflight w' = inflight w ++ [mkPending (nextId w) (PollAwait id)]
      /\ findTimer id w' = Some (mkTimer id (due t + 5000) (Some 5000) (PollTick rq)))
  /\ (forall w id t rq,
      wf w -> findTimer id w = Some t -> callback t = PollTick rq ->
      due t <= now w ->
      exists w', step w (Fire id) = Some w').
Proof.
  split; [| split].
  - intros w id p a render r Hf Hk Hs Hv.
    destruct (polling_start w id p a render r Hf Hk Hs Hv) as [w' (H1 & H2 & H3 & _)].
    exists w'. split; [assumption |]. split; [| assumption].
    rewrite H2. apply in_or_app; right. left; reflexivity.
  - intros w id t rq w' Hw Hf Hcb Hs.
    pose proof (fire_on_time _ _ _ _ Hw Hf Hs) as Hnow.
    destruct (findTimer_some _ _ _ Hf) as [Hin Hid].
    destruct (wf_timer _ _ Hw Hin) as (_ & _ & Hok). rewrite Hcb in Hok.
    rewrite (step_fire_interval _ _ _ _ Hf Hok) in Hs by lia.
    rewrite Hcb in Hs. injection Hs as <-.
    split; [assumption |]. simpl. repeat split.
    change (findTimer id (reschedule id (due t + 5000) w)
            = Some (mkTimer id (due t + 5000) (Some 5000) (PollTick rq))).
    rewrite (findTimer_reschedule _ _ _ _ Hf), Hok, Hcb. reflexivity.
  - intros w id t rq Hw Hf Hcb Hd.
    destruct (findTimer_some _ _ _ Hf) as [Hin Hid].
    destruct (wf_timer _ _ Hw Hin) as (_ & _ & Hok). rewrite Hcb in Hok.
    eexists. apply (step_fire_interval _ _ _ _ Hf Hok Hd).
Qed.

(** C4 (amended) on the sample run: the start of polling and the second
    tick. *)
Lemma poll_ticks_every_5000ms_witness :
  (exists w', step (orInit (step w0 Click))
                   (Respond 0 (Response true (Some respAccepted))) = Some w'
      /\ In (mkTimer 1 (t0 + 5000) (Some 5000) (PollTick None)) (timers w')
      /\ log w' = log (orInit (step w0 Click)) ++ [EToast toastWorking])
  /\ (now (orInit (run wFirstProbe [Elapse 5000])) = t0 + 10000
      /\ log wTwoProbes
         = log wFirstProbe ++ [EFetch (pollPayload None (t0 + 10000))]
      /\ inflight wTwoProbes
         = inflight wFirstProbe ++ [mkPending 4 (PollAwait 1)]
      /\ findTimer 1 wTwoProbes
         = Some (mkTimer 1 (t0 + 15000) (Some 5000) (PollTick None)))
  /\ (exists w', step (orInit (run wFirstProbe [Elapse 5000])) (Fire 1) = Some w').
Proof.
  destruct poll_ticks_every_5000ms as (H1 & H2 & H3).
  split; [| split].
  - apply (H1 (orInit (step w0 Click)) 0%nat
              (mkPending 0 (SubmitAwait 1 (st w0))) 1 (st w0) respAccepted);
      vm_compute; reflexivity.
  - apply (H2 (orInit (run wFirstProbe [Elapse 5000])) 1%nat
              (mkTimer 1 (t0 + 10000) (Some 5000) (PollTick None)) None wTwoProbes).
    + apply (wf_reach (traceFirstProbe ++ [Elapse 5000])). vm_compute; reflexivity.
    + vm_compute; reflexivity.
    + reflexivity.
    + vm_compute; reflexivity.
  - apply (H3 (orInit (run wFirstProbe [Elapse 5000])) 1%nat
              (mkTimer 1 (t0 + 10000) (Some 5000) (PollTick None)) None).
    + apply (wf_reach (traceFirstProbe ++ [Elapse 5000])). vm_compute; reflexivity.
    + vm_compute; reflexivity.
    + reflexivity.
    + vm_compute. discriminate.
Defined.

(** ** C5: retries of the submission *)




(** ** C6: the handle in the probe body *)

(** C6 on a first submission whose acceptance carries the handle ["abc"]:
    the handle is stored, but the probe body is built from the [requestId]
    of the render in which the button was clicked, and carries [null]. *)
Lemma probe_carries_stale_request_id :
  run w0 traceFirstProbe = Some wFirstProbe
  /\ requestId (st w0) = None
  /\ requestId (st wFirstProbe) = Some (lit "abc")
  /\ filter isFetch (log wFirstProbe)
     = [ EFetch (submitPayload (Some (lit "iVBORw0KGgo=")) file0 t0 1);
         EFetch [ ("check_status", JBool true);
                  ("request_id", JNull);
                  ("timestamp", JIsoDate (t0 + 5000)) ]%string ].
Proof.
  split; [vm_compute; reflexivity |]. split; [reflexivity |].
  split; vm_compute; reflexivity.
Qed.

(** ** C7: the submission body *)

(** C7, as stated, does not hold: the body has a sixth field,
    [trigger_workflow]. *)
Lemma submission_body_has_a_sixth_field :
  exists body,
    filter isFetch (log wClicked) = [EFetch body]
    /\ keys body <> spec_submitKeys
    /\ In ("trigger_workflow"%string, JBool true) body.
Proof.
  eexists. split; [vm_compute; reflexivity |].
  split; [vm_compute; discriminate | vm_compute; tauto].
Qed.

(** Not part of C7 (amended): for a file whose reader result holds no
    comma, [convertToBase64] resolves to [undefined] and the body goes out
    without [image]. *)
Lemma empty_file_body_has_no_image :
  exists body,
    filter isFetch (log (orInit (step (initialWorld fileEmpty t0) Click)))
    = [EFetch body]
    /\ keys body
       = ["filename"; "mimeType"; "timestamp"; "trigger_workflow"; "attempt"]%string.
Proof. eexists. split; vm_compute; reflexivity. Qed.

(** C7, amended.  For a file whose data URL carries its data after a comma,
    every request the component sends is a probe or a submission whose body
    has exactly the fields [image] (that data), [filename], [mimeType],
    [timestamp], [trigger_workflow] (always true) and [attempt] (1, 2 or 3).
    The click sends attempt 1; a failed attempt [a] schedules attempt
    [a + 1]; the retry sends that number, 2 or 3, with the time of sending as
    its timestamp. *)
Theorem submission_body_fields :
  (forall f t es w body d,
      convertToBase64 f = Some (Some d) ->
      run (initialWorld f t) es = Some w ->
      In (EFetch body) (log w) ->
      (exists rq ts, body = pollPayload rq ts)
      \/ (keys body
          = ["image"; "filename"; "mimeType"; "timestamp";
             "trigger_workflow"; "attempt"]%string
          /\ field "image" body = Some (JString d)
          /\ field "filename" body = Some (JString (name f))
          /\ field "mimeType" body = Some (JString (type f))
          /\ (exists ts, field "timestamp" body = Some (JIsoDate ts))
          /\ field "trigger_workflow" body = Some (JBool true)
          /\ exists a, field "attempt" body = Some (JNumber a) /\ 1 <= a <= 3))
  /\ (forall w f image,
      buttonEnabled (st w) = true ->
      selectedImage (st w) = Some f -> convertToBase64 f = Some image ->
      exists w', step w Click = Some w'
        /\ filter isFetch (log w')
           = filter isFetch (log w) ++ [EFetch (submitPayload image f (now w) 1)])
  /\ (forall w id p a render o,
      wf w -> findPending id w = Some p -> cont p = SubmitAwait a render ->
      attemptThrows o = true -> a < 3 ->
      exists w', step w (Respond id o) = Some w'
        /\ 1 <= a
        /\ exists d, timers w' = timers w ++
             [mkTimer (nextId w) d None (RetryDelay (a + 1) render)])
  /\ (forall w id t a render f image w',
      wf w -> findTimer id w = Some t -> callback t = RetryDelay a render ->
      selectedImage render = Some f -> convertToBase64 f = Some image ->
      step w (Fire id) = Some w' ->
      2 <= a <= 3
      /\ filter isFetch (log w')
         = filter isFetch (log w) ++ [EFetch (submitPayload image f (now w) a)]).
Proof.
  split; [| split; [| split]].
  - intros f t es w body d Hd Hr Hin.
    assert (Hi : selectionInv (fun g => g = f) (initialWorld f t))
      by (repeat split; constructor).
    destruct (sel_run (fun g => g = f) es _ _ Hi Hr) as (_ & _ & _ & Hlog).
    rewrite Forall_forall in Hlog. specialize (Hlog _ Hin). simpl in Hlog.
    destruct Hlog as [Hp | (g & image & ts & a & -> & Hc & Ha & ->)];
      [left; exact Hp | right].
    rewrite Hd in Hc. injection Hc as <-.
    destruct (submitPayload_fields (Some d) f ts a)
      as (H1 & H2 & H3 & H4 & H5 & H6 & H7).
    split; [exact H7 |]. split; [exact H6 |]. split; [exact H1 |].
    split; [exact H2 |]. split; [exists ts; exact H3 |]. split; [exact H4 |].
    exists a. split; [exact H5 | exact Ha].
  - intros w f image Hb Hf Hi.
    destruct (click_sends_first_attempt w f image Hb Hf Hi) as [w' (H1 & H2 & _)].
    exists w'. split; [assumption |]. rewrite H2, filter_app. reflexivity.
  - intros w id p a render o Hw Hf Hk Ho Ha.
    destruct (failed_attempt_schedules_retry w id p a render o Hw Hf Hk Ho Ha)
      as [w' (H1 & H2 & H3 & _)].
    exists w'. split; [assumption |]. split; [lia |]. eexists; exact H3.
  - intros w id t a render f image w' Hw Hf Hcb Hsel Hb Hs.
    destruct (retry_fires_after_delay w id t a render f image w' Hw Hf Hcb Hsel Hb Hs)
      as (_ & H2 & H3 & _).
    split; [lia |]. rewrite H3, filter_app. reflexivity.
Qed.

(** C7 (amended) on the sample run: the body of the first attempt, the
    click, the failure of the first attempt, the retry. *)
Lemma submission_body_fields_witness :
  ((exists rq ts, submitPayload (Some (lit "iVBORw0KGgo=")) file0 t0 1
                  = pollPayload rq ts)
   \/ (keys (submitPayload (Some (lit "iVBORw0KGgo=")) file0 t0 1)
       = ["image"; "filename"; "mimeType"; "timestamp";
          "trigger_workflow"; "attempt"]%string
       /\ field "image" (submitPayload (Some (lit "iVBORw0KGgo=")) file0 t0 1)
          = Some (JString (lit "iVBORw0KGgo="))
       /\ field "filename" (submitPayload (Some (lit "iVBORw0KGgo=")) file0 t0 1)
          = Some (JString (name file0))
       /\ field "mimeType" (submitPayload (Some (lit "iVBORw0KGgo=")) file0 t0 1)
          = Some (JString (type file0))
       /\ (exists ts, field "timestamp"
                        (submitPayload (Some (lit "iVBORw0KGgo=")) file0 t0 1)
                      = Some (JIsoDate ts))
       /\ field "trigger_workflow"
            (submitPayload (Some (lit "iVBORw0KGgo=")) file0 t0 1)
          = Some (JBool true)
       /\ exists a, field "attempt"
                      (submitPayload (Some (lit "iVBORw0KGgo=")) file0 t0 1)
                    = Some (JNumber a) /\ 1 <= a <= 3))
  /\ (exists w', step w0 Click = Some w'
      /\ filter isFetch (log w')
         = filter isFetch (log w0)
           ++ [EFetch (submitPayload (Some (lit "iVBORw0KGgo=")) file0 (now w0) 1)])
  /\ (exists w', step wClicked (Respond 0 FetchRejects) = Some w'
      /\ 1 <= 1
      /\ exists d, timers w' = timers wClicked ++
           [mkTimer (nextId wClicked) d None (RetryDelay (1 + 1) (st w0))])
  /\ (2 <= 2 <= 3
      /\ filter isFetch (log (orInit (step wRetryDue (Fire 1))))
         = filter isFetch (log wRetryDue)
           ++ [EFetch (submitPayload (Some (lit "iVBORw0KGgo=")) file0 (now wRetryDue) 2)]).
Proof.
  destruct submission_body_fields as (H0 & H1 & H2 & H3).
  split; [| split; [| split]].
  - apply (H0 file0 t0 [Click] wClicked
              (submitPayload (Some (lit "iVBORw0KGgo=")) file0 t0 1)
              (lit "iVBORw0KGgo=")).
    + reflexivity.
    + vm_compute; reflexivity.
    + assert (E : log wClicked
                  = [EToast toastStarting;
                     EFetch (submitPayload (Some (lit "iVBORw0KGgo=")) file0 t0 1)])
        by (vm_compute; reflexivity).
      rewrite E. right. left. reflexivity.
  - apply (H1 w0 file0 (Some (lit "iVBORw0KGgo="))); reflexivity.
  - apply (H2 wClicked 0%nat (mkPending 0 (SubmitAwait 1 (st w0))) 1 (st w0)
              FetchRejects).
    + apply (wf_reach [Click]). vm_compute; reflexivity.
    + vm_compute; reflexivity.
    + reflexivity.
    + reflexivity.
    + lia.
  - apply (H3 wRetryDue 1%nat (mkTimer 1 (t0 + 2000) None (RetryDelay 2 (st w0)))
              2 (st w0) file0 (Some (lit "iVBORw0KGgo="))
              (orInit (step wRetryDue (Fire 1)))).
    + apply (wf_reach (traceBadBody ++ [Elapse 2000])). vm_compute; reflexivity.
    + vm_compute; reflexivity.
    + reflexivity.
    + reflexivity.
    + reflexivity.
    + vm_compute; reflexivity.
Defined.

(** ** C8: the percentage *)

(** C8, as stated, does not hold: the first probe of the sample run is
    answered with the video URL ["httpx"], which the validity rule refuses,
    and the progress becomes 100. *)
Lemma progress_100_without_validated_success : ~ spec_hundredOnlyOnValidated.
Proof.
  intros H.
  destruct (H file0 t0 traceFirstProbe wFirstProbe
              (orInit (step wFirstProbe (Respond 3 (Response true (Some respHttpx)))))
              (Respond 3 (Response true (Some respHttpx))))
    as (id & r & He & Hr).
  - vm_compute; reflexivity.
  - vm_compute; reflexivity.
  - vm_compute; reflexivity.
  - vm_compute; discriminate.
  - injection He as _ <-. vm_compute in Hr. discriminate.
Qed.

(** C8, amended.  The estimator computes [Math.min((elapsed / 240) * 100, 95)]
    in binary64 arithmetic: its value is within [10^-12] of
    [min (elapsed / 240 * 100) 95], it is monotone in the elapsed seconds and
    never above 95, hence never 100.  The progress of the component becomes
    100 only in a step that handles a 2xx response passing the readiness
    test of the code, and every such step sets it to 100. *)
Theorem progress_capped_until_ready :
  (forall e, 0 <= e ->
     (exactPercentage e - (1 # 1000000000000) <= percentage e
      <= exactPercentage e + (1 # 1000000000000))%Q)
  /\ (forall e1 e2, e1 <= e2 -> (percentage e1 <= percentage e2)%Q)
  /\ (forall start t, (getProgress start t <= 95)%Q
                      /\ ~ (getProgress start t == 100)%Q)
  /\ (forall w e w',
        step w e = Some w' ->
        (progress (st w') == 100)%Q -> ~ (progress (st w) == 100)%Q ->
        exists id r u,
          e = Respond id (Response true (Some r))
          /\ jseq (status r) (lit "success") = true
          /\ video_url r = Some u
          /\ truthy (trim u) = true /\ startsWith u (lit "http") = true)
  /\ (forall w id r w',
        hasVideo r = true ->
        step w (Respond id (Response true (Some r))) = Some w' ->
        progress (st w') = 100%Q).
Proof.
  split; [| split; [| split; [| split]]].
  - exact percentage_near.
  - exact percentage_mono.
  - intros start t; split; [apply getProgress_le_95 | apply getProgress_not_100].
  - intros w e w' Hs H100 Hn.
    destruct (progress_step_100 w e w' Hs H100 Hn) as (id & r & He & Hv).
    unfold hasVideo in Hv. apply andb_true_iff in Hv as [Hst Hv].
    destruct (video_url r) as [u|] eqn:Hu; [| discriminate].
    apply andb_true_iff in Hv as [Hv H3]. apply andb_true_iff in Hv as [_ H2].
    exists id, r, u. repeat split; assumption.
  - intros w id r w' Hv Hs. exact (proj1 (progress_success w id r w' Hv Hs)).
Qed.

(** C8 at 132 s, where the rounding shows, and on the ready probe of the
    sample run. *)
Lemma progress_capped_until_ready_witness :
  ((exactPercentage 132 - (1 # 1000000000000) <= percentage 132
    <= exactPercentage 132 + (1 # 1000000000000))%Q
   /\ percentage 132 = 7740561859543041 # 140737488355328
   /\ (exactPercentage 132 == 55)%Q)
  /\ (percentage 60 <= percentage 61)%Q
  /\ (exists id r u, Respond 3 (Response true (Some respReady))
                     = Respond id (Response true (Some r))
                     /\ jseq (status r) (lit "success") = true
                     /\ video_url r = Some u
                     /\ truthy (trim u) = true /\ startsWith u (lit "http") = true)
  /\ progress (st (orInit (step wFirstProbe (Respond 3 (Response true (Some respReady))))))
     = 100%Q.
Proof.
  destruct progress_capped_until_ready as (H1 & H2 & _ & H4 & H5).
  split; [| split; [| split]].
  - split; [apply (H1 132); lia |]. split; vm_compute; reflexivity.
  - apply (H2 60 61). lia.
  - apply (H4 wFirstProbe (Respond 3 (Response true (Some respReady)))
              (orInit (step wFirstProbe (Respond 3 (Response true (Some respReady)))))).
    + vm_compute. reflexivity.
    + vm_compute. reflexivity.
    + vm_compute. discriminate.
  - apply (H5 wFirstProbe 3%nat respReady).
    + vm_compute. reflexivity.
    + vm_compute. reflexivity.
Defined.

(** ** C9: stage messages and remaining time *)

(** C9, as stated, does not hold: twenty seconds into the job of the sample
    run the stage cell still holds [analyzing], where the table says
    generating image, and the text shown is not the label of the table. *)
Lemma stage_label_does_not_follow_table : ~ spec_stageFollowsTable.
Proof.
  intros H.
  destruct (H file0 t0 (tracePolling ++ pollRounds 4) wTwentySeconds t0)
    as [Hc | Hc].
  - vm_compute; reflexivity.
  - vm_compute; reflexivity.
  - vm_compute; reflexivity.
  - assert (E1 : processingStage (st wTwentySeconds) = analyzing)
      by (vm_compute; reflexivity).
    assert (E2 : spec_stage (elapsedSeconds t0 (now wTwentySeconds)) = generating_image)
      by (vm_compute; reflexivity).
    rewrite E1, E2 in Hc. discriminate.
  - assert (E : jseq (getProcessingMessage (Some t0) (now wTwentySeconds))
                     (spec_stageLabel (elapsedSeconds t0 (now wTwentySeconds)))
                = false)
      by (vm_compute; reflexivity).
    rewrite Hc in E.
    assert (R : forall a, jseq a a = true)
      by (induction a as [|x a IH]; simpl; [| rewrite N.eqb_refl, IH]; reflexivity).
    rewrite R in E. discriminate.
Qed.

(** C9, amended.  The text shown and the remaining time follow the
    breakpoints.  Below 15 s the component shows "Cave spirits analyzing
    your essence..." with ["2-4 minutes remaining"] and a percentage below
    6.25; from 15 s "Ancient artists crafting your caveman form..." with
    ["1-3 minutes remaining"]; from 90 s "Weaving time magic for your
    transformation..." with ["1-2 minutes remaining"]; from 180 s the same
    text with ["Almost done..."]. *)
Theorem message_and_eta_breakpoints (start t : Z)
    (Hstart : start <> 0) (Hpos : 0 <= elapsedSeconds start t) :
  let e := elapsedSeconds start t in
  (e < 15 ->
     getProcessingMessage (Some start) t
     = astral 0x1F50D ++ lit " Cave spirits analyzing your essence..."
     /\ getEstimatedTimeRemaining (Some start) t = lit "2-4 minutes remaining"
     /\ (getProgress (Some start) t < 6.25)%Q)
  /\ (15 <= e < 90 ->
     getProcessingMessage (Some start) t
     = astral 0x1F3A8 ++ lit " Ancient artists crafting your caveman form..."
     /\ getEstimatedTimeRemaining (Some start) t = lit "1-3 minutes remaining")
  /\ (90 <= e < 180 ->
     getProcessingMessage (Some start) t
     = astral 0x1F3AC ++ lit " Weaving time magic for your transformation..."
     /\ getEstimatedTimeRemaining (Some start) t = lit "1-2 minutes remaining")
  /\ (180 <= e ->
     getProcessingMessage (Some start) t
     = astral 0x1F3AC ++ lit " Weaving time magic for your transformation..."
     /\ getEstimatedTimeRemaining (Some start) t = lit "Almost done...").
Proof.
  intros e. unfold getProcessingMessage, getEstimatedTimeRemaining, getProgress.
  destruct (start =? 0) eqn:E; [apply Z.eqb_eq in E; contradiction |].
  fold e. unfold processingMessage, estimatedTimeRemaining.
  split; [| split; [| split]].
  - intros H. destruct (e <? 15) eqn:E1; [| apply Z.ltb_ge in E1; lia].
    split; [reflexivity |]. split; [reflexivity |].
    apply (Qle_lt_trans _ (percentage 14)); [apply percentage_mono; lia |].
    vm_compute. reflexivity.
  - intros H. destruct (e <? 15) eqn:E1; [apply Z.ltb_lt in E1; lia |].
    destruct (e <? 90) eqn:E2; [| apply Z.ltb_ge in E2; lia]. split; reflexivity.
  - intros H. destruct (e <? 15) eqn:E1; [apply Z.ltb_lt in E1; lia |].
    destruct (e <? 90) eqn:E2; [apply Z.ltb_lt in E2; lia |].
    destruct (e <? 180) eqn:E3; [| apply Z.ltb_ge in E3; lia]. split; reflexivity.
  - intros H. destruct (e <? 15) eqn:E1; [apply Z.ltb_lt in E1; lia |].
    destruct (e <? 90) eqn:E2; [apply Z.ltb_lt in E2; lia |].
    destruct (e <? 180) eqn:E3; [apply Z.ltb_lt in E3; lia |]. split; reflexivity.
Qed.

(** C9 (amended) at 10 s, 20 s, 100 s and 200 s. *)
Lemma message_and_eta_breakpoints_witness :
  (getProcessingMessage (Some t0) (t0 + 10000)
   = astral 0x1F50D ++ lit " Cave spirits analyzing your essence..."
   /\ getEstimatedTimeRemaining (Some t0) (t0 + 10000) = lit "2-4 minutes remaining"
   /\ (getProgress (Some t0) (t0 + 10000) < 6.25)%Q)
  /\ (getProcessingMessage (Some t0) (t0 + 20000)
      = astral 0x1F3A8 ++ lit " Ancient artists crafting your caveman form..."
   /\ getEstimatedTimeRemaining (Some t0) (t0 + 20000) = lit "1-3 minutes remaining")
  /\ (getProcessingMessage (Some t0) (t0 + 100000)
      = astral 0x1F3AC ++ lit " Weaving time magic for your transformation..."
   /\ getEstimatedTimeRemaining (Some t0) (t0 + 100000) = lit "1-2 minutes remaining")
  /\ (getProcessingMessage (Some t0) (t0 + 200000)
      = astral 0x1F3AC ++ lit " Weaving time magic for your transformation..."
   /\ getEstimatedTimeRemaining (Some t0) (t0 + 200000) = lit "Almost done...").
Proof.
  assert (Hs : t0 <> 0) by discriminate.
  split; [| split; [| split]].
  - assert (Hp : 0 <= elapsedSeconds t0 (t0 + 10000)) by (vm_compute; discriminate).
    apply (proj1 (message_and_eta_breakpoints t0 (t0 + 10000) Hs Hp)).
    vm_compute; reflexivity.
  - assert (Hp : 0 <= elapsedSeconds t0 (t0 + 20000)) by (vm_compute; discriminate).
    apply (proj1 (proj2 (message_and_eta_breakpoints t0 (t0 + 20000) Hs Hp))).
    vm_compute. split; [discriminate | reflexivity].
  - assert (Hp : 0 <= elapsedSeconds t0 (t0 + 100000)) by (vm_compute; discriminate).
    apply (proj1 (proj2 (proj2 (message_and_eta_breakpoints t0 (t0 + 100000) Hs Hp)))).
    vm_compute. split; [discriminate | reflexivity].
  - assert (Hp : 0 <= elapsedSeconds t0 (t0 + 200000)) by (vm_compute; discriminate).
    apply (proj2 (proj2 (proj2 (message_and_eta_breakpoints t0 (t0 + 200000) Hs Hp)))).
    vm_compute. discriminate.
Defined.

(** ** C10: probe outcomes that are not ready *)

(** C10.  A probe outcome other than a ready 2xx response (a rejected
    request, a non-2xx response, an unreadable body, a parsed body that is
    not ready, such as status ["error"]) changes neither state nor timers
    and shows no toast.  A poll interval disappears only in a step that
    handles a ready response to one of its probes, or in which its deadline
    fires. *)
Theorem probe_failures_are_ignored :
  (forall w id p pid o w',
      findPending id w = Some p -> cont p = PollAwait pid ->
      isReadyOutcome o = false ->
      step w (Respond id o) = Some w' ->
      st w' = st w /\ timers w' = timers w
      /\ filter isToast (log w') = filter isToast (log w))
  /\ (forall w e w' t,
      wf w -> step w e = Some w' ->
      In t (timers w) -> isPoll (callback t) = true ->
      (forall t', In t' (timers w') -> tid t' <> tid t) ->
      (exists id p r, e = Respond id (Response true (Some r))
                      /\ hasVideo r = true
                      /\ findPending id w = Some p /\ cont p = PollAwait (tid t))
      \/ (exists id dl isP, e = Fire id /\ findTimer id w = Some dl
                            /\ callback dl = PollDeadline (tid t) isP
                            /\ due dl = now w)).
Proof.
  split.
  - intros w id p pid o w' Hf Hk Hr Hs.
    destruct (poll_notready_unchanged w id p pid o w' Hf Hk Hr Hs) as (H1 & H2 & H3).
    repeat split; try assumption.
    destruct H3 as [-> | ->]; [reflexivity |].
    rewrite filter_app. simpl. apply app_nil_r.
  - exact poll_interval_removed.
Qed.

(** C10 on the first probe of the sample run: an ["error"] body, a network
    error, and the ready response that ends the loop. *)
Lemma probe_failures_are_ignored_witness :
  (st (orInit (step wFirstProbe (Respond 3 (Response true (Some respError)))))
   = st wFirstProbe
   /\ timers (orInit (step wFirstProbe (Respond 3 (Response true (Some respError)))))
      = timers wFirstProbe
   /\ filter isToast
        (log (orInit (step wFirstProbe (Respond 3 (Response true (Some respError))))))
      = filter isToast (log wFirstProbe))
  /\ (st (orInit (step wFirstProbe (Respond 3 FetchRejects))) = st wFirstProbe
   /\ timers (orInit (step wFirstProbe (Respond 3 FetchRejects))) = timers wFirstProbe
   /\ filter isToast (log (orInit (step wFirstProbe (Respond 3 FetchRejects))))
      = filter isToast (log wFirstProbe))
  /\ ((exists id p r, Respond 3 (Response true (Some respReady))
                      = Respond id (Response true (Some r))
                      /\ hasVideo r = true
                      /\ findPending id wFirstProbe = Some p
                      /\ cont p = PollAwait 1)
      \/ (exists id dl isP, Respond 3 (Response true (Some respReady)) = Fire id
                            /\ findTimer id wFirstProbe = Some dl
                            /\ callback dl = PollDeadline 1 isP
                            /\ due dl = now wFirstProbe)).
Proof.
  destruct probe_failures_are_ignored as (H1 & H2).
  split; [| split].
  - apply (H1 wFirstProbe 3%nat (mkPending 3 (PollAwait 1)) 1%nat
              (Response true (Some respError))); vm_compute; reflexivity.
  - apply (H1 wFirstProbe 3%nat (mkPending 3 (PollAwait 1)) 1%nat FetchRejects);
      vm_compute; reflexivity.
  - apply (H2 wFirstProbe (Respond 3 (Response true (Some respReady))) wReady
              (mkTimer 1 (t0 + 10000) (Some 5000) (PollTick None))).
    + apply (wf_reach traceFirstProbe). vm_compute; reflexivity.
    + vm_compute; reflexivity.
    + vm_compute. tauto.
    + reflexivity.
    + assert (Ht : timers wReady
                   = [ mkTimer 2 (t0 + 360000) None (PollDeadline 1 false);
                       mkTimer 4 (t0 + 8000) None HideSuccessAnimation ])
        by (vm_compute; reflexivity).
      rewrite Ht. intros t' [<- | [<- | []]]; simpl; lia.
Defined.

(** * Further properties *)

(** ** Splitting at a separator *)

Lemma splitOn_nonempty sep s : splitOn sep s <> [].
Proof.
  destruct s as [|c t]; simpl; [discriminate |].
  destruct (c =? sep)%N; [discriminate |].
  destruct (splitOn sep t); discriminate.
Qed.

Lemma splitOn_free sep s :
  forallb (fun c => negb (c =? sep)%N) s = true -> splitOn sep s = [s].
Proof.
  induction s as [|c t IH]; simpl; [reflexivity |].
  rewrite andb_true_iff, negb_true_iff. intros [Hc Ht].
  rewrite Hc, (IH Ht). reflexivity.
Qed.

Lemma splitOn_app sep p s :
  forallb (fun c => negb (c =? sep)%N) p = true ->
  splitOn sep (p ++ sep :: s) = p :: splitOn sep s.
Proof.
  induction p as [|c t IH]; simpl.
  - intros _. rewrite N.eqb_refl. reflexivity.
  - rewrite andb_true_iff, negb_true_iff. intros [Hc Ht].
    rewrite Hc, (IH Ht). reflexivity.
Qed.

(** ** X1: the data that [convertToBase64] hands over *)

(** X1.  For a reader result [prefix , data] in which neither the prefix nor
    the data holds a comma (a data URL with base64 data), [convertToBase64]
    resolves to exactly the data, whatever follows a further comma; for a
    result without any comma it resolves to [undefined]. *)
Theorem base64Data_of_data_url (p d : jsstring)
    (Hp : forallb (fun c => negb (c =? comma)%N) p = true)
    (Hd : forallb (fun c => negb (c =? comma)%N) d = true) :
  base64Data (p ++ comma :: d) = Some d
  /\ (forall rest, base64Data (p ++ comma :: d ++ comma :: rest) = Some d)
  /\ base64Data p = None.
Proof.
  unfold base64Data. split; [| split].
  - rewrite (splitOn_app _ _ _ Hp), (splitOn_free _ _ Hd). reflexivity.
  - intros rest. rewrite (splitOn_app _ _ _ Hp), (splitOn_app _ _ _ Hd). reflexivity.
  - rewrite (splitOn_free _ _ Hp). reflexivity.
Qed.

(** X1 on the data URL of a PNG. *)
Lemma base64Data_of_data_url_witness :
  base64Data (lit "data:image/png;base64" ++ comma :: lit "iVBORw0KGgo=")
  = Some (lit "iVBORw0KGgo=")
  /\ (forall rest,
        base64Data (lit "data:image/png;base64" ++ comma :: lit "iVBORw0KGgo="
                      ++ comma :: rest) = Some (lit "iVBORw0KGgo="))
  /\ base64Data (lit "data:image/png;base64") = None.
Proof.
  apply (base64Data_of_data_url (lit "data:image/png;base64") (lit "iVBORw0KGgo="));
    reflexivity.
Defined.

Lemma startsWith_app s p :
  startsWith s p = true -> exists r, s = p ++ r.
Proof.
  revert s; induction p as [|c p IH]; intros s H; simpl in *.
  - exists s; reflexivity.
  - destruct s as [|d s]; [discriminate |].
    apply andb_true_iff in H as [Hc Hs]. apply N.eqb_eq in Hc. subst d.
    destruct (IH s Hs) as [r ->]. exists r; reflexivity.
Qed.

Lemma formatSegment_image ty :
  startsWith ty (lit "image/") = true ->
  exists seg, formatSegment ty = Some seg.
Proof.
  intros H. destruct (startsWith_app _ _ H) as [r ->].
  unfold formatSegment.
  change (lit "image/" ++ r) with (lit "image" ++ slash :: r).
  rewrite splitOn_app by reflexivity.
  destruct (splitOn slash r) as [|h t] eqn:E; [destruct (splitOn_nonempty _ _ E) |].
  exists h; reflexivity.
Qed.

(** ** Sessions *)

Lemma authStep_user hash a e :
  user (authStep hash a e) = option_map sessionUser (session (authStep hash a e)).
Proof. destruct e as [s | s]; reflexivity. Qed.

Lemma authStep_loading hash a e :
  loading a = false -> loading (authStep hash a e) = false.
Proof.
  intros H. destruct e as [s | [s|]]; simpl; try reflexivity.
  rewrite H. destruct (hasAuthHash hash); reflexivity.
Qed.

Lemma authRun_inv hash es : forall a,
  user a = option_map sessionUser (session a) ->
  user (authRun hash a es) = option_map sessionUser (session (authRun hash a es))
  /\ (loading a = false -> loading (authRun hash a es) = false).
Proof.
  induction es as [|e es IH]; intros a Hu; simpl.
  - split; [assumption | auto].
  - destruct (IH (authStep hash a e) (authStep_user hash a e)) as [H1 H2].
    split; [assumption |]. intros Hl. apply H2, authStep_loading, Hl.
Qed.

(** ** X2: the gate of the [Index] page *)

(** X2.  After any sequence of listener calls and [getSession] answers, the
    hook reports authenticated exactly when it holds a session; [Index]
    shows the analyzer exactly when loading is over and a session is held,
    and it navigates to [/auth] exactly when loading is over and none is
    held; once loading is over it never starts again. *)
Theorem index_gate (hash : option jsstring) (es : list AuthEvent) :
  let a := authRun hash initialAuth es in
  (isAuthenticated a = true <-> session a <> None)
  /\ (indexView a = Analyzer <-> loading a = false /\ session a <> None)
  /\ (redirectsToAuth a = true <-> loading a = false /\ session a = None)
  /\ (forall e, loading a = false -> loading (authStep hash a e) = false).
Proof.
  intros a.
  destruct (authRun_inv hash es initialAuth eq_refl) as [Hu _]. fold a in Hu.
  assert (Hauth : isAuthenticated a = true <-> session a <> None).
  { unfold isAuthenticated. rewrite Hu.
    destruct (session a); simpl; split; congruence. }
  split; [exact Hauth |]. split; [| split].
  - unfold indexView. destruct (loading a).
    + split; [discriminate | intros [H _]; discriminate].
    + destruct (isAuthenticated a) eqn:E; simpl.
      * split; [intros _; split; [reflexivity | apply Hauth; reflexivity] | reflexivity].
      * split; [discriminate |]. intros [_ H]. apply Hauth in H. discriminate.
  - unfold redirectsToAuth. destruct (loading a); simpl.
    + split; [discriminate | intros [H _]; discriminate].
    + destruct (isAuthenticated a) eqn:E; simpl.
      * split; [discriminate |]. intros [_ H].
        assert (session a <> None) by (apply Hauth; reflexivity). contradiction.
      * split; [| reflexivity]. intros _. split; [reflexivity |].
        destruct (session a) as [s0|] eqn:Es; [| reflexivity].
        assert (Ht : false = true) by (apply Hauth; discriminate).
        discriminate Ht.
  - intros e. apply authStep_loading.
Qed.

(** X2 after [getSession] has answered without a session, with no hash. *)
Lemma index_gate_witness :
  let a := authRun None initialAuth [SessionLoaded None] in
  (isAuthenticated a = true <-> session a <> None)
  /\ (indexView a = Analyzer <-> loading a = false /\ session a <> None)
  /\ (redirectsToAuth a = true <-> loading a = false /\ session a = None)
  /\ (forall e, loading a = false -> loading (authStep None a e) = false).
Proof. exact (index_gate None [SessionLoaded None]). Defined.

(** ** X3: returning from an e-mail link *)

(** X3.  When [getSession] answers without a session and the location hash
    carries an auth token, [Index] keeps the spinner and does not redirect;
    the listener then decides: with a session the analyzer is shown,
    without one the page redirects.  Without such a hash the same answer
    redirects at once. *)
Theorem confirm_link_waits_for_listener (hash : option jsstring) (s : Session) :
  let a := authStep hash initialAuth (SessionLoaded None) in
  (hasAuthHash hash = true ->
     indexView a = Spinner /\ redirectsToAuth a = false
     /\ indexView (authStep hash a (AuthStateChange (Some s))) = Analyzer
     /\ redirectsToAuth (authStep hash a (AuthStateChange None)) = true)
  /\ (hasAuthHash hash = false ->
     indexView a = Nothing /\ redirectsToAuth a = true).
Proof.
  simpl. unfold indexView, redirectsToAuth, isAuthenticated; simpl.
  split; intros ->; simpl; repeat split.
Qed.

(** X3 with a hash that carries an access token, and with an empty hash. *)
Lemma confirm_link_waits_for_listener_witness :
  let hash := Some (lit "#access_token=abc&type=signup") in
  let a := authStep hash initialAuth (SessionLoaded None) in
  (indexView a = Spinner /\ redirectsToAuth a = false
   /\ indexView (authStep hash a
                   (AuthStateChange (Some (mkSession (mkUser (lit "u1")) (lit "tok")))))
      = Analyzer
   /\ redirectsToAuth (authStep hash a (AuthStateChange None)) = true)
  /\ (indexView (authStep (Some []) initialAuth (SessionLoaded None)) = Nothing
      /\ redirectsToAuth (authStep (Some []) initialAuth (SessionLoaded None)) = true).
Proof.
  split.
  - apply (proj1 (confirm_link_waits_for_listener
                    (Some (lit "#access_token=abc&type=signup"))
                    (mkSession (mkUser (lit "u1")) (lit "tok")))).
    vm_compute; reflexivity.
  - apply (proj2 (confirm_link_waits_for_listener (Some [])
                    (mkSession (mkUser (lit "u1")) (lit "tok")))).
    reflexivity.
Defined.

(** ** The progress bar *)

Lemma shownPercentage_mono (p q : Q) :
  (p <= q)%Q -> shownPercentage p <= shownPercentage q.
Proof.
  intros H. unfold shownPercentage. apply Qfloor_resp_le.
  apply Qplus_le_compat; [assumption | apply Qle_refl].
Qed.

(** ** The clock *)

Lemma now_makeRequest a render w : now (makeRequest a render w) = now w.
Proof. crush_ops; reflexivity. Qed.

Lemma now_onSubmitResponse a render o w :
  now (onSubmitResponse a render o w) = now w.
Proof. crush_ops; reflexivity. Qed.

Lemma now_onPollResponse pid o w : now (onPollResponse pid o w) = now w.
Proof. crush_ops; reflexivity. Qed.

Lemma now_runCallback self cb w : now (runCallback self cb w) = now w.
Proof. destruct cb; simpl; crush_ops; reflexivity. Qed.

Lemma step_clock w e w' : step w e = Some w' -> now w <= now w'.
Proof.
  intros Hs. destruct e as [| d | id | id o |]; simpl in Hs.
  - destruct (buttonEnabled (st w)); [| discriminate]. injection Hs as <-.
    unfold analyzeImage. destruct (selectedImage (st w)); simpl; [| lia].
    rewrite now_makeRequest. simpl; lia.
  - destruct (0 <? d) eqn:Hd; simpl in Hs; [| discriminate].
    destruct (forallb _ _); [| discriminate]. injection Hs as <-.
    apply Z.ltb_lt in Hd. simpl; lia.
  - unfold fire in Hs. destruct (findTimer id w) as [t|]; [| discriminate].
    destruct (due t <=? now w); [| discriminate]. injection Hs as <-.
    rewrite now_runCallback. destruct (period t); simpl; lia.
  - unfold respond in Hs. destruct (findPending id w) as [p|]; [| discriminate].
    injection Hs as <-.
    destruct (cont p); [rewrite now_onSubmitResponse | rewrite now_onPollResponse];
      simpl; lia.
  - destruct (tickerActive (st w)); [| discriminate]. injection Hs as <-. simpl; lia.
Qed.

Lemma run_clock es : forall w w', run w es = Some w' -> now w <= now w'.
Proof.
  induction es as [|e es IH]; simpl; intros w w' H.
  - injection H as <-; lia.
  - destruct (step w e) as [w1|] eqn:Hs; [| discriminate].
    pose proof (step_clock _ _ _ Hs). pose proof (IH _ _ H). lia.
Qed.

Lemma getProgress_mono (start : option Z) (t1 t2 : Z) :
  t1 <= t2 -> (getProgress start t1 <= getProgress start t2)%Q.
Proof.
  intros H. unfold getProgress. destruct start as [s|]; [| apply Qle_refl].
  destruct (s =? 0); [apply Qle_refl |].
  apply percentage_mono. unfold elapsedSeconds. apply Z.div_le_mono; lia.
Qed.

(** ** X5: the progress within one job *)

(** X5.  Between two refreshes of the progress bar that belong to the same
    job (the same processing start time), whatever happens in between, the
    progress stored by the later refresh is at least the one stored by the
    earlier. *)
Theorem progress_never_decreases_within_job (w w1 w2 w3 : World) (es : list Event)
    (H1 : step w Tick = Some w1) (Hr : run w1 es = Some w2)
    (Hsame : processingStartTime (st w2) = processingStartTime (st w))
    (H3 : step w2 Tick = Some w3) :
  (progress (st w1) <= progress (st w3))%Q.
Proof.
  simpl in H1, H3.
  destruct (tickerActive (st w)); [| discriminate]. injection H1 as <-.
  destruct (tickerActive (st w2)); [| discriminate]. injection H3 as <-.
  simpl. rewrite Hsame. apply getProgress_mono.
  apply (run_clock es (progressTick w) w2 Hr).
Qed.

(** X5 on the sample session: two refreshes one second apart. *)
Lemma progress_never_decreases_within_job_witness :
  (progress (st (orInit (step (core uProcessing) Tick)))
   <= progress (st (orInit (run (core uProcessing) [Tick; Elapse 1000; Tick]))))%Q.
Proof.
  apply (progress_never_decreases_within_job (core uProcessing)
           (orInit (step (core uProcessing) Tick))
           (orInit (run (core uProcessing) [Tick; Elapse 1000]))
           (orInit (run (core uProcessing) [Tick; Elapse 1000; Tick]))
           [Elapse 1000]);
    vm_compute; reflexivity.
Defined.

(** ** The video URL *)

Lemma hasVideo_shown r :
  hasVideo r = true -> shownUrlOk (video_url r) /\ video_url r <> None.
Proof.
  unfold hasVideo. rewrite andb_true_iff. intros [_ H].
  destruct (video_url r) as [u|]; [| discriminate].
  rewrite !andb_true_iff in H. destruct H as [[_ Ht] Hp].
  split; [split; assumption | discriminate].
Qed.

Lemma videoUrl_makeRequest a render w :
  videoUrl (st (makeRequest a render w)) = videoUrl (st w).
Proof. crush_ops; reflexivity. Qed.

Lemma videoUrl_step w e w' :
  step w e = Some w' ->
  videoUrl (st w') = videoUrl (st w)
  \/ exists id r, e = Respond id (Response true (Some r)) /\ hasVideo r = true
                  /\ videoUrl (st w') = video_url r.
Proof.
  intros Hs. destruct e as [| d | id | id o |]; simpl in Hs.
  - destruct (buttonEnabled (st w)); [| discriminate]. injection Hs as <-.
    left. unfold analyzeImage. destruct (selectedImage (st w)); [| reflexivity].
    rewrite videoUrl_makeRequest. reflexivity.
  - destruct (_ && _); [| discriminate]. injection Hs as <-. left; reflexivity.
  - unfold fire in Hs. destruct (findTimer id w) as [t|]; [| discriminate].
    destruct (due t <=? now w); [| discriminate]. injection Hs as <-. left.
    destruct (callback t); simpl; try rewrite videoUrl_makeRequest;
      unfold pollTick, pollDeadline; repeat break_match; reflexivity.
  - unfold respond in Hs. destruct (findPending id w) as [p|]; [| discriminate].
    injection Hs as <-.
    destruct (isReadyOutcome o) eqn:Hr.
    + destruct o as [| [|] [r|]]; try discriminate. simpl in Hr. right.
      exists id, r. split; [reflexivity |]. split; [assumption |].
      destruct (cont p); simpl; unfold onResult, onPollResponse; rewrite Hr;
        reflexivity.
    + left. destruct o as [| [|] [r|]]; simpl in Hr;
        destruct (cont p); simpl; unfold onResult, onPollResponse, attemptFailed;
        rewrite ?Hr; repeat break_match; reflexivity.
  - destruct (tickerActive (st w)); [| discriminate]. injection Hs as <-.
    left; reflexivity.
Qed.

Lemma videoUrl_run es : forall w w',
  run w es = Some w' ->
  (shownUrlOk (videoUrl (st w)) -> shownUrlOk (videoUrl (st w')))
  /\ (videoUrl (st w) <> None -> videoUrl (st w') <> None).
Proof.
  induction es as [|e es IH]; simpl; intros w w' H.
  - injection H as <-. auto.
  - destruct (step w e) as [w1|] eqn:Hs; [| discriminate].
    destruct (IH _ _ H) as [I1 I2].
    destruct (videoUrl_step _ _ _ Hs) as [He | (id & r & _ & Hv & He)];
      rewrite He in *.
    + auto.
    + destruct (hasVideo_shown r Hv) as [Hok Hne]. split; auto.
Qed.

(** ** Only acceptable pictures are submitted *)

Lemma acceptable_iff f :
  acceptable f = true <->
  startsWith (type f) (lit "image/") = true /\ size f <= 10485760.
Proof.
  unfold acceptable. rewrite andb_true_iff, Z.leb_le. reflexivity.
Qed.

Lemma sel_handleFileSelect file u :
  selectionInv (fun f => acceptable f = true) (core u) ->
  selectionInv (fun f => acceptable f = true) (core (handleFileSelect file u)).
Proof.
  intros Hw. unfold handleFileSelect.
  destruct (startsWith (type file) (lit "image/")) eqn:Ht; simpl.
  - destruct (maxImageSize <? size file) eqn:Hsz; simpl.
    + apply sel_emit; [exact I | assumption].
    + apply sel_emit; [exact I |].
      destruct Hw as (H1 & H2 & H3 & H4). repeat split; try assumption.
      unfold renderOk, acceptable; simpl. rewrite Ht. simpl.
      apply Z.leb_le. apply Z.ltb_ge in Hsz. assumption.
  - apply sel_emit; [exact I | assumption].
Qed.

Lemma sel_uiStep u e u' :
  selectionInv (fun f => acceptable f = true) (core u) ->
  uiStep u e = Some u' ->
  selectionInv (fun f => acceptable f = true) (core u').
Proof.
  intros Hw Hs. destruct e as [files | files | | | url | | ev]; simpl in Hs.
  - injection Hs as <-. unfold handleInputChange.
    destruct files; [assumption | apply sel_handleFileSelect; assumption].
  - injection Hs as <-. unfold handleDrop. cbv zeta.
    destruct files; [assumption | apply sel_handleFileSelect; assumption].
  - injection Hs as <-. assumption.
  - injection Hs as <-. assumption.
  - unfold readerLoaded in Hs. destruct (readers u); [discriminate |].
    injection Hs as <-. assumption.
  - unfold readerFailed in Hs. destruct (readers u); [discriminate |].
    injection Hs as <-. assumption.
  - destruct (step (core u) ev) as [w|] eqn:E; [| discriminate].
    injection Hs as <-. simpl. exact (sel_step _ _ _ _ Hw E).
Qed.

Lemma sel_uiRun es : forall u u',
  selectionInv (fun f => acceptable f = true) (core u) ->
  uiRun u es = Some u' ->
  selectionInv (fun f => acceptable f = true) (core u').
Proof.
  induction es as [|e es IH]; simpl; intros u u' Hw H.
  - injection H as <-; assumption.
  - destruct (uiStep u e) as [u1|] eqn:Hs; [| discriminate].
    apply (IH u1); [exact (sel_uiStep _ _ _ Hw Hs) | assumption].
Qed.

Lemma sel_mounted t :
  selectionInv (fun f => acceptable f = true) (core (mountedUi t)).
Proof. repeat split; constructor. Qed.

Lemma renderHas_acceptable render :
  renderHas (fun f => acceptable f = true) render ->
  exists f, selectedImage render = Some f
            /\ startsWith (type f) (lit "image/") = true /\ size f <= 10485760.
Proof.
  unfold renderHas. destruct (selectedImage render) as [f|]; [| tauto].
  intros H. apply acceptable_iff in H. exists f. tauto.
Qed.

(** ** X6: only checked pictures are submitted *)

(** X6.  In every state the component reaches from its mount, the selected
    file has a type beginning with [image/] and at most 10485760 bytes, and
    the format segment that the info card upper-cases is defined; every
    submission attempt in flight or waiting for its retry was started on
    such a file; every request sent so far is a probe or a submission whose
    [mimeType] begins with [image/]. *)
Theorem only_checked_pictures_are_submitted (t : Z) (es : list UiEvent) (u : Ui)
    (Hr : uiRun (mountedUi t) es = Some u) :
  (forall f, selectedImage (st (core u)) = Some f ->
       startsWith (type f) (lit "image/") = true /\ size f <= 10485760
       /\ exists seg, formatSegment (type f) = Some seg)
  /\ (forall p a render,
        In p (inflight (core u)) -> cont p = SubmitAwait a render ->
        exists f, selectedImage render = Some f
                  /\ startsWith (type f) (lit "image/") = true
                  /\ size f <= 10485760)
  /\ (forall tm a render,
        In tm (timers (core u)) -> callback tm = RetryDelay a render ->
        exists f, selectedImage render = Some f
                  /\ startsWith (type f) (lit "image/") = true
                  /\ size f <= 10485760)
  /\ (forall body, In (EFetch body) (log (core u)) ->
       (exists rq t', body = pollPayload rq t')
       \/ (exists nm ty,
             field "filename" body = Some (JString nm)
             /\ field "mimeType" body = Some (JString ty)
             /\ startsWith ty (lit "image/") = true)).
Proof.
  pose proof (sel_uiRun es _ _ (sel_mounted t) Hr) as (H1 & H2 & H3 & H4).
  split; [| split; [| split]].
  - intros f Hf. unfold renderOk in H1. rewrite Hf in H1.
    apply acceptable_iff in H1 as [Ht Hs].
    split; [assumption |]. split; [assumption |].
    apply formatSegment_image; assumption.
  - intros p a render Hin Hk. rewrite Forall_forall in H2.
    specialize (H2 _ Hin). unfold pendingImageOk in H2. rewrite Hk in H2.
    apply renderHas_acceptable, H2.
  - intros tm a render Hin Hk. rewrite Forall_forall in H3.
    specialize (H3 _ Hin). unfold timerImageOk in H3. rewrite Hk in H3.
    apply renderHas_acceptable, H3.
  - intros body Hin. rewrite Forall_forall in H4. specialize (H4 _ Hin).
    simpl in H4. destruct H4 as [H | (f & image & t' & a & Ha & _ & _ & ->)].
    + left; assumption.
    + right. exists (name f), (type f). apply acceptable_iff in Ha as [Ht Hs].
      destruct (submitPayload_fields image f t' a) as (F1 & F2 & _).
      split; [exact F1 |]. split; [exact F2 | exact Ht].
Qed.

(** X6 on the sample session while it is processing. *)
Lemma only_checked_pictures_are_submitted_witness :
  (forall f, selectedImage (st (core uProcessing)) = Some f ->
       startsWith (type f) (lit "image/") = true /\ size f <= 10485760
       /\ exists seg, formatSegment (type f) = Some seg)
  /\ (forall p a render,
        In p (inflight (core uProcessing)) -> cont p = SubmitAwait a render ->
        exists f, selectedImage render = Some f
                  /\ startsWith (type f) (lit "image/") = true
                  /\ size f <= 10485760)
  /\ (forall tm a render,
        In tm (timers (core uProcessing)) -> callback tm = RetryDelay a render ->
        exists f, selectedImage render = Some f
                  /\ startsWith (type f) (lit "image/") = true
                  /\ size f <= 10485760)
  /\ (forall body, In (EFetch body) (log (core uProcessing)) ->
       (exists rq t', body = pollPayload rq t')
       \/ (exists nm ty,
             field "filename" body = Some (JString nm)
             /\ field "mimeType" body = Some (JString ty)
             /\ startsWith ty (lit "image/") = true)).
Proof.
  apply (only_checked_pictures_are_submitted t0 uiTraceProcessing uProcessing).
  vm_compute; reflexivity.
Defined.

(** ** One submission at a time *)

Lemma filter_filter_keep (A : Type) (f g : A -> bool) (l : list A) :
  (forall x, In x l -> f x = true -> g x = true) ->
  filter f (filter g l) = filter f l.
Proof.
  induction l as [|x l IH]; simpl; intros H; [reflexivity |].
  assert (IH' : filter f (filter g l) = filter f l) by (apply IH; auto).
  destruct (g x) eqn:Hg; simpl.
  - rewrite IH'. reflexivity.
  - destruct (f x) eqn:Hf; [| exact IH'].
    rewrite (H x (or_introl eq_refl) Hf) in Hg. discriminate.
Qed.

Lemma filter_remove_one (A : Type) (key : A -> nat) (f : A -> bool)
    (l : list A) (t : A) :
  NoDup (map key l) -> In t l -> f t = true ->
  S (List.length (filter f (filter (fun x => negb (key x =? key t)%nat) l)))
  = List.length (filter f l).
Proof.
  induction l as [|x l IH]; simpl; intros Hnd Hin Hf; [contradiction |].
  inversion Hnd as [|? ? Hnin Hnd']; subst.
  destruct Hin as [-> | Hin].
  - rewrite Nat.eqb_refl. simpl. rewrite Hf. simpl. f_equal.
    f_equal. apply filter_filter_keep. intros y Hy _.
    apply negb_true_iff, Nat.eqb_neq. intros He. apply Hnin.
    rewrite <- He. apply in_map; assumption.
  - assert (Hne : key x <> key t).
    { intros He. apply Hnin. rewrite He. apply in_map; assumption. }
    apply Nat.eqb_neq in Hne. rewrite Hne. simpl.
    destruct (f x); simpl; rewrite <- (IH Hnd' Hin Hf); reflexivity.
Qed.

Lemma retries_clear_other id w :
  (forall t, In t (timers w) -> tid t = id -> isRetry (callback t) = false) ->
  retriesScheduled (clearTimer id w) = retriesScheduled w.
Proof.
  intros H. unfold retriesScheduled. simpl. f_equal.
  apply filter_filter_keep. intros t Hin Hr.
  apply negb_true_iff, Nat.eqb_neq. intros He.
  rewrite (H t Hin He) in Hr. discriminate.
Qed.

Lemma retries_clear_poll pid w :
  refersToPoll (timers w) pid ->
  retriesScheduled (clearTimer pid w) = retriesScheduled w.
Proof.
  intros H. apply retries_clear_other. intros t Hin He.
  specialize (H t Hin He). destruct (callback t); try discriminate; reflexivity.
Qed.

Lemma retries_reschedule id d w :
  retriesScheduled (reschedule id d w) = retriesScheduled w.
Proof.
  unfold retriesScheduled. simpl. induction (timers w) as [|t ts IH]; simpl;
    [reflexivity |].
  assert (E : isRetry (callback (if (tid t =? id)%nat
                                 then mkTimer (tid t) d (period t) (callback t)
                                 else t)) = isRetry (callback t))
    by (destruct (tid t =? id)%nat; reflexivity).
  rewrite E. destruct (isRetry (callback t)); simpl; rewrite IH; reflexivity.
Qed.

Lemma retries_addTimer d p cb w :
  retriesScheduled (addTimer d p cb w)
  = (retriesScheduled w + if isRetry cb then 1 else 0)%nat.
Proof.
  unfold retriesScheduled. simpl. rewrite filter_app, length_app. simpl.
  destruct (isRetry cb); reflexivity.
Qed.

Lemma attempts_addPending k w :
  attemptsInFlight (addPending k w)
  = (attemptsInFlight w + if isSubmit k then 1 else 0)%nat.
Proof.
  unfold attemptsInFlight. simpl. rewrite filter_app, length_app. simpl.
  destruct (isSubmit k); reflexivity.
Qed.

(** What each operation does to the three quantities of [exclusive]. *)
Lemma ex_attemptFailed a render w :
  inflight (attemptFailed a render w) = inflight w
  /\ retriesScheduled (attemptFailed a render w)
     = (retriesScheduled w + (if (a <? 3)%Z then 1 else 0))%nat
  /\ isAnalyzing (st (attemptFailed a render w))
     = (if a <? 3 then isAnalyzing (st w) else false).
Proof.
  unfold attemptFailed, finallyAnalyze. cbv zeta.
  destruct (a <? 3); simpl.
  - repeat split. unfold retriesScheduled. simpl.
    rewrite filter_app, length_app. reflexivity.
  - repeat split. unfold retriesScheduled. simpl. lia.
Qed.

Lemma ex_onResult r render w :
  inflight (onResult r render w) = inflight w
  /\ retriesScheduled (onResult r render w) = retriesScheduled w
  /\ isAnalyzing (st (onResult r render w)) = false.
Proof.
  unfold onResult, startPollingForVideo, finallyAnalyze. cbv zeta.
  destruct (hasVideo r); [| destruct (isSuccess r)].
  - simpl. repeat split. unfold retriesScheduled; simpl.
    rewrite filter_app, length_app; simpl; lia.
  - destruct (truthy_opt (request_id r)); simpl; repeat split;
      unfold retriesScheduled; simpl;
      rewrite !filter_app, !length_app; simpl; lia.
  - simpl. repeat split.
Qed.

Lemma ex_onPollResponse pid o w :
  refersToPoll (timers w) pid ->
  inflight (onPollResponse pid o w) = inflight w
  /\ retriesScheduled (onPollResponse pid o w) = retriesScheduled w
  /\ isAnalyzing (st (onPollResponse pid o w)) = isAnalyzing (st w).
Proof.
  intros Href. unfold onPollResponse.
  destruct o as [| [|] [r|]]; try (repeat split; fail).
  destruct (hasVideo r); [| repeat split]. cbv zeta.
  split; [reflexivity |]. split; [| reflexivity].
  rewrite retries_addTimer. simpl.
  change (retriesScheduled (clearTimer pid (setState (showVideo r) w)) + 0
          = retriesScheduled w)%nat.
  rewrite Nat.add_0_r. apply (retries_clear_poll pid (setState (showVideo r) w)).
  exact Href.
Qed.

Lemma rid_fresh w :
  wf w -> ~ In (nextId w) (map rid (inflight w)).
Proof.
  intros Hw Hin. apply in_map_iff in Hin as [p [Hp Hin]].
  destruct (wf_pending _ _ Hw Hin) as [Hlt _]. lia.
Qed.

Lemma NoDup_snoc (l : list nat) (x : nat) :
  NoDup l -> ~ In x l -> NoDup (l ++ [x]).
Proof.
  intros Hnd Hx. apply NoDup_app; [assumption | repeat constructor; simpl; tauto |].
  intros y Hy [<- | []]. contradiction.
Qed.

(** [makeRequest] on a world where nothing is under way. *)
Lemma ex_makeRequest a render w :
  wf w -> 1 <= a <= 3 ->
  NoDup (map rid (inflight w)) ->
  (attemptsInFlight w + retriesScheduled w = 0)%nat ->
  isAnalyzing (st w) = true ->
  exclusive (makeRequest a render w).
Proof.
  intros Hw Ha Hnd H0 Han.
  assert (Hfail : exclusive (attemptFailed a render w)).
  { destruct (ex_attemptFailed a render w) as (Hi & Hr & Hs).
    split; [rewrite Hi; assumption |].
    unfold attemptsInFlight. rewrite Hi. fold (attemptsInFlight w).
    rewrite Hr, Hs. destruct (a <? 3); [rewrite Han |]; lia. }
  unfold makeRequest.
  destruct (selectedImage render) as [f|]; [| exact Hfail].
  destruct (convertToBase64 f) as [image|]; [| exact Hfail]. cbv zeta. split.
  - simpl. rewrite map_app. simpl. apply NoDup_snoc; [assumption |].
    apply rid_fresh; assumption.
  - rewrite attempts_addPending. simpl. unfold retriesScheduled in *; simpl.
    unfold attemptsInFlight in *; simpl. rewrite Han. lia.
Qed.

Lemma active_zero_or_one w :
  exclusive w ->
  (isAnalyzing (st w) = false /\ attemptsInFlight w = 0%nat /\ retriesScheduled w = 0%nat)
  \/ (isAnalyzing (st w) = true
      /\ (attemptsInFlight w + retriesScheduled w = 1)%nat).
Proof.
  intros [_ H]. destruct (isAnalyzing (st w)); [right | left]; auto.
  repeat split; lia.
Qed.

Lemma rid_inj (l : list Pending) (p q : Pending) :
  NoDup (map rid l) -> In p l -> In q l -> rid p = rid q -> p = q.
Proof.
  induction l as [|x l IH]; simpl; intros Hnd Hp Hq He; [contradiction |].
  inversion Hnd as [|? ? Hnin Hnd']; subst.
  destruct Hp as [-> | Hp], Hq as [-> | Hq]; auto.
  - exfalso; apply Hnin. rewrite He. apply in_map; assumption.
  - exfalso; apply Hnin. rewrite <- He. apply in_map; assumption.
Qed.

Lemma exclusive_step w e w' :
  wf w -> exclusive w -> step w e = Some w' -> exclusive w'.
Proof.
  intros Hw Hex Hs. pose proof Hex as [Hnd Hcount].
  destruct e as [| d | id | id o |]; simpl in Hs.
  - unfold buttonEnabled in Hs.
    destruct (selectedImage (st w)) as [f|] eqn:Hf; [| discriminate].
    destruct (isAnalyzing (st w)) eqn:Han; [discriminate |]. injection Hs as <-.
    unfold analyzeImage. rewrite Hf.
    apply ex_makeRequest;
      [apply wf_setState; assumption | lia | exact Hnd | | reflexivity].
    change (attemptsInFlight w + retriesScheduled w = 0)%nat. exact Hcount.
  - destruct (_ && _); [| discriminate]. injection Hs as <-. exact Hex.
  - unfold fire in Hs. destruct (findTimer id w) as [t|] eqn:Hft; [| discriminate].
    destruct (due t <=? now w); [| discriminate]. injection Hs as <-.
    destruct (findTimer_some _ _ _ Hft) as [Hin Hid].
    pose proof Hw as (Hndt & _ & _).
    destruct (wf_timer _ _ Hw Hin) as (_ & _ & Hok).
    assert (Hself : isRetry (callback t) = false ->
              retriesScheduled (clearTimer id w) = retriesScheduled w).
    { intros Hnr. apply retries_clear_other. intros t' Hin' He.
      assert (t' = t) by (eapply tid_inj; eauto; congruence). subst t'. exact Hnr. }
    destruct (callback t) as [rq | pid isP | | a render] eqn:Ecb.
    + rewrite Hok. simpl. unfold pollTick. cbv zeta. split.
      * simpl. rewrite map_app. simpl. apply NoDup_snoc; [assumption |].
        apply rid_fresh; assumption.
      * rewrite attempts_addPending. simpl.
        change (attemptsInFlight w + 0 + retriesScheduled (reschedule id (due t + 5000) w)
                = if isAnalyzing (st w) then 1 else 0)%nat.
        rewrite retries_reschedule. lia.
    + destruct Hok as (Hp & _ & Href). rewrite Hp. simpl. unfold pollDeadline.
      cbv zeta.
      assert (E : retriesScheduled (clearTimer pid (clearTimer id w))
                  = retriesScheduled w).
      { rewrite retries_clear_poll; [apply Hself; reflexivity |].
        simpl. apply refersToPoll_filter. exact Href. }
      destruct isP; (split; [exact Hnd |]);
        change (attemptsInFlight w + retriesScheduled (clearTimer pid (clearTimer id w))
                = if isAnalyzing (st w) then 1 else 0)%nat;
        rewrite E; exact Hcount.
    + rewrite Hok. simpl. split; [exact Hnd |].
      change (attemptsInFlight w + retriesScheduled (clearTimer id w)
              = if isAnalyzing (st w) then 1 else 0)%nat.
      rewrite Hself by reflexivity. exact Hcount.
    + destruct Hok as (Hp & Ha). rewrite Hp. simpl.
      assert (Hone : S (retriesScheduled (clearTimer id w)) = retriesScheduled w).
      { unfold retriesScheduled. simpl. rewrite <- Hid.
        apply (filter_remove_one Timer tid (fun x => isRetry (callback x)));
          [assumption | assumption | rewrite Ecb; reflexivity]. }
      destruct (active_zero_or_one w Hex) as [(_ & _ & H0) | (Han & H1)]; [lia |].
      apply ex_makeRequest; [apply wf_clearTimer; assumption | lia | exact Hnd | | exact Han].
      change (attemptsInFlight w + retriesScheduled (clearTimer id w) = 0)%nat. lia.
  - unfold respond in Hs. destruct (findPending id w) as [p|] eqn:Hfp; [| discriminate].
    injection Hs as <-.
    destruct (findPending_some _ _ _ Hfp) as [Hin Hid].
    destruct (wf_pending _ _ Hw Hin) as (_ & Hok).
    assert (Hnd' : NoDup (map rid (inflight (removePending id w))))
      by (simpl; apply NoDup_map_filter; assumption).
    destruct (cont p) as [a render | pid] eqn:Ek.
    + assert (Hone : S (attemptsInFlight (removePending id w)) = attemptsInFlight w).
      { unfold attemptsInFlight. simpl. rewrite <- Hid.
        apply (filter_remove_one Pending rid (fun x => isSubmit (cont x)));
          [assumption | assumption | rewrite Ek; reflexivity]. }
      destruct (active_zero_or_one w Hex) as [(_ & H0 & _) | (Han & H1)]; [lia |].
      assert (Hr0 : retriesScheduled w = 0%nat) by lia.
      assert (Ha0 : attemptsInFlight (removePending id w) = 0%nat) by lia.
      unfold onSubmitResponse.
      assert (Hfail : exclusive (attemptFailed a render (removePending id w))).
      { destruct (ex_attemptFailed a render (removePending id w)) as (Hi & Hr & Hs).
        split; [rewrite Hi; exact Hnd' |].
        unfold attemptsInFlight at 1. rewrite Hi.
        fold (attemptsInFlight (removePending id w)). rewrite Hr, Hs, Ha0.
        change (retriesScheduled (removePending id w)) with (retriesScheduled w).
        change (isAnalyzing (st (removePending id w))) with (isAnalyzing (st w)).
        rewrite Hr0, Han. destruct (a <? 3); reflexivity. }
      destruct o as [| [|] [r|]]; try exact Hfail.
      destruct (ex_onResult r render (removePending id w)) as (Hi & Hr & Hs).
      split; [rewrite Hi; exact Hnd' |].
      unfold attemptsInFlight at 1. rewrite Hi.
      fold (attemptsInFlight (removePending id w)). rewrite Hr, Hs, Ha0.
      change (retriesScheduled (removePending id w)) with (retriesScheduled w).
      rewrite Hr0. reflexivity.
    + destruct Hok as (_ & Href).
      assert (Hkeep : attemptsInFlight (removePending id w) = attemptsInFlight w).
      { unfold attemptsInFlight. simpl. f_equal. apply filter_filter_keep.
        intros q Hq Hsub. apply negb_true_iff, Nat.eqb_neq. intros He.
        assert (Hqp : q = p)
          by (apply (rid_inj (inflight w)); [assumption | assumption | assumption | congruence]).
        subst q. rewrite Ek in Hsub. discriminate. }
      destruct (ex_onPollResponse pid o (removePending id w) Href) as (Hi & Hr & Hs).
      split; [rewrite Hi; exact Hnd' |].
      unfold attemptsInFlight at 1. rewrite Hi.
      fold (attemptsInFlight (removePending id w)). rewrite Hr, Hs, Hkeep.
      exact Hcount.
  - destruct (tickerActive (st w)); [| discriminate]. injection Hs as <-. exact Hex.
Qed.

Lemma exclusive_run es : forall w w',
  wf w -> exclusive w -> run w es = Some w' -> exclusive w'.
Proof.
  induction es as [|e es IH]; simpl; intros w w' Hw Hex H.
  - injection H as <-; assumption.
  - destruct (step w e) as [w1|] eqn:Hs; [| discriminate].
    apply (IH w1); [exact (wf_step _ _ _ Hw Hs) | exact (exclusive_step _ _ _ Hw Hex Hs)
                    | assumption].
Qed.

(** ** The window of a polling loop *)

Lemma findTimer_in w t :
  NoDup (map tid (timers w)) -> In t (timers w) -> findTimer (tid t) w = Some t.
Proof.
  intros Hnd Hin. destruct (findTimer (tid t) w) as [t'|] eqn:E.
  - destruct (findTimer_some _ _ _ E) as [Hin' Hid].
    f_equal. eapply tid_inj; eauto.
  - exfalso. unfold findTimer in E.
    apply (find_none _ _ E) in Hin. rewrite Nat.eqb_refl in Hin. discriminate.
Qed.

(** The deadline of a loop stays registered until it fires, and then the
    loop is gone for good. *)
Lemma deadline_or_gone es : forall w w' dl pid isP,
  wf w -> In dl (timers w) -> callback dl = PollDeadline pid isP ->
  run w es = Some w' ->
  In dl (timers w') \/ step w' (Fire pid) = None.
Proof.
  induction es as [|e es IH]; simpl; intros w w' dl pid isP Hw Hin Hcb Hr.
  - injection Hr as <-. left; assumption.
  - destruct (step w e) as [w1|] eqn:Hs; [| discriminate].
    assert (Hd : isDeadline (callback dl) = true) by (rewrite Hcb; reflexivity).
    destruct (deadline_never_cancelled w e w1 dl Hw Hs Hin Hd) as [Hin1 | He].
    + apply (IH w1 w' dl pid isP); try assumption. exact (wf_step _ _ _ Hw Hs).
    + subst e. right.
      assert (Hf : findTimer (tid dl) w = Some dl)
        by (apply findTimer_in; [exact (proj1 Hw) | assumption]).
      destruct (deadline_fire w (tid dl) dl pid isP w1 Hw Hf Hcb Hs) as (_ & _ & H).
      exact (proj2 (H es w' Hr)).
Qed.

Lemma later_trans w1 w2 w3 : later w1 w2 -> later w2 w3 -> later w1 w3.
Proof.
  intros [Hn1 H1] [Hn2 H2]. split; [lia |].
  intros t3 Hin3. destruct (H2 t3 Hin3) as [(t2 & Hin2 & He & Hd) | Hge]; [| right; lia].
  destruct (H1 t2 Hin2) as [(t1 & Hin1 & He1 & Hd1) | Hge]; [left | right; lia].
  exists t1. repeat split; [assumption | congruence | lia].
Qed.

Lemma later_same w w' :
  timers w' = timers w -> (nextId w <= nextId w')%nat -> later w w'.
Proof.
  intros Ht Hn. split; [assumption |]. rewrite Ht. intros t' H. left. exists t'.
  repeat split; [assumption | lia].
Qed.

Lemma later_addTimer d p cb w : later w (addTimer d p cb w).
Proof.
  split; simpl; [lia |]. intros t' H. apply in_app_or in H as [H | [<- | []]].
  - left; exists t'. repeat split; [assumption | lia].
  - right; simpl; lia.
Qed.

Lemma later_clearTimer id w : later w (clearTimer id w).
Proof.
  split; simpl; [lia |]. intros t' H. apply filter_In in H as [H _].
  left; exists t'. repeat split; [assumption | lia].
Qed.

Lemma later_reschedule id d w :
  (forall t, In t (timers w) -> tid t = id -> due t <= d) ->
  later w (reschedule id d w).
Proof.
  intros Hd. split; simpl; [lia |]. intros t' H.
  apply in_map_iff in H as [t [<- Hin]]. left; exists t.
  split; [assumption |]. destruct (tid t =? id)%nat eqn:E; simpl.
  - split; [reflexivity |]. apply Hd; [assumption | apply Nat.eqb_eq; assumption].
  - split; [reflexivity | lia].
Qed.

Ltac later_step :=
  match goal with
  | |- later ?w (setState _ ?x) =>
      apply (later_trans w x); [| apply later_same; [reflexivity | simpl; lia]]
  | |- later ?w (emit _ ?x) =>
      apply (later_trans w x); [| apply later_same; [reflexivity | simpl; lia]]
  | |- later ?w (removePending _ ?x) =>
      apply (later_trans w x); [| apply later_same; [reflexivity | simpl; lia]]
  | |- later ?w (addPending _ ?x) =>
      apply (later_trans w x); [| apply later_same; [reflexivity | simpl; lia]]
  | |- later ?w (addTimer _ _ _ ?x) => apply (later_trans w x); [| apply later_addTimer]
  | |- later ?w (clearTimer _ ?x) => apply (later_trans w x); [| apply later_clearTimer]
  | |- later ?w (if ?b then _ else _) => destruct b
  | |- later ?w (match ?x with _ => _ end) => destruct x
  | |- later ?w ?w => apply later_same; [reflexivity | lia]
  end.

Lemma later_attemptFailed a render w : later w (attemptFailed a render w).
Proof. unfold attemptFailed, finallyAnalyze. cbv zeta. repeat later_step. Qed.

Lemma later_makeRequest a render w : later w (makeRequest a render w).
Proof.
  unfold makeRequest. cbv zeta.
  destruct (selectedImage render) as [f|]; [| apply later_attemptFailed].
  destruct (convertToBase64 f); [| apply later_attemptFailed]. repeat later_step.
Qed.

Lemma later_onResult r render w : later w (onResult r render w).
Proof.
  unfold onResult, startPollingForVideo, finallyAnalyze. cbv zeta.
  repeat later_step.
Qed.

Lemma later_onSubmitResponse a render o w : later w (onSubmitResponse a render o w).
Proof.
  unfold onSubmitResponse.
  destruct o as [| [|] [r|]];
    first [apply later_attemptFailed | apply later_onResult].
Qed.

Lemma later_onPollResponse pid o w : later w (onPollResponse pid o w).
Proof. unfold onPollResponse. cbv zeta. repeat later_step. Qed.

Lemma later_runCallback self cb w : later w (runCallback self cb w).
Proof.
  destruct cb; simpl; unfold pollTick, pollDeadline; cbv zeta;
    try apply later_makeRequest; repeat later_step.
Qed.

Lemma later_step_wf w e w' : wf w -> step w e = Some w' -> later w w'.
Proof.
  intros Hw Hs. destruct e as [| d | id | id o |]; simpl in Hs.
  - destruct (buttonEnabled (st w)); [| discriminate]. injection Hs as <-.
    unfold analyzeImage. cbv zeta.
    destruct (selectedImage (st w)); [| repeat later_step].
    eapply later_trans; [| apply later_makeRequest]. repeat later_step.
  - destruct (_ && _); [| discriminate]. injection Hs as <-.
    apply later_same; [reflexivity | simpl; lia].
  - unfold fire in Hs. destruct (findTimer id w) as [t|] eqn:Hf; [| discriminate].
    destruct (due t <=? now w); [| discriminate]. injection Hs as <-.
    eapply later_trans; [| apply later_runCallback].
    destruct (findTimer_some _ _ _ Hf) as [Hin Hid].
    destruct (wf_timer _ _ Hw Hin) as (_ & _ & Hok).
    destruct (period t) as [p|] eqn:Hp in |- *; [| apply later_clearTimer].
    apply later_reschedule. intros t' Hin' Ht'.
    assert (t' = t) by (eapply tid_inj; [exact (proj1 Hw) | | | congruence]; assumption).
    subst t'.
    assert (Hp5 : p = 5000).
    { destruct (callback t); try (destruct Hok as (Hp' & _));
        rewrite Hp in *; congruence. }
    lia.
  - unfold respond in Hs. destruct (findPending id w) as [p|]; [| discriminate].
    injection Hs as <-.
    apply (later_trans w (removePending id w));
      [apply later_same; [reflexivity | simpl; lia] |].
    destruct (cont p); [apply later_onSubmitResponse | apply later_onPollResponse].
  - destruct (tickerActive (st w)); [| discriminate]. injection Hs as <-.
    apply later_same; [reflexivity | simpl; lia].
Qed.

Lemma due_lower_run es : forall w w' pid T,
  wf w -> (pid < nextId w)%nat ->
  (forall t, In t (timers w) -> tid t = pid -> T <= due t) ->
  run w es = Some w' ->
  forall t, In t (timers w') -> tid t = pid -> T <= due t.
Proof.
  induction es as [|e es IH]; simpl; intros w w' pid T Hw Hlt Hlow Hr.
  - injection Hr as <-. assumption.
  - destruct (step w e) as [w1|] eqn:Hs; [| discriminate].
    destruct (later_step_wf _ _ _ Hw Hs) as [Hn Ho].
    apply (IH w1 w' pid T); [exact (wf_step _ _ _ Hw Hs) | lia | | assumption].
    intros t1 Hin1 Ht1. destruct (Ho t1 Hin1) as [(t & Hin & He & Hd) | Hge]; [| lia].
    specialize (Hlow t Hin ltac:(congruence)). lia.
Qed.

(** ** X7: the window of a polling loop *)

(** X7.  If an accepted submission starts polling at time [T], every tick of
    that loop's interval, whatever else happens meanwhile, runs no earlier
    than [T + 5000] and no later than [T + 360000]. *)
Theorem probes_stay_within_the_window
    (w : World) (id : nat) (p : Pending) (a : Z) (render : State)
    (r : AnalysisResponse) (w1 w2 w3 : World) (es : list Event)
    (Hw : wf w)
    (Hf : findPending id w = Some p) (Hk : cont p = SubmitAwait a render)
    (Hs : isSuccess r = true) (Hv : hasVideo r = false)
    (H1 : step w (Respond id (Response true (Some r))) = Some w1)
    (Hr : run w1 es = Some w2)
    (H3 : step w2 (Fire (nextId w)) = Some w3) :
  now w + 5000 <= now w2 <= now w + 360000.
Proof.
  destruct (polling_start w id p a render r Hf Hk Hs Hv) as [w1' (E1 & Ht & _)].
  rewrite H1 in E1. injection E1 as <-.
  assert (Hw1 : wf w1) by exact (wf_step _ _ _ Hw H1).
  assert (Hw2 : wf w2) by exact (wf_run es _ _ Hw1 Hr).
  destruct (step_fire_due _ _ _ H3) as [tk [Hftk Hdue]].
  destruct (findTimer_some _ _ _ Hftk) as [Hintk Hidtk].
  split.
  - assert (Hlow : now w + 5000 <= due tk).
    { apply (due_lower_run es w1 w2 (nextId w) (now w + 5000) Hw1); try assumption.
      - assert (Hin : In (mkTimer (nextId w) (now w + 5000) (Some 5000)
                            (PollTick (requestId render))) (timers w1))
          by (rewrite Ht; apply in_or_app; right; left; reflexivity).
        destruct (wf_timer _ _ Hw1 Hin) as (Hlt & _). exact Hlt.
      - rewrite Ht. intros t Hin Hid. apply in_app_or in Hin as [Hin | [<- | [<- | []]]].
        + destruct (wf_timer _ _ Hw Hin) as (Hlt & _). lia.
        + simpl; lia.
        + simpl in Hid. lia. }
    lia.
  - assert (Hdl : In (mkTimer (S (nextId w)) (now w + 360000) None
                        (PollDeadline (nextId w) (isProcessing render))) (timers w1))
      by (rewrite Ht; apply in_or_app; right; right; left; reflexivity).
    destruct (deadline_or_gone es w1 w2 _ (nextId w) (isProcessing render)
                Hw1 Hdl eq_refl Hr) as [Hin | Hnone].
    + destruct (wf_timer _ _ Hw2 Hin) as (_ & Hnow & _). simpl in Hnow. exact Hnow.
    + rewrite Hnone in H3. discriminate.
Qed.

(** X7 on the sample run: the first tick, 5000 ms after the acceptance. *)
Lemma probes_stay_within_the_window_witness :
  now wClicked + 5000 <= now (orInit (run w0 (tracePolling ++ [Elapse 5000])))
  <= now wClicked + 360000.
Proof.
  apply (probes_stay_within_the_window wClicked 0%nat
           (mkPending 0 (SubmitAwait 1 (st w0))) 1 (st w0) respAccepted
           (orInit (run w0 tracePolling))
           (orInit (run w0 (tracePolling ++ [Elapse 5000])))
           wFirstProbe [Elapse 5000]).
  - apply (wf_reach [Click]). vm_compute; reflexivity.
  - vm_compute; reflexivity.
  - reflexivity.
  - reflexivity.
  - reflexivity.
  - vm_compute; reflexivity.
  - vm_compute; reflexivity.
  - vm_compute; reflexivity.
Defined.

Lemma sameJob_handleFileSelect file u :
  sameJob (core u) (core (handleFileSelect file u)).
Proof.
  unfold handleFileSelect.
  destruct (startsWith (type file) (lit "image/")); simpl;
    [destruct (maxImageSize <? size file); simpl |];
    repeat split.
Qed.

Lemma sameJob_uiStep u e u' :
  uiStep u e = Some u' ->
  (exists ev, e = Component ev /\ step (core u) ev = Some (core u'))
  \/ sameJob (core u) (core u').
Proof.
  destruct e as [files | files | | | url | | ev]; simpl; intros H.
  - injection H as <-. right. unfold handleInputChange.
    destruct files; [repeat split | apply sameJob_handleFileSelect].
  - injection H as <-. right. unfold handleDrop. cbv zeta.
    destruct files; [repeat split |].
    apply (sameJob_handleFileSelect f (setIsDragOver false u)).
  - injection H as <-. right. repeat split.
  - injection H as <-. right. repeat split.
  - unfold readerLoaded in H. destruct (readers u); [discriminate |].
    injection H as <-. right. repeat split.
  - unfold readerFailed in H. destruct (readers u); [discriminate |].
    injection H as <-. right. repeat split.
  - destruct (step (core u) ev) as [w|] eqn:E; [| discriminate].
    injection H as <-. left. exists ev. split; [reflexivity | exact E].
Qed.

(** ** While the processing card is shown *)

Lemma hide_survives_clear pid w h :
  refersToPoll (timers w) pid -> In h (timers w) ->
  callback h = HideSuccessAnimation -> In h (timers (clearTimer pid w)).
Proof.
  intros Href Hin Hcb. apply in_clearTimer; [assumption |].
  intros He. specialize (Href h Hin He). rewrite Hcb in Href. discriminate.
Qed.

Lemma processing_same t w w' :
  processingInv t w ->
  now w' = now w ->
  isProcessing (st w') = isProcessing (st w) ->
  processingStartTime (st w') = processingStartTime (st w) ->
  showSuccessAnimation (st w') = showSuccessAnimation (st w) ->
  (forall h, In h (timers w) -> callback h = HideSuccessAnimation ->
             In h (timers w')) ->
  processingInv t w'.
Proof.
  intros (Hclock & Hstart & Hrange & Hhide) Hn Hp Hs Ha Hk.
  unfold processingInv. rewrite Hn, Hp, Hs, Ha.
  split; [assumption |]. split; [assumption |]. split; [assumption |].
  intros Hshow. destruct (Hhide Hshow) as (h & Hin & Hcb & Hd). exists h.
  split; [exact (Hk h Hin Hcb) | split; assumption].
Qed.

Lemma job_fields_makeRequest a render w :
  isProcessing (st (makeRequest a render w)) = isProcessing (st w)
  /\ processingStartTime (st (makeRequest a render w)) = processingStartTime (st w)
  /\ showSuccessAnimation (st (makeRequest a render w)) = showSuccessAnimation (st w).
Proof. crush_ops; repeat split. Qed.

Lemma job_fields_attemptFailed a render w :
  now (attemptFailed a render w) = now w
  /\ isProcessing (st (attemptFailed a render w)) = isProcessing (st w)
  /\ processingStartTime (st (attemptFailed a render w)) = processingStartTime (st w)
  /\ showSuccessAnimation (st (attemptFailed a render w)) = showSuccessAnimation (st w)
  /\ (forall h, In h (timers w) -> In h (timers (attemptFailed a render w))).
Proof.
  unfold attemptFailed, finallyAnalyze. cbv zeta.
  destruct (a <? 3); simpl; repeat split; auto.
  intros h Hh. apply in_or_app; left; assumption.
Qed.

Lemma processing_step t w e w' :
  wf w -> processingInv t w -> step w e = Some w' -> processingInv t w'.
Proof.
  intros Hw Hinv Hs. pose proof Hinv as (Hclock & Hstart & Hrange & Hhide).
  destruct e as [| d | id | id o |]; simpl in Hs.
  - destruct (buttonEnabled (st w)); [| discriminate]. injection Hs as <-.
    unfold analyzeImage.
    destruct (selectedImage (st w)) eqn:Hsel.
    + destruct (job_fields_makeRequest 1 (st w) (setState (setIsAnalyzing true) w))
        as (E1 & E2 & E3).
      apply (processing_same t w); try assumption.
      * rewrite now_makeRequest; reflexivity.
      * intros h Hh _.
        apply (timers_makeRequest 1 (st w) (setState (setIsAnalyzing true) w) h Hh).
    + apply (processing_same t w); try assumption; try reflexivity. auto.
  - destruct (0 <? d) eqn:Hd; simpl in Hs; [| discriminate].
    destruct (forallb _ _) eqn:Hall; [| discriminate]. injection Hs as <-.
    apply Z.ltb_lt in Hd. unfold processingInv. simpl.
    split; [lia |]. split; [assumption |].
    split; [intros s Hsome; specialize (Hrange s Hsome); lia |].
    intros Ha. destruct (Hhide Ha) as (h & Hin & Hcb & Hdue). exists h.
    repeat split; try assumption. lia.
  - unfold fire in Hs. destruct (findTimer id w) as [tm|] eqn:Hf; [| discriminate].
    destruct (due tm <=? now w); [| discriminate]. injection Hs as <-.
    destruct (findTimer_some _ _ _ Hf) as [Hin Hid].
    destruct (wf_timer _ _ Hw Hin) as (_ & _ & Hok).
    assert (Hother : forall h, In h (timers w) -> callback h = HideSuccessAnimation ->
              callback tm <> HideSuccessAnimation -> tid h <> id).
    { intros h Hh Hcb Hne He. apply Hne.
      assert (h = tm) by (eapply tid_inj; [exact (proj1 Hw) | | | congruence]; assumption).
      subst h. assumption. }
    destruct (callback tm) as [rq | pid isP | | a render] eqn:Ecb.
    + rewrite Hok. simpl. unfold pollTick. cbv zeta.
      apply (processing_same t w); try assumption; try reflexivity.
      intros h Hh Hcb. simpl. apply (in_reschedule_other id _ w h Hh).
      apply Hother; [assumption | assumption | discriminate].
    + destruct Hok as (Hp & _ & Href). rewrite Hp. simpl. unfold pollDeadline.
      cbv zeta.
      assert (Hkeep : forall h, In h (timers w) -> callback h = HideSuccessAnimation ->
                In h (timers (clearTimer pid (clearTimer id w)))).
      { intros h Hh Hcb. apply hide_survives_clear; [| | assumption].
        - simpl. apply refersToPoll_filter. exact Href.
        - apply in_clearTimer; [assumption |].
          apply Hother; [assumption | assumption | discriminate]. }
      destruct isP.
      * unfold processingInv. simpl. split; [assumption |].
        split; [discriminate |]. split; [assumption |].
        intros Ha. destruct (Hhide Ha) as (h & Hh & Hcb & Hd). exists h.
        repeat split; try assumption. exact (Hkeep h Hh Hcb).
      * apply (processing_same t w); try assumption; try reflexivity.
    + rewrite Hok. simpl. unfold processingInv. simpl.
      split; [assumption |]. split; [assumption |]. split; [assumption |]. discriminate.
    + destruct Hok as (Hp & _). rewrite Hp. simpl.
      destruct (job_fields_makeRequest a render (clearTimer id w)) as (E1 & E2 & E3).
      apply (processing_same t w); try assumption.
      * rewrite now_makeRequest; reflexivity.
      * intros h Hh Hcb. apply timers_makeRequest, in_clearTimer; [assumption |].
        apply Hother; [assumption | assumption | discriminate].
  - unfold respond in Hs. destruct (findPending id w) as [p|] eqn:Hf; [| discriminate].
    injection Hs as <-.
    destruct (findPending_some _ _ _ Hf) as [Hin Hid].
    destruct (wf_pending _ _ Hw Hin) as (_ & Hok).
    assert (Hfail : forall a render,
              processingInv t (attemptFailed a render (removePending id w))).
    { intros a render.
      destruct (job_fields_attemptFailed a render (removePending id w))
        as (E0 & E1 & E2 & E3 & E4).
      apply (processing_same t w); try assumption. intros h Hh _. exact (E4 h Hh). }
    destruct (cont p) as [a render | pid] eqn:Ek.
    + unfold onSubmitResponse.
      destruct o as [| [|] [r|]]; try apply Hfail.
      unfold onResult, startPollingForVideo, finallyAnalyze. cbv zeta.
      destruct (hasVideo r); [| destruct (isSuccess r)].
      * unfold processingInv. simpl. split; [assumption |].
        split; [discriminate |]. split; [assumption |]. intros _.
        eexists. split; [apply in_or_app; right; left; reflexivity |].
        split; [reflexivity | simpl; lia].
      * assert (Hgoal : forall w2,
                  now w2 = now w -> timers w2 = timers w ->
                  nextId w2 = nextId w ->
                  isProcessing (st w2) = true ->
                  processingStartTime (st w2) = Some (now w) ->
                  showSuccessAnimation (st w2) = showSuccessAnimation (st w) ->
                  processingInv t
                    (setState (setIsAnalyzing false)
                       (addTimer (now w2 + 360000) None
                          (PollDeadline (nextId w2) (isProcessing render))
                          (addTimer (now w2 + 5000) (Some 5000)
                             (PollTick (requestId render)) w2)))).
        { intros w2 E1 E2 E3 E4 E5 E6. unfold processingInv. simpl.
          rewrite E1, E2, E5, E6. split; [assumption |].
          split; [discriminate |].
          split; [intros s Hsome; injection Hsome as <-; lia |].
          intros Ha. destruct (Hhide Ha) as (h & Hh & Hcb & Hd). exists h.
          rewrite !in_app_iff. auto. }
        destruct (truthy_opt (request_id r)); apply Hgoal; reflexivity.
      * apply (processing_same t w); try assumption; try reflexivity; auto.
    + destruct Hok as (_ & Href). unfold onPollResponse.
      destruct o as [| [|] [r|]];
        try solve [apply (processing_same t w); try assumption; try reflexivity; auto].
      destruct (hasVideo r);
        [| apply (processing_same t w); try assumption; try reflexivity; auto].
      cbv zeta. unfold processingInv. simpl. split; [assumption |].
      split; [discriminate |]. split; [assumption |]. intros _.
      eexists. split; [apply in_or_app; right; left; reflexivity |].
      split; [reflexivity | simpl; lia].
  - destruct (tickerActive (st w)); [| discriminate]. injection Hs as <-.
    apply (processing_same t w); try assumption; try reflexivity; auto.
Qed.

Lemma processing_sameJob t w w' :
  processingInv t w -> sameJob w w' -> processingInv t w'.
Proof.
  intros Hinv (E1 & E2 & _ & _ & _ & E6 & E7 & _ & E9).
  apply (processing_same t w); try assumption. rewrite E2. auto.
Qed.

Lemma wf_sameJob w w' : wf w -> sameJob w w' -> wf w'.
Proof.
  intros (H1 & H2 & H3) (E1 & E2 & E3 & E4 & _). unfold wf.
  rewrite E1, E2, E3, E4. repeat split; assumption.
Qed.

Lemma exclusive_sameJob w w' : exclusive w -> sameJob w w' -> exclusive w'.
Proof.
  intros (H1 & H2) (_ & E2 & E3 & _ & E5 & _). unfold exclusive, attemptsInFlight,
    retriesScheduled in *. rewrite E2, E3, E5. split; assumption.
Qed.

Lemma component_uiStep t u e u' :
  componentInv t u -> uiStep u e = Some u' -> componentInv t u'.
Proof.
  intros (Hw & Hex & Hp & Hv) Hs.
  destruct (sameJob_uiStep _ _ _ Hs) as [(ev & -> & Hstep) | Hsame].
  - split; [exact (wf_step _ _ _ Hw Hstep) |].
    split; [exact (exclusive_step _ _ _ Hw Hex Hstep) |].
    split; [exact (processing_step _ _ _ _ Hw Hp Hstep) |].
    assert (Hr : run (core u) [ev] = Some (core u')) by (simpl; rewrite Hstep; reflexivity).
    exact (proj1 (videoUrl_run [ev] _ _ Hr) Hv).
  - split; [exact (wf_sameJob _ _ Hw Hsame) |].
    split; [exact (exclusive_sameJob _ _ Hex Hsame) |].
    split; [exact (processing_sameJob _ _ _ Hp Hsame) |].
    destruct Hsame as (_ & _ & _ & _ & _ & _ & _ & E8 & _). rewrite E8. exact Hv.
Qed.

Lemma component_uiRun t es : forall u u',
  componentInv t u -> uiRun u es = Some u' -> componentInv t u'.
Proof.
  induction es as [|e es IH]; simpl; intros u u' Hinv H.
  - injection H as <-; assumption.
  - destruct (uiStep u e) as [u1|] eqn:Hs; [| discriminate].
    apply (IH u1); [exact (component_uiStep _ _ _ _ Hinv Hs) | assumption].
Qed.

Lemma component_mounted t : componentInv t (mountedUi t).
Proof.
  split; [repeat split; constructor |].
  split; [split; [constructor | reflexivity] |].
  split; [| exact I].
  unfold processingInv; simpl. split; [lia |].
  split; [discriminate |]. split; [discriminate | discriminate].
Qed.

Lemma component_reach t es u :
  uiRun (mountedUi t) es = Some u -> componentInv t u.
Proof. apply component_uiRun, component_mounted. Qed.

Lemma videoUrl_uiRun es : forall u u',
  uiRun u es = Some u' ->
  videoUrl (st (core u)) <> None -> videoUrl (st (core u')) <> None.
Proof.
  induction es as [|e es IH]; simpl; intros u u' H Hne.
  - injection H as <-; assumption.
  - destruct (uiStep u e) as [u1|] eqn:Hs; [| discriminate].
    apply (IH u1 u' H).
    destruct (sameJob_uiStep _ _ _ Hs) as [(ev & _ & Hstep) | Hsame].
    + assert (Hr : run (core u) [ev] = Some (core u1))
        by (simpl; rewrite Hstep; reflexivity).
      exact (proj2 (videoUrl_run [ev] _ _ Hr) Hne).
    + destruct Hsame as (_ & _ & _ & _ & _ & _ & _ & E8 & _). rewrite E8. exact Hne.
Qed.

Ltac split_cases :=
  repeat match goal with
         | |- context [match ?x with _ => _ end] => destruct x
         | |- context [if ?x then _ else _] => destruct x
         end.

Lemma selected_makeRequest a render w :
  selectedImage (st (makeRequest a render w)) = selectedImage (st w).
Proof.
  unfold makeRequest, attemptFailed, finallyAnalyze. cbv zeta.
  split_cases; reflexivity.
Qed.

Lemma selected_onSubmitResponse a render o w :
  selectedImage (st (onSubmitResponse a render o w)) = selectedImage (st w).
Proof.
  unfold onSubmitResponse, onResult, startPollingForVideo, showVideo,
    attemptFailed, finallyAnalyze. cbv zeta.
  split_cases; reflexivity.
Qed.

Lemma selected_onPollResponse pid o w :
  selectedImage (st (onPollResponse pid o w)) = selectedImage (st w).
Proof.
  unfold onPollResponse, showVideo. cbv zeta. split_cases; reflexivity.
Qed.

Lemma selected_step w e w' :
  step w e = Some w' -> selectedImage (st w') = selectedImage (st w).
Proof.
  destruct e as [| d | id | id o |]; simpl; intros Hs.
  - destruct (buttonEnabled (st w)); [| discriminate]. injection Hs as <-.
    unfold analyzeImage. cbv zeta.
    destruct (selectedImage (st w)) eqn:Hf; [| simpl; assumption].
    rewrite selected_makeRequest. simpl. assumption.
  - destruct (_ && _); [| discriminate]. injection Hs as <-. reflexivity.
  - unfold fire in Hs. destruct (findTimer id w) as [t|]; [| discriminate].
    destruct (due t <=? now w); [| discriminate]. injection Hs as <-.
    assert (E : forall w1, st w1 = st w ->
                selectedImage (st (runCallback id (callback t) w1))
                = selectedImage (st w)).
    { intros w1 E1. destruct (callback t) as [rq | pid isP | | a render]; simpl.
      - rewrite E1; reflexivity.
      - unfold pollDeadline. cbv zeta. destruct isP; simpl; rewrite E1; reflexivity.
      - rewrite E1; reflexivity.
      - rewrite selected_makeRequest, E1; reflexivity. }
    apply E. destruct (period t); reflexivity.
  - unfold respond in Hs. destruct (findPending id w) as [p|]; [| discriminate].
    injection Hs as <-. destruct (cont p).
    + rewrite selected_onSubmitResponse. reflexivity.
    + rewrite selected_onPollResponse. reflexivity.
  - destruct (tickerActive (st w)); [| discriminate]. injection Hs as <-.
    reflexivity.
Qed.

Lemma selected_handleFileSelect file u :
  selectedImage (st (core u)) <> None ->
  selectedImage (st (core (handleFileSelect file u))) <> None.
Proof.
  intros H. unfold handleFileSelect.
  destruct (startsWith (type file) (lit "image/")); simpl; [| assumption].
  destruct (maxImageSize <? size file); simpl; [assumption | discriminate].
Qed.

Lemma preview_handleFileSelect file u :
  previewInv u -> previewInv (handleFileSelect file u).
Proof.
  unfold previewInv, handleFileSelect. intros H.
  destruct (startsWith (type file) (lit "image/")); simpl; [| assumption].
  destruct (maxImageSize <? size file); simpl; [assumption |].
  intros _. discriminate.
Qed.

Lemma preview_uiStep u e u' :
  previewInv u -> uiStep u e = Some u' ->
  previewInv u'
  /\ (selectedImage (st (core u)) <> None -> selectedImage (st (core u')) <> None).
Proof.
  intros Hp Hs. destruct e as [files | files | | | url | | ev]; simpl in Hs.
  - injection Hs as <-. unfold handleInputChange. destruct files.
    + split; [assumption | auto].
    + split; [apply preview_handleFileSelect; assumption
             | apply selected_handleFileSelect].
  - injection Hs as <-. unfold handleDrop. cbv zeta. destruct files.
    + split; [exact Hp | auto].
    + split; [apply preview_handleFileSelect; exact Hp
             | apply (selected_handleFileSelect f (setIsDragOver false u))].
  - injection Hs as <-. split; [exact Hp | auto].
  - injection Hs as <-. split; [exact Hp | auto].
  - unfold readerLoaded in Hs. destruct (readers u) eqn:Er; [discriminate |].
    injection Hs as <-. split; [| auto].
    intros _. simpl. apply Hp. right. rewrite Er. discriminate.
  - unfold readerFailed in Hs. destruct (readers u) eqn:Er; [discriminate |].
    injection Hs as <-. split; [| auto].
    intros _. simpl. apply Hp. right. rewrite Er. discriminate.
  - destruct (step (core u) ev) as [w|] eqn:E; [| discriminate].
    injection Hs as <-. pose proof (selected_step _ _ _ E) as Hsel.
    split; [| simpl; rewrite Hsel; auto].
    unfold previewInv. simpl. rewrite Hsel. exact Hp.
Qed.

Lemma preview_uiRun es : forall u u',
  previewInv u -> uiRun u es = Some u' ->
  previewInv u'
  /\ (selectedImage (st (core u)) <> None -> selectedImage (st (core u')) <> None).
Proof.
  induction es as [|e es IH]; simpl; intros u u' Hp H.
  - injection H as <-. split; [assumption | auto].
  - destruct (uiStep u e) as [u1|] eqn:Hs; [| discriminate].
    destruct (preview_uiStep _ _ _ Hp Hs) as [Hp1 Hk1].
    destruct (IH u1 u' Hp1 H) as [Hp2 Hk2]. split; [assumption | auto].
Qed.

Lemma preview_mounted t : previewInv (mountedUi t).
Proof. intros [H | H]; exfalso; apply H; reflexivity. Qed.

(** ** X8: choosing a file *)

(** X8.  [handleFileSelect] accepts a file exactly when its type begins with
    [image/] and its size is at most 10485760 bytes (the limit included).
    An accepted file becomes the selection, a reader is started for its
    preview and the ready toast is shown; a refused file changes neither the
    state nor the preview nor the readers and shows one destructive toast.
    A drop and the file input look at the first file only; with no file
    they leave the component as it is. *)
Theorem file_select_outcomes (file : File) (u : Ui) :
  (acceptable file = true <->
     startsWith (type file) (lit "image/") = true /\ size file <= 10485760)
  /\ (acceptable file = true ->
      selectedImage (st (core (handleFileSelect file u))) = Some file
      /\ log (core (handleFileSelect file u))
         = log (core u) ++ [EToast toastPictureReady]
      /\ readers (handleFileSelect file u) = S (readers u)
      /\ imagePreview (handleFileSelect file u) = imagePreview u)
  /\ (acceptable file = false ->
      st (core (handleFileSelect file u)) = st (core u)
      /\ imagePreview (handleFileSelect file u) = imagePreview u
      /\ readers (handleFileSelect file u) = readers u
      /\ exists t, log (core (handleFileSelect file u)) = log (core u) ++ [EToast t]
                   /\ destructive t = true)
  /\ (forall rest,
        core (handleDrop (file :: rest) u) = core (handleFileSelect file u)
        /\ handleInputChange (file :: rest) u = handleFileSelect file u)
  /\ handleInputChange [] u = u
  /\ core (handleDrop [] u) = core u.
Proof.
  split; [apply acceptable_iff |]. split; [| split; [| split; [| split]]].
  - unfold acceptable, handleFileSelect. rewrite andb_true_iff, Z.leb_le.
    intros [Ht Hs]. rewrite Ht. simpl.
    assert (E : (maxImageSize <? size file) = false) by (apply Z.ltb_ge; assumption).
    rewrite E. simpl. repeat split.
  - unfold acceptable, handleFileSelect.
    destruct (startsWith (type file) (lit "image/")); simpl.
    + intros Hs. apply Z.leb_gt in Hs. apply Z.ltb_lt in Hs. rewrite Hs. simpl.
      repeat split. exists toastTooBig. split; reflexivity.
    + intros _. repeat split. exists toastWrongFile. split; reflexivity.
  - intros rest. unfold handleDrop, handleInputChange, handleFileSelect. cbv zeta.
    split; [| reflexivity].
    destruct (startsWith (type file) (lit "image/")); simpl; [| reflexivity].
    destruct (maxImageSize <? size file); reflexivity.
  - reflexivity.
  - reflexivity.
Qed.

(** X8 on a picture of exactly 10485760 bytes, on one of one byte more and on
    a PDF. *)
Lemma file_select_outcomes_witness :
  (selectedImage (st (core (handleFileSelect fileAtLimit (mountedUi t0))))
   = Some fileAtLimit
   /\ log (core (handleFileSelect fileAtLimit (mountedUi t0)))
      = log (core (mountedUi t0)) ++ [EToast toastPictureReady]
   /\ readers (handleFileSelect fileAtLimit (mountedUi t0))
      = S (readers (mountedUi t0))
   /\ imagePreview (handleFileSelect fileAtLimit (mountedUi t0))
      = imagePreview (mountedUi t0))
  /\ (st (core (handleFileSelect fileTooBig uSubmitted)) = st (core uSubmitted)
      /\ imagePreview (handleFileSelect fileTooBig uSubmitted)
         = imagePreview uSubmitted
      /\ readers (handleFileSelect fileTooBig uSubmitted) = readers uSubmitted
      /\ exists t, log (core (handleFileSelect fileTooBig uSubmitted))
                   = log (core uSubmitted) ++ [EToast t]
                   /\ destructive t = true)
  /\ (st (core (handleFileSelect filePdf uSubmitted)) = st (core uSubmitted)
      /\ imagePreview (handleFileSelect filePdf uSubmitted)
         = imagePreview uSubmitted
      /\ readers (handleFileSelect filePdf uSubmitted) = readers uSubmitted
      /\ exists t, log (core (handleFileSelect filePdf uSubmitted))
                   = log (core uSubmitted) ++ [EToast t]
                   /\ destructive t = true).
Proof.
  split; [| split].
  - apply (proj1 (proj2 (file_select_outcomes fileAtLimit (mountedUi t0)))).
    reflexivity.
  - apply (proj1 (proj2 (proj2 (file_select_outcomes fileTooBig uSubmitted)))).
    reflexivity.
  - apply (proj1 (proj2 (proj2 (file_select_outcomes filePdf uSubmitted)))).
    reflexivity.
Defined.

Lemma untouched_handleFileSelect file u :
  untouched (core u) ->
  selectedImage (st (core (handleFileSelect file u))) = None ->
  untouched (core (handleFileSelect file u)).
Proof.
  unfold handleFileSelect. intros (H1 & H2 & H3 & H4 & H5).
  destruct (startsWith (type file) (lit "image/")); simpl.
  - destruct (maxImageSize <? size file); simpl; [| discriminate].
    intros _. repeat split; try assumption. simpl.
    rewrite forallb_app, H5. reflexivity.
  - intros _. repeat split; try assumption. simpl.
    rewrite forallb_app, H5. reflexivity.
Qed.

Lemma untouched_uiStep u e u' :
  (selectedImage (st (core u)) = None -> untouched (core u)) ->
  uiStep u e = Some u' ->
  selectedImage (st (core u')) = None -> untouched (core u').
Proof.
  intros Hi Hs Hn.
  assert (Hu : untouched (core u) /\ selectedImage (st (core u)) = None).
  { destruct (selectedImage (st (core u))) eqn:E; [| split; auto].
    exfalso.
    assert (Hp : previewInv u) by (intros _; rewrite E; discriminate).
    destruct (preview_uiStep _ _ _ Hp Hs) as [_ Hk].
    apply Hk; [rewrite E; discriminate | exact Hn]. }
  clear Hi. destruct Hu as [Hu Hsel].
  destruct e as [files | files | | | url | | ev]; simpl in Hs.
  - injection Hs as <-. unfold handleInputChange in *.
    destruct files; [assumption | apply untouched_handleFileSelect; assumption].
  - injection Hs as <-. unfold handleDrop in *. cbv zeta in *.
    destruct files; [assumption |].
    apply (untouched_handleFileSelect f (setIsDragOver false u)); assumption.
  - injection Hs as <-. assumption.
  - injection Hs as <-. assumption.
  - unfold readerLoaded in Hs. destruct (readers u); [discriminate |].
    injection Hs as <-. assumption.
  - unfold readerFailed in Hs. destruct (readers u); [discriminate |].
    injection Hs as <-. assumption.
  - destruct (step (core u) ev) as [w|] eqn:E; [| discriminate].
    injection Hs as <-. simpl. destruct Hu as (H1 & H2 & H3 & H4 & H5).
    destruct ev as [| d | id | id o |]; simpl in E.
    + unfold buttonEnabled in E. rewrite Hsel in E. discriminate.
    + destruct (_ && _); [| discriminate]. injection E as <-.
      repeat split; assumption.
    + unfold fire, findTimer in E. rewrite H2 in E. discriminate.
    + unfold respond, findPending in E. rewrite H3 in E. discriminate.
    + rewrite H1 in E. discriminate.
Qed.

Lemma untouched_uiRun es : forall u u',
  (selectedImage (st (core u)) = None -> untouched (core u)) ->
  uiRun u es = Some u' ->
  selectedImage (st (core u')) = None -> untouched (core u').
Proof.
  induction es as [|e es IH]; simpl; intros u u' Hi H.
  - injection H as <-. assumption.
  - destruct (uiStep u e) as [u1|] eqn:Hs; [| discriminate].
    apply (IH u1 u'); [exact (untouched_uiStep _ _ _ Hi Hs) | assumption].
Qed.

(** ** X9: before and after the first selection *)

(** X9.  As long as no picture has been accepted the component is in its
    initial state: no preview, no timer, no request, only refusal toasts,
    and the button does nothing.  Once a picture is selected there is
    always one selected, and the button is disabled exactly while a
    submission is being analyzed. *)
Theorem selection_is_never_cleared (t : Z) (es es' : list UiEvent) (u u' : Ui)
    (Hr : uiRun (mountedUi t) es = Some u) (Hr' : uiRun u es' = Some u') :
  (selectedImage (st (core u)) = None ->
     st (core u) = initialState /\ imagePreview u = None
     /\ timers (core u) = [] /\ inflight (core u) = []
     /\ forallb isRefusal (log (core u)) = true
     /\ step (core u) Click = None)
  /\ (selectedImage (st (core u)) <> None ->
      selectedImage (st (core u')) <> None
      /\ buttonEnabled (st (core u')) = negb (isAnalyzing (st (core u')))).
Proof.
  destruct (preview_uiRun es _ _ (preview_mounted t) Hr) as [Hp _].
  destruct (preview_uiRun es' _ _ Hp Hr') as [_ Hk].
  split.
  - intros Hn.
    assert (Hm : selectedImage (st (core (mountedUi t))) = None ->
                 untouched (core (mountedUi t)))
      by (intros _; repeat split).
    destruct (untouched_uiRun es _ _ Hm Hr Hn) as (H1 & H2 & H3 & _ & H5).
    split; [assumption |]. split.
    + destruct (imagePreview u) eqn:E; [| reflexivity].
      exfalso. apply Hp; [left; rewrite E; discriminate | exact Hn].
    + split; [assumption |]. split; [assumption |]. split; [assumption |].
      simpl. unfold buttonEnabled. rewrite Hn. reflexivity.
  - intros Hs. specialize (Hk Hs). split; [exact Hk |].
    unfold buttonEnabled. destruct (selectedImage (st (core u'))); [| contradiction].
    reflexivity.
Qed.

(** X9 after a refused PDF, and from the submission to the finished video of
    the sample session. *)
Lemma selection_is_never_cleared_witness :
  (selectedImage (st (core (orMounted (uiRun (mountedUi t0) [DropFiles [filePdf]; DragOver]))))
   = None ->
     st (core (orMounted (uiRun (mountedUi t0) [DropFiles [filePdf]; DragOver])))
     = initialState
     /\ imagePreview (orMounted (uiRun (mountedUi t0) [DropFiles [filePdf]; DragOver]))
        = None
     /\ timers (core (orMounted (uiRun (mountedUi t0) [DropFiles [filePdf]; DragOver])))
        = []
     /\ inflight (core (orMounted (uiRun (mountedUi t0) [DropFiles [filePdf]; DragOver])))
        = []
     /\ forallb isRefusal
          (log (core (orMounted (uiRun (mountedUi t0) [DropFiles [filePdf]; DragOver]))))
        = true
     /\ step (core (orMounted (uiRun (mountedUi t0) [DropFiles [filePdf]; DragOver])))
          Click = None)
  /\ selectedImage (st (core uDone)) <> None
  /\ buttonEnabled (st (core uDone)) = negb (isAnalyzing (st (core uDone))).
Proof.
  assert (H1 : uiRun (mountedUi t0) [DropFiles [filePdf]; DragOver]
               = Some (orMounted (uiRun (mountedUi t0) [DropFiles [filePdf]; DragOver])))
    by (vm_compute; reflexivity).
  assert (H2 : uiRun (mountedUi t0) uiTraceSubmitted = Some uSubmitted)
    by (vm_compute; reflexivity).
  assert (H3 : uiRun uSubmitted
                 [ Component (Respond 0 (Response true (Some respAccepted)));
                   Component (Elapse 5000); Component (Fire 1%nat);
                   Component (Respond 3 (Response true (Some respReady))) ]
               = Some uDone)
    by (vm_compute; reflexivity).
  split.
  - exact (proj1 (selection_is_never_cleared t0 _ [] _ _ H1 eq_refl)).
  - apply (proj2 (selection_is_never_cleared t0 _ _ _ _ H2 H3)).
    vm_compute. discriminate.
Defined.

(** ** X10: one submission at a time *)

(** X10.  In every state the component reaches from its mount, exactly one
    submission attempt is in flight or waiting for its retry delay while
    [isAnalyzing] is set, and none otherwise; while it is set a click does
    nothing; while it is not, every request in flight is a probe. *)
Theorem one_submission_at_a_time (t : Z) (es : list UiEvent) (u : Ui)
    (Hr : uiRun (mountedUi t) es = Some u) :
  (attemptsInFlight (core u) + retriesScheduled (core u)
   = if isAnalyzing (st (core u)) then 1 else 0)%nat
  /\ (isAnalyzing (st (core u)) = true -> step (core u) Click = None)
  /\ (isAnalyzing (st (core u)) = false ->
      forall p, In p (inflight (core u)) -> isProbe (cont p) = true).
Proof.
  destruct (component_reach t es u Hr) as (_ & (_ & Hc) & _).
  split; [exact Hc |]. split.
  - intros Han. simpl. unfold buttonEnabled. rewrite Han.
    destruct (selectedImage (st (core u))); reflexivity.
  - intros Han p Hin. rewrite Han in Hc.
    destruct (cont p) eqn:Ek; [| reflexivity]. exfalso.
    assert (Hin' : In p (filter (fun q => isSubmit (cont q)) (inflight (core u))))
      by (apply filter_In; split; [assumption | rewrite Ek; reflexivity]).
    unfold attemptsInFlight in Hc.
    destruct (filter (fun q => isSubmit (cont q)) (inflight (core u)));
      [destruct Hin' | simpl in Hc; lia].
Qed.

(** X10 on the sample session: just submitted, and processing. *)
Lemma one_submission_at_a_time_witness :
  ((attemptsInFlight (core uSubmitted) + retriesScheduled (core uSubmitted)
    = if isAnalyzing (st (core uSubmitted)) then 1 else 0)%nat
   /\ (isAnalyzing (st (core uSubmitted)) = true -> step (core uSubmitted) Click = None)
   /\ (isAnalyzing (st (core uSubmitted)) = false ->
       forall p, In p (inflight (core uSubmitted)) -> isProbe (cont p) = true))
  /\ step (core uSubmitted) Click = None
  /\ (forall p, In p (inflight (core uProcessing)) -> isProbe (cont p) = true).
Proof.
  assert (H1 : uiRun (mountedUi t0) uiTraceSubmitted = Some uSubmitted)
    by (vm_compute; reflexivity).
  assert (H2 : uiRun (mountedUi t0) uiTraceProcessing = Some uProcessing)
    by (vm_compute; reflexivity).
  split; [exact (one_submission_at_a_time t0 uiTraceSubmitted uSubmitted H1) |].
  split.
  - apply (proj1 (proj2 (one_submission_at_a_time t0 uiTraceSubmitted uSubmitted H1))).
    vm_compute; reflexivity.
  - apply (proj2 (proj2 (one_submission_at_a_time t0 uiTraceProcessing uProcessing H2))).
    vm_compute; reflexivity.
Defined.

(** ** X11: the video shown *)

(** X11.  In every state the component reaches from its mount, a video URL
    that is shown has passed the readiness test (not blank, beginning with
    [http]); and once a video is shown, no later event takes it away. *)
Theorem shown_video_passed_the_test (t : Z) (es es' : list UiEvent) (u u' : Ui)
    (Hr : uiRun (mountedUi t) es = Some u) (Hr' : uiRun u es' = Some u') :
  (forall url, videoUrl (st (core u)) = Some url ->
       truthy (trim url) = true /\ startsWith url (lit "http") = true)
  /\ (videoUrl (st (core u)) <> None -> videoUrl (st (core u')) <> None).
Proof.
  destruct (component_reach t es u Hr) as (_ & _ & _ & Hv). split.
  - intros url Hu. rewrite Hu in Hv. exact Hv.
  - exact (videoUrl_uiRun es' u u' Hr').
Qed.

(** X11 on the finished sample session and a further click. *)
Lemma shown_video_passed_the_test_witness :
  (forall url, videoUrl (st (core uDone)) = Some url ->
       truthy (trim url) = true /\ startsWith url (lit "http") = true)
  /\ (videoUrl (st (core uDone)) <> None ->
      videoUrl (st (core (orMounted (uiRun uDone [Component Click])))) <> None).
Proof.
  apply (shown_video_passed_the_test t0 uiTraceDone [Component Click] uDone
           (orMounted (uiRun uDone [Component Click])));
    vm_compute; reflexivity.
Defined.

(** ** X12: the processing card *)

(** X12.  For a component mounted at a positive time, whenever the processing
    card is shown the job has a start time between the mount and the
    present: the elapsed time is not negative, the refresh of the bar is
    active, the message and the remaining time are those of the elapsed
    seconds (never the placeholders), and the estimate lies between 0 and
    95. *)
Theorem processing_card_has_a_start (t : Z) (es : list UiEvent) (u : Ui)
    (Ht : 0 < t) (Hr : uiRun (mountedUi t) es = Some u)
    (Hp : isProcessing (st (core u)) = true) :
  exists s,
    processingStartTime (st (core u)) = Some s
    /\ t <= s <= now (core u)
    /\ 0 <= elapsedSeconds s (now (core u))
    /\ tickerActive (st (core u)) = true
    /\ getProcessingMessage (Some s) (now (core u))
       = processingMessage (elapsedSeconds s (now (core u)))
    /\ getEstimatedTimeRemaining (Some s) (now (core u))
       = estimatedTimeRemaining (elapsedSeconds s (now (core u)))
    /\ (0 <= getProgress (Some s) (now (core u)) <= 95)%Q.
Proof.
  destruct (component_reach t es u Hr) as (_ & _ & (_ & Hstart & Hrange & _) & _).
  destruct (processingStartTime (st (core u))) as [s|] eqn:Es;
    [| destruct (Hstart Hp eq_refl)].
  exists s. destruct (Hrange s eq_refl) as [H1 H2].
  assert (Hs0 : (s =? 0) = false) by (apply Z.eqb_neq; lia).
  assert (He : 0 <= elapsedSeconds s (now (core u)))
    by (unfold elapsedSeconds; apply Z.div_pos; lia).
  split; [reflexivity |]. split; [lia |]. split; [exact He |].
  split; [unfold tickerActive; rewrite Hp, Es; simpl; rewrite Hs0; reflexivity |].
  unfold getProcessingMessage, getEstimatedTimeRemaining, getProgress. rewrite Hs0.
  split; [reflexivity |]. split; [reflexivity |].
  split; [apply percentage_nonneg; exact He | apply percentage_le_95].
Qed.

(** X12 on the sample session while it is processing. *)
Lemma processing_card_has_a_start_witness :
  exists s,
    processingStartTime (st (core uProcessing)) = Some s
    /\ t0 <= s <= now (core uProcessing)
    /\ 0 <= elapsedSeconds s (now (core uProcessing))
    /\ tickerActive (st (core uProcessing)) = true
    /\ getProcessingMessage (Some s) (now (core uProcessing))
       = processingMessage (elapsedSeconds s (now (core uProcessing)))
    /\ getEstimatedTimeRemaining (Some s) (now (core uProcessing))
       = estimatedTimeRemaining (elapsedSeconds s (now (core uProcessing)))
    /\ (0 <= getProgress (Some s) (now (core uProcessing)) <= 95)%Q.
Proof.
  apply (processing_card_has_a_start t0 uiTraceProcessing uProcessing).
  - reflexivity.
  - vm_compute; reflexivity.
  - vm_compute; reflexivity.
Defined.

(** ** X13: the success animation *)

(** X13.  Whenever the success animation is shown, the timer that hides it
    is registered, due within the next 3000 ms; time cannot pass that
    instant before the timer runs, and when it runs the animation is hidden
    and the video stays. *)
Theorem success_animation_gets_hidden (t : Z) (es : list UiEvent) (u : Ui)
    (Hr : uiRun (mountedUi t) es = Some u)
    (Ha : showSuccessAnimation (st (core u)) = true) :
  exists h,
    findTimer (tid h) (core u) = Some h
    /\ callback h = HideSuccessAnimation
    /\ now (core u) <= due h <= now (core u) + 3000
    /\ (forall d w', step (core u) (Elapse d) = Some w' -> now w' <= due h)
    /\ (forall w', findTimer (tid h) w' = Some h -> due h <= now w' ->
          exists w'', step w' (Fire (tid h)) = Some w''
                      /\ showSuccessAnimation (st w'') = false
                      /\ videoUrl (st w'') = videoUrl (st w')).
Proof.
  destruct (component_reach t es u Hr) as (Hw & _ & (_ & _ & _ & Hhide) & _).
  destruct (Hhide Ha) as (h & Hin & Hcb & Hd). exists h.
  destruct (wf_timer _ _ Hw Hin) as (_ & Hnow & _).
  split; [apply findTimer_in; [exact (proj1 Hw) | assumption] |].
  split; [assumption |]. split; [lia |]. split.
  - intros d w' Hs. exact (elapse_stops_at_due _ _ _ h Hs Hin).
  - intros w' Hf Hdue. simpl. unfold fire. rewrite Hf.
    apply Z.leb_le in Hdue. rewrite Hdue, Hcb.
    eexists. split; [reflexivity |].
    destruct (period h); split; reflexivity.
Qed.

(** X13 on the finished sample session. *)
Lemma success_animation_gets_hidden_witness :
  exists h,
    findTimer (tid h) (core uDone) = Some h
    /\ callback h = HideSuccessAnimation
    /\ now (core uDone) <= due h <= now (core uDone) + 3000
    /\ (forall d w', step (core uDone) (Elapse d) = Some w' -> now w' <= due h)
    /\ (forall w', findTimer (tid h) w' = Some h -> due h <= now w' ->
          exists w'', step w' (Fire (tid h)) = Some w''
                      /\ showSuccessAnimation (st w'') = false
                      /\ videoUrl (st w'') = videoUrl (st w')).
Proof.
  apply (success_animation_gets_hidden t0 uiTraceDone uDone);
    vm_compute; reflexivity.
Defined.

(** ** The progress cell *)

Lemma progress_makeRequest a render w :
  progress (st (makeRequest a render w)) = progress (st w).
Proof.
  unfold makeRequest, attemptFailed, finallyAnalyze. cbv zeta.
  split_cases; reflexivity.
Qed.

Lemma progress_onSubmitResponse a render o w :
  progress (st (onSubmitResponse a render o w)) = progress (st w)
  \/ (progress (st (onSubmitResponse a render o w)) = 100%Q
      /\ videoUrl (st (onSubmitResponse a render o w)) <> None).
Proof.
  unfold onSubmitResponse.
  assert (F : progress (st (attemptFailed a render w)) = progress (st w))
    by (unfold attemptFailed, finallyAnalyze; cbv zeta; split_cases; reflexivity).
  destruct o as [| [|] [r|]]; try (left; exact F).
  unfold onResult, startPollingForVideo, finallyAnalyze. cbv zeta.
  destruct (hasVideo r) eqn:Hv.
  - right. simpl. split; [reflexivity | exact (proj2 (hasVideo_shown r Hv))].
  - left. split_cases; reflexivity.
Qed.

Lemma progress_onPollResponse pid o w :
  progress (st (onPollResponse pid o w)) = progress (st w)
  \/ (progress (st (onPollResponse pid o w)) = 100%Q
      /\ videoUrl (st (onPollResponse pid o w)) <> None).
Proof.
  unfold onPollResponse.
  destruct o as [| [|] [r|]]; try (left; reflexivity).
  destruct (hasVideo r) eqn:Hv; [| left; reflexivity].
  right. simpl. split; [reflexivity | exact (proj2 (hasVideo_shown r Hv))].
Qed.

Lemma getProgress_nonneg (start : option Z) (t : Z) :
  (forall s, start = Some s -> s <= t) -> (0 <= getProgress start t)%Q.
Proof.
  intros H. unfold getProgress. destruct start as [s|]; [| apply Qle_refl].
  destruct (s =? 0); [apply Qle_refl |].
  apply percentage_nonneg. unfold elapsedSeconds.
  apply Z.div_pos; [specialize (H s eq_refl); lia | lia].
Qed.

Lemma progressInv_same w w' :
  progressInv w ->
  progress (st w') = progress (st w) ->
  (videoUrl (st w) <> None -> videoUrl (st w') <> None) ->
  progressInv w'.
Proof.
  intros [H1 H2] Ep Hv. unfold progressInv. rewrite Ep. split; [exact H1 | auto].
Qed.

Lemma progressInv_step t w e w' :
  processingInv t w -> progressInv w -> step w e = Some w' -> progressInv w'.
Proof.
  intros Hp Hi Hs.
  assert (Hv : videoUrl (st w) <> None -> videoUrl (st w') <> None).
  { assert (Hr : run w [e] = Some w') by (simpl; rewrite Hs; reflexivity).
    exact (proj2 (videoUrl_run [e] _ _ Hr)). }
  assert (Hdone : progress (st w') = 100%Q -> videoUrl (st w') <> None ->
                  progressInv w')
    by (intros E N; split; [right; exact E | intros _; exact N]).
  destruct e as [| d | id | id o |]; simpl in Hs.
  - destruct (buttonEnabled (st w)); [| discriminate]. injection Hs as <-.
    apply (progressInv_same w); [assumption | | assumption].
    unfold analyzeImage. cbv zeta.
    destruct (selectedImage (st w)); [| reflexivity].
    rewrite progress_makeRequest. reflexivity.
  - destruct (_ && _); [| discriminate]. injection Hs as <-.
    apply (progressInv_same w); [assumption | reflexivity | assumption].
  - unfold fire in Hs. destruct (findTimer id w) as [tm|]; [| discriminate].
    destruct (due tm <=? now w); [| discriminate]. injection Hs as <-.
    apply (progressInv_same w); [assumption | | assumption].
    assert (E : forall w1, st w1 = st w ->
                progress (st (runCallback id (callback tm) w1)) = progress (st w)).
    { intros w1 E1. destruct (callback tm) as [rq | pid isP | | a render]; simpl.
      - rewrite E1; reflexivity.
      - unfold pollDeadline. cbv zeta. destruct isP; simpl; rewrite E1; reflexivity.
      - rewrite E1; reflexivity.
      - rewrite progress_makeRequest, E1; reflexivity. }
    apply E. destruct (period tm); reflexivity.
  - unfold respond in Hs. destruct (findPending id w) as [p|]; [| discriminate].
    injection Hs as <-. destruct (cont p) as [a render | pid].
    + destruct (progress_onSubmitResponse a render o (removePending id w))
        as [E | [E N]].
      * apply (progressInv_same w); assumption.
      * apply Hdone; assumption.
    + destruct (progress_onPollResponse pid o (removePending id w)) as [E | [E N]].
      * apply (progressInv_same w); assumption.
      * apply Hdone; assumption.
  - destruct (tickerActive (st w)); [| discriminate]. injection Hs as <-.
    unfold progressTick, progressInv. simpl.
    destruct Hp as (_ & _ & Hrange & _).
    assert (H0 : (0 <= getProgress (processingStartTime (st w)) (now w))%Q)
      by (apply getProgress_nonneg; intros s Es; exact (proj2 (Hrange s Es))).
    pose proof (getProgress_le_95 (processingStartTime (st w)) (now w)) as H95.
    split; [left; split; assumption |].
    intros E. exfalso. rewrite E in H95. apply Qle_not_lt in H95. apply H95.
    reflexivity.
Qed.

Lemma progress_handleFileSelect file u :
  progress (st (core (handleFileSelect file u))) = progress (st (core u))
  /\ videoUrl (st (core (handleFileSelect file u))) = videoUrl (st (core u)).
Proof.
  unfold handleFileSelect.
  destruct (startsWith (type file) (lit "image/")); simpl; [| split; reflexivity].
  destruct (maxImageSize <? size file); split; reflexivity.
Qed.

Lemma progressInv_uiStep t u e u' :
  componentInv t u -> progressInv (core u) -> uiStep u e = Some u' ->
  progressInv (core u').
Proof.
  intros (_ & _ & Hp & _) Hi Hs.
  destruct e as [files | files | | | url | | ev]; simpl in Hs.
  - injection Hs as <-. unfold handleInputChange.
    destruct files; [assumption |].
    destruct (progress_handleFileSelect f u) as [E1 E2].
    apply (progressInv_same (core u)); [assumption | exact E1 | rewrite E2; auto].
  - injection Hs as <-. unfold handleDrop. cbv zeta.
    destruct files; [assumption |].
    destruct (progress_handleFileSelect f (setIsDragOver false u)) as [E1 E2].
    apply (progressInv_same (core u)); [assumption | exact E1 | rewrite E2; auto].
  - injection Hs as <-. assumption.
  - injection Hs as <-. assumption.
  - unfold readerLoaded in Hs. destruct (readers u); [discriminate |].
    injection Hs as <-. assumption.
  - unfold readerFailed in Hs. destruct (readers u); [discriminate |].
    injection Hs as <-. assumption.
  - destruct (step (core u) ev) as [w|] eqn:E; [| discriminate].
    injection Hs as <-. simpl. exact (progressInv_step t _ _ _ Hp Hi E).
Qed.

Lemma progressInv_uiRun t es : forall u u',
  componentInv t u -> progressInv (core u) -> uiRun u es = Some u' ->
  progressInv (core u').
Proof.
  induction es as [|e es IH]; simpl; intros u u' Hc Hi H.
  - injection H as <-; assumption.
  - destruct (uiStep u e) as [u1|] eqn:Hs; [| discriminate].
    apply (IH u1 u'); [exact (component_uiStep _ _ _ _ Hc Hs) | | assumption].
    exact (progressInv_uiStep _ _ _ _ Hc Hi Hs).
Qed.

Lemma shownPercentage_range (p : Q) :
  (0 <= p <= 95)%Q -> 0 <= shownPercentage p <= 95.
Proof.
  intros [H0 H95]. split.
  - change 0 with (shownPercentage 0). apply shownPercentage_mono; assumption.
  - change 95 with (shownPercentage 95). apply shownPercentage_mono; assumption.
Qed.

(** ** X4: the number the progress bar prints *)

(** X4.  In every state the component reaches from its mount, the number
    that [ProgressBar] prints, [Math.round(progress)], is an integer between
    0 and 95 or it is 100; it is 100 only when a video is stored; and after
    a refresh of the bar it lies between 0 and 95. *)
Theorem bar_shows_estimate_or_100 (t : Z) (es : list UiEvent) (u : Ui)
    (Hr : uiRun (mountedUi t) es = Some u) :
  (0 <= shownPercentage (progress (st (core u))) <= 95
   \/ shownPercentage (progress (st (core u))) = 100)
  /\ (shownPercentage (progress (st (core u))) = 100 ->
      videoUrl (st (core u)) <> None)
  /\ (forall w', step (core u) Tick = Some w' ->
        0 <= shownPercentage (progress (st w')) <= 95).
Proof.
  pose proof (component_reach t es u Hr) as Hc.
  assert (Hm : progressInv (core (mountedUi t))).
  { split; [left; split; discriminate | intros E; discriminate E]. }
  pose proof (progressInv_uiRun t es _ _ (component_mounted t) Hm Hr) as [H1 H2].
  split; [| split].
  - destruct H1 as [H | E]; [left; apply shownPercentage_range, H |].
    right. rewrite E. reflexivity.
  - intros E. destruct H1 as [H | E1]; [| exact (H2 E1)].
    pose proof (shownPercentage_range _ H). lia.
  - intros w' Hs. simpl in Hs.
    destruct (tickerActive (st (core u))); [| discriminate]. injection Hs as <-.
    unfold progressTick. simpl. apply shownPercentage_range.
    destruct Hc as (_ & _ & (_ & _ & Hrange & _) & _). split.
    + apply getProgress_nonneg. intros s Es. exact (proj2 (Hrange s Es)).
    + apply getProgress_le_95.
Qed.

(** X4 on the finished sample session, which prints 100, and at 138 s of
    processing, where the refresh of the bar stores 57.49999999999999. *)
Lemma bar_shows_estimate_or_100_witness :
  ((0 <= shownPercentage (progress (st (core uDone))) <= 95
    \/ shownPercentage (progress (st (core uDone))) = 100)
   /\ (shownPercentage (progress (st (core uDone))) = 100 ->
       videoUrl (st (core uDone)) <> None)
   /\ (forall w', step (core uDone) Tick = Some w' ->
         0 <= shownPercentage (progress (st w')) <= 95))
  /\ videoUrl (st (core uDone)) <> None
  /\ shownPercentage (progress (st (core uAt138))) = 57.
Proof.
  assert (H : uiRun (mountedUi t0) uiTraceDone = Some uDone)
    by (vm_compute; reflexivity).
  split; [exact (bar_shows_estimate_or_100 t0 uiTraceDone uDone H) |]. split.
  - apply (proj1 (proj2 (bar_shows_estimate_or_100 t0 uiTraceDone uDone H))).
    vm_compute; reflexivity.
  - vm_compute; reflexivity.
Defined.
